(** * WnLRenderer: a shallow embedding of [window.h], [renderer.h] and the
      render loop of [main.cpp], with the properties stated about them.

    Conventions of the embedding.
    - C++ [int], [GLint], [GLuint], [GLsizei], [uint32_t] are [Z]; the few
      conversions the code performs are written out.
    - C++ [float] is IEEE-754 binary32 with round-to-nearest-even, taken from
      the specification of floating-point numbers of the standard library
      ([spec_float] at precision 24, maximal exponent 128).
    - GL and GLFW are external: every call a function issues is recorded, with
      what it returned, in a chronological trace, and what a call returns is
      an arbitrary function of the calls made so far.
    - glm is external: its matrix type and the functions used are
      operations of an interface ([Glm]).
    - A constructor that leaves a member unwritten receives the prior content
      of the storage it constructs into, and that content stays in the
      member. *)

From Stdlib Require Import ZArith List Bool Lia.
From Stdlib Require Import Floats.SpecFloat.
From stdpp Require Import gmap strings list.

Local Open Scope string_scope.
Local Open Scope list_scope.
Local Open Scope Z_scope.

(** ** Exceptions and outcomes *)

(** The only exception type thrown by the sources is [std::runtime_error]. *)
Inductive exception : Type :=
| runtime_error (what : string).

(** Result of running a piece of C++: normal return, a thrown exception, or
    undefined behaviour (dereferencing a null [shared_ptr], converting an
    out-of-range float to an unsigned integer). *)
Inductive outcome (A : Type) : Type :=
| Ok (a : A)
| Throw (e : exception)
| Undefined.

Arguments Ok {A} a.
Arguments Throw {A} e.
Arguments Undefined {A}.

Definition is_Ok {A} (o : outcome A) : bool :=
  match o with Ok _ => true | _ => false end.

Definition is_Throw {A} (o : outcome A) : bool :=
  match o with Throw _ => true | _ => false end.

(** ** window.h *)

Module window.

(** Constants of [GLFW/glfw3.h]. *)
Definition GLFW_TRUE : Z := 1.
Definition GLFW_FALSE : Z := 0.
Definition GLFW_KEY_ESCAPE : Z := 256.
Definition GLFW_PRESS : Z := 1.

(** The part of a [GLFWwindow] the sources read or write: the close flag
    behind [glfwWindowShouldClose] / [glfwSetWindowShouldClose]. *)
Record GLFWwindow : Type := {
  shouldClose : Z
}.

Definition glfwWindowShouldClose (g : GLFWwindow) : Z := shouldClose g.

Definition glfwSetWindowShouldClose (g : GLFWwindow) (value : Z) : GLFWwindow :=
  {| shouldClose := value |}.

Record Window : Type := {
  window_width_ : Z;
  window_height_ : Z;
  window_title_ : string;
  window_ : GLFWwindow;
  context_out_ : bool
}.

(** [Window::should_close]. *)
Definition should_close (w : Window) : bool :=
  negb (glfwWindowShouldClose (window_ w) =? GLFW_TRUE).

(** [Window::key_callback], acting on the window it was registered for. *)
Definition key_callback (w : Window) (key scancode action mods : Z) : Window :=
  if (key =? GLFW_KEY_ESCAPE) && (action =? GLFW_PRESS)
  then {| window_width_ := window_width_ w;
          window_height_ := window_height_ w;
          window_title_ := window_title_ w;
          window_ := glfwSetWindowShouldClose (window_ w) GLFW_TRUE;
          context_out_ := context_out_ w |}
  else w.

Definition set_context_out (w : Window) (b : bool) : Window :=
  {| window_width_ := window_width_ w;
     window_height_ := window_height_ w;
     window_title_ := window_title_ w;
     window_ := window_ w;
     context_out_ := b |}.

(** [std::atomic<bool>::compare_exchange_strong (expected, desired)] as one
    indivisible step: the new content of the cell, whether the exchange
    happened, and the value left in [expected]. *)
Definition compare_exchange_strong (cell expected desired : bool)
  : bool * bool * bool :=
  if Bool.eqb cell expected then (desired, true, expected)
  else (cell, false, cell).

(** The token. Its only member is the reference to the window it came from;
    here that is the window the operations are applied to. *)
Inductive OpenGLContext : Type :=
| OpenGLContext_of_window.

(** [Window::get_context]. *)
Definition get_context (w : Window) : Window * outcome OpenGLContext :=
  let expected := false in
  let '(cell, exchanged, _) :=
    compare_exchange_strong (context_out_ w) expected true in
  let w' := set_context_out w cell in
  if negb exchanged
  then (w', Throw (runtime_error "OpenGL context already acquired!"))
  else (w', Ok OpenGLContext_of_window).

(** [OpenGLContext::~OpenGLContext]. *)
Definition OpenGLContext_dtor (w : Window) (c : OpenGLContext) : Window :=
  set_context_out w false.

(** *** Interleavings

    Any number of threads call [get_context] and destroy the tokens they
    hold.  The indivisible steps are the compare-exchange of [get_context],
    its return (after [glfwMakeContextCurrent]), the start of a destructor
    ([glfwMakeContextCurrent(nullptr)]) and the destructor's store.  The
    state counts the calls between those steps. *)
Record sys : Type := {
  win : Window;
  returning : nat;   (* exchange done, token not yet returned *)
  live : nat;        (* tokens returned and not yet being destroyed *)
  releasing : nat    (* destructors started, flag not yet stored *)
}.

Inductive event : Type :=
| EvExchange      (* some thread runs the compare-exchange of get_context *)
| EvReturn        (* a call whose exchange succeeded returns its token *)
| EvDtorBegin     (* a live token starts being destroyed *)
| EvDtorStore.    (* a running destructor stores false *)

Definition fire (e : event) (s : sys) : option sys :=
  match e with
  | EvExchange =>
      match get_context (win s) with
      | (w', Ok _) =>
          Some {| win := w'; returning := S (returning s);
                  live := live s; releasing := releasing s |}
      | (w', _) =>
          Some {| win := w'; returning := returning s;
                  live := live s; releasing := releasing s |}
      end
  | EvReturn =>
      match returning s with
      | O => None
      | S n => Some {| win := win s; returning := n;
                       live := S (live s); releasing := releasing s |}
      end
  | EvDtorBegin =>
      match live s with
      | O => None
      | S n => Some {| win := win s; returning := returning s;
                       live := n; releasing := S (releasing s) |}
      end
  | EvDtorStore =>
      match releasing s with
      | O => None
      | S n => Some {| win := OpenGLContext_dtor (win s) OpenGLContext_of_window;
                       returning := returning s;
                       live := live s; releasing := n |}
      end
  end.

Fixpoint run (es : list event) (s : sys) : option sys :=
  match es with
  | [] => Some s
  | e :: es' =>
      match fire e s with
      | Some s' => run es' s'
      | None => None
      end
  end.

(** A freshly constructed window: [context_out_ = false], no token. *)
Definition fresh (w : Window) : sys :=
  {| win := set_context_out w false; returning := 0; live := 0; releasing := 0 |}.

(** Calls that own the flag: between a successful exchange and the store of
    the matching destructor. *)
Definition outstanding (s : sys) : nat :=
  (returning s + live s + releasing s)%nat.

Definition flag_matches (s : sys) : Prop :=
  outstanding s = if context_out_ (win s) then 1%nat else 0%nat.

End window.

(** ** C++ [float] *)

Module f32.

Definition prec : Z := 24.
Definition emax : Z := 128.

Definition float : Type := spec_float.

Definition add : float -> float -> float := SFadd prec emax.
Definition sub : float -> float -> float := SFsub prec emax.
Definition div : float -> float -> float := SFdiv prec emax.

(** Conversion of an integer ([static_cast<float>], integral literals). *)
Definition of_Z (z : Z) : float := binary_normalize prec emax z 0 false.

(** The literals of the sources. *)
Definition zero : float := S754_zero false.   (* 0.0F *)
Definition one : float := of_Z 1.             (* 1.0F *)
Definition two : float := of_Z 2.             (* 2.0F *)

(** [std::round (float)]: nearest integer, halfway cases away from zero. *)
Definition round (x : float) : float :=
  match x with
  | S754_finite s m e =>
      if 0 <=? e then x
      else
        let d := 2 ^ (- e) in
        let q := (Zpos m + d / 2) / d in
        if q =? 0 then S754_zero s
        else binary_normalize prec emax (cond_Zopp s q) 0 s
  | _ => x
  end.

Definition uint32_max : Z := 2 ^ 32 - 1.

(** Implicit conversion [float -> uint32_t]: truncation towards zero; the
    behaviour is undefined when the truncated value is not representable. *)
Definition to_uint32 (x : float) : outcome Z :=
  match x with
  | S754_zero _ => Ok 0
  | S754_finite s m e =>
      let t := if 0 <=? e then Zpos m * 2 ^ e else Zpos m / 2 ^ (- e) in
      if t =? 0 then Ok 0
      else if s then Undefined
      else if t <=? uint32_max then Ok t
      else Undefined
  | _ => Undefined
  end.


End f32.

(** ** glm *)

Record vec2 : Type := { vec2_x : f32.float; vec2_y : f32.float }.
Record vec3 : Type := { vec3_x : f32.float; vec3_y : f32.float; vec3_z : f32.float }.

(** The matrix type of glm and the functions of glm the sources call. *)
Class Glm : Type := {
  mat4 : Type;
  mat4_diag : f32.float -> mat4;                 (* glm::mat4(s) *)
  glm_translate : mat4 -> vec3 -> mat4;          (* glm::translate(m, v) *)
  glm_scale : mat4 -> vec3 -> mat4;              (* glm::scale(m, v) *)
  mat4_mul : mat4 -> mat4 -> mat4;               (* operator*(mat4, mat4) *)
  glm_ortho : f32.float -> f32.float -> f32.float -> f32.float -> mat4
}.

(** ** The GL / GLFW boundary *)

Module gl.

(** Enumerants of [glad/gles2.h]. *)
Definition GL_FALSE : Z := 0.
Definition GL_TRIANGLES : Z := 0x0004.
Definition GL_TEXTURE_2D : Z := 0x0DE1.
Definition GL_UNSIGNED_INT : Z := 0x1405.
Definition GL_RED : Z := 0x1903.
Definition GL_RGB : Z := 0x1907.
Definition GL_RGBA : Z := 0x1908.
Definition GL_COLOR_BUFFER_BIT : Z := 0x4000.
Definition GL_TEXTURE0 : Z := 0x84C0.
Definition GL_TEXTURE1 : Z := 0x84C1.
Definition GL_TEXTURE2 : Z := 0x84C2.
Definition GL_ARRAY_BUFFER : Z := 0x8892.
Definition GL_ELEMENT_ARRAY_BUFFER : Z := 0x8893.
Definition GL_FRAGMENT_SHADER : Z := 0x8B30.
Definition GL_VERTEX_SHADER : Z := 0x8B31.
Definition GL_COMPILE_STATUS : Z := 0x8B81.
Definition GL_LINK_STATUS : Z := 0x8B82.
Definition GL_INFO_LOG_LENGTH : Z := 0x8B84.

(** The calls issued by the modelled functions, with their arguments. *)
Inductive Call `{Glm} : Type :=
| glCreateShader (type : Z)
| glShaderSource (shader : Z) (src : string)
| glCompileShader (shader : Z)
| glGetShaderiv (shader pname : Z)
| glGetShaderInfoLog (shader bufSize : Z)
| glDeleteShader (shader : Z)
| glCreateProgram
| glAttachShader (program shader : Z)
| glLinkProgram (program : Z)
| glDetachShader (program shader : Z)
| glGetProgramiv (program pname : Z)
| glGetProgramInfoLog (program bufSize : Z)
| glDeleteProgram (program : Z)
| glUseProgram (program : Z)
| glGetUniformLocation (program : Z) (name : string)
| glGetAttribLocation (program : Z) (name : string)
| glUniform1i (location v0 : Z)
| glUniformMatrix4fv (location count transpose : Z) (value : mat4)
| glActiveTexture (texture : Z)
| glBindTexture (target texture : Z)
| glBindVertexArray (array : Z)
| glBindBuffer (target buffer : Z)
| glDeleteBuffers (buffer : Z)          (* glDeleteBuffers(1, &buffer) *)
| glDeleteTextures (texture : Z)        (* glDeleteTextures(1, &texture) *)
| glDeleteVertexArrays (array : Z)      (* glDeleteVertexArrays(1, &array) *)
| glDrawElements (mode count type indices : Z)
| glViewport (x y width height : Z)
| glClear (mask : Z)
| glfwSwapBuffers.

(** What a call handed back: nothing, an integer (a return value or the
    integer written through an out-pointer), or a string (an info log). *)
Inductive Ret : Type :=
| RVoid
| RInt (z : Z)
| RStr (s : string).

Definition Event `{Glm} : Type := (Call * Ret)%type.

(** The implementation behind the boundary: what an integer-valued or
    string-valued call returns, given the calls made before it. *)
Record Driver `{Glm} : Type := {
  answer_int : list Event -> Call -> Z;
  answer_str : list Event -> Call -> string
}.

Section Monad.
Context `{Glm} (drv : Driver).

(** A computation reads the trace so far and yields the events it adds and
    its outcome. *)
Definition M (A : Type) : Type := list Event -> list Event * outcome A.

Definition ret {A} (a : A) : M A := fun _ => ([], Ok a).

Definition throw {A} (e : exception) : M A := fun _ => ([], Throw e).

Definition undefined {A} : M A := fun _ => ([], Undefined).

Definition bind {A B} (m : M A) (k : A -> M B) : M B :=
  fun h =>
    match m h with
    | (n1, Ok a) => let '(n2, r) := k a (h ++ n1) in (n1 ++ n2, r)
    | (n1, Throw e) => (n1, Throw e)
    | (n1, Undefined) => (n1, Undefined)
    end.

Definition call_void (c : Call) : M unit :=
  fun _ => ([(c, RVoid)], Ok tt).

Definition call_int (c : Call) : M Z :=
  fun h => let z := answer_int drv h c in ([(c, RInt z)], Ok z).

Definition call_str (c : Call) : M string :=
  fun h => let s := answer_str drv h c in ([(c, RStr s)], Ok s).

(** [p->...] on a smart pointer: undefined when the pointer is null. *)
Definition deref {A} (p : option A) : M A :=
  match p with
  | Some a => ret a
  | None => undefined
  end.

End Monad.

Arguments ret {_ _} a _.
Arguments throw {_ _} e _.
Arguments undefined {_ _} _.
Arguments bind {_ _ _} m k _.
Arguments call_void {_} c _.
Arguments deref {_ _} p _.

End gl.

Notation "x <- m ;; k" := (gl.bind m (fun x => k))
  (at level 100, m at next level, right associativity).
Notation "m ;; k" := (gl.bind m (fun _ => k))
  (at level 100, right associativity).

(** ** renderer.h *)

Module renderer.
Import gl.

(** The template parameter [format]; the [requires] clause admits exactly
    these three values. *)
Inductive Format : Type := RGBA | RGB | RED.

Definition GLenum_of (f : Format) : Z :=
  match f with
  | RGBA => GL_RGBA
  | RGB => GL_RGB
  | RED => GL_RED
  end.

Definition is_RED (f : Format) : bool :=
  match f with RED => true | _ => false end.

Definition newline : string := String (Ascii.ascii_of_nat 10) EmptyString.

Record ShaderProgram : Type := {
  shaderProgram_ : Z;
  m_UniformLocationCache : gmap string Z;
  m_AttributeLocationCache : gmap string Z
}.

Record VertexBuffer : Type := { vbo_ : Z }.

Record IndexBuffer : Type := { ibo_ : Z; count_ : Z }.

Record VertexArray : Type := {
  va_vbo_ : option VertexBuffer;    (* std::shared_ptr<VertexBuffer> vbo_ *)
  vao_ : Z
}.

Record Texture : Type := {
  width_ : Z;
  height_ : Z;
  textureId_ : Z;
  pbo_ : Z;
  buffer_size_ : Z
}.

Record Mesh : Type := {
  vertex_array_ : option VertexArray;     (* std::unique_ptr *)
  vertex_buffer_ : option VertexBuffer;   (* std::shared_ptr *)
  index_buffer_ : option IndexBuffer      (* std::shared_ptr *)
}.

(** *** Move construction and destruction of the five wrappers

    Each move constructor returns the constructed object and the moved-from
    object.  [raw] is the content of the storage before construction; it
    only matters for the members the constructor does not initialise. *)

Definition ShaderProgram_move (other : ShaderProgram)
  : ShaderProgram * ShaderProgram :=
  ({| shaderProgram_ := shaderProgram_ other;
      m_UniformLocationCache := ∅;
      m_AttributeLocationCache := ∅ |},
   {| shaderProgram_ := 0;
      m_UniformLocationCache := m_UniformLocationCache other;
      m_AttributeLocationCache := m_AttributeLocationCache other |}).

Definition VertexBuffer_move (other : VertexBuffer)
  : VertexBuffer * VertexBuffer :=
  ({| vbo_ := vbo_ other |}, {| vbo_ := 0 |}).

Definition IndexBuffer_move (raw other : IndexBuffer)
  : IndexBuffer * IndexBuffer :=
  ({| ibo_ := ibo_ other; count_ := count_ raw |},
   {| ibo_ := 0; count_ := count_ other |}).

Definition VertexArray_move (other : VertexArray)
  : VertexArray * VertexArray :=
  ({| va_vbo_ := None; vao_ := vao_ other |},
   {| va_vbo_ := va_vbo_ other; vao_ := 0 |}).

Definition Texture_move (raw other : Texture) : Texture * Texture :=
  ({| width_ := width_ raw;
      height_ := height_ raw;
      textureId_ := textureId_ other;
      pbo_ := pbo_ other;
      buffer_size_ := buffer_size_ raw |},
   {| width_ := width_ other;
      height_ := height_ other;
      textureId_ := 0;
      pbo_ := 0;
      buffer_size_ := buffer_size_ other |}).

(** [IndexBuffer::get_count]. *)
Definition get_count (b : IndexBuffer) : Z := count_ b.

(** [static_cast<GLsizei>] of a [uint32_t]. *)
Definition to_GLsizei (c : Z) : Z :=
  if c <? 2 ^ 31 then c else c - 2 ^ 32.

Section Code.
Context `{Glm} (drv : Driver).

Local Abbreviation M := (gl.M).
Local Abbreviation call_int := (gl.call_int drv).
Local Abbreviation call_str := (gl.call_str drv).

Definition ShaderProgram_dtor (p : ShaderProgram) : M unit :=
  call_void (glDeleteProgram (shaderProgram_ p)).

Definition VertexBuffer_dtor (b : VertexBuffer) : M unit :=
  call_void (glDeleteBuffers (vbo_ b)).

Definition IndexBuffer_dtor (b : IndexBuffer) : M unit :=
  call_void (glDeleteBuffers (ibo_ b)).

(** The destructor of a [std::shared_ptr<VertexBuffer>] member:
    [use_count] is the number of owners of the buffer object when the
    pointer is destroyed; a null pointer owns nothing, and the last owner
    destroys the buffer object. *)
Definition shared_ptr_VertexBuffer_dtor (p : option VertexBuffer)
    (use_count : Z) : M unit :=
  match p with
  | None => ret tt
  | Some b => if use_count =? 1 then VertexBuffer_dtor b else ret tt
  end.

(** [VertexArray::~VertexArray]: the body, then the destruction of the
    member [vbo_]. *)
Definition VertexArray_dtor (a : VertexArray) (use_count : Z) : M unit :=
  call_void (glDeleteVertexArrays (vao_ a));;
  shared_ptr_VertexBuffer_dtor (va_vbo_ a) use_count.

Definition Texture_dtor (t : Texture) : M unit :=
  call_void (glDeleteTextures (textureId_ t));;
  call_void (glDeleteBuffers (pbo_ t)).

(** [LoadShader]. *)
Definition LoadShader (type : Z) (shaderSrc : string) : M Z :=
  shader <- call_int (glCreateShader type);;
  if shader =? 0
  then throw (runtime_error "failed to allocate shader")
  else
    call_void (glShaderSource shader shaderSrc);;
    call_void (glCompileShader shader);;
    compiled <- call_int (glGetShaderiv shader GL_COMPILE_STATUS);;
    if compiled =? 0
    then
      infoLen <- call_int (glGetShaderiv shader GL_INFO_LOG_LENGTH);;
      if 1 <? infoLen
      then
        infoLog <- call_str (glGetShaderInfoLog shader infoLen);;
        call_void (glDeleteShader shader);;
        throw (runtime_error
                 ("Error compiling shader "
                  ++ (if (type =? GL_VERTEX_SHADER)%Z
                      then "Vertex Shader" else "Fragment Shader")
                  ++ newline ++ ":" ++ infoLog)%string)
      else
        call_void (glDeleteShader shader);;
        throw (runtime_error "Error compiling shader")
    else ret shader.

(** [ShaderProgram::ShaderProgram (vertex_shader, fragment_shader)]. *)
Definition ShaderProgram_ctor (vertex_shader fragment_shader : string)
  : M ShaderProgram :=
  vertexShader <- LoadShader GL_VERTEX_SHADER vertex_shader;;
  fragmentShader <- LoadShader GL_FRAGMENT_SHADER fragment_shader;;
  program <- call_int glCreateProgram;;
  if program =? 0
  then throw (runtime_error "Failed to allocate shader program")
  else
    call_void (glAttachShader program vertexShader);;
    call_void (glAttachShader program fragmentShader);;
    call_void (glLinkProgram program);;
    call_void (glDetachShader program vertexShader);;
    call_void (glDetachShader program fragmentShader);;
    call_void (glDeleteShader vertexShader);;
    call_void (glDeleteShader fragmentShader);;
    linked <- call_int (glGetProgramiv program GL_LINK_STATUS);;
    if linked =? 0
    then
      infoLen <- call_int (glGetProgramiv program GL_INFO_LOG_LENGTH);;
      if 1 <? infoLen
      then
        infoLog <- call_str (glGetProgramInfoLog program infoLen);;
        call_void (glDeleteProgram program);;
        throw (runtime_error
                 ("Error linking shader program:" ++ newline ++ ":"
                  ++ infoLog)%string)
      else
        call_void (glDeleteProgram program);;
        throw (runtime_error "Error linking shader program")
    else ret {| shaderProgram_ := program;
                m_UniformLocationCache := ∅;
                m_AttributeLocationCache := ∅ |}.

(** [ShaderProgram::use]. *)
Definition use (p : ShaderProgram) : M unit :=
  call_void (glUseProgram (shaderProgram_ p)).

(** [ShaderProgram::get_attrib_location]; the caches are [mutable], so the
    program object is returned with the location. *)
Definition get_attrib_location (p : ShaderProgram) (name : string)
  : M (ShaderProgram * Z) :=
  match m_AttributeLocationCache p !! name with
  | Some location => ret (p, location)
  | None =>
      location <- call_int (glGetAttribLocation (shaderProgram_ p) name);;
      ret ({| shaderProgram_ := shaderProgram_ p;
              m_UniformLocationCache := m_UniformLocationCache p;
              m_AttributeLocationCache :=
                <[name := location]> (m_AttributeLocationCache p) |},
           location)
  end.

(** [ShaderProgram::get_uniform_location]. *)
Definition get_uniform_location (p : ShaderProgram) (name : string)
  : M (ShaderProgram * Z) :=
  match m_UniformLocationCache p !! name with
  | Some location => ret (p, location)
  | None =>
      location <- call_int (glGetUniformLocation (shaderProgram_ p) name);;
      ret ({| shaderProgram_ := shaderProgram_ p;
              m_UniformLocationCache :=
                <[name := location]> (m_UniformLocationCache p);
              m_AttributeLocationCache := m_AttributeLocationCache p |},
           location)
  end.

(** [ShaderProgram::set_int]. *)
Definition set_int (p : ShaderProgram) (name : string) (value : Z)
  : M ShaderProgram :=
  pl <- get_uniform_location p name;;
  call_void (glUniform1i (snd pl) value);;
  ret (fst pl).

(** [ShaderProgram::set_mat4]. *)
Definition set_mat4 (p : ShaderProgram) (name : string) (value : mat4)
  : M ShaderProgram :=
  pl <- get_uniform_location p name;;
  call_void (glUniformMatrix4fv (snd pl) 1 GL_FALSE value);;
  ret (fst pl).

(** [Texture::bind]. *)
Definition Texture_bind (t : Texture) : M unit :=
  call_void (glBindTexture GL_TEXTURE_2D (textureId_ t)).

(** [Mesh::draw]. *)
Definition Mesh_draw (m : Mesh) : M unit :=
  va <- deref (vertex_array_ m);;
  call_void (glBindVertexArray (vao_ va));;
  ib <- deref (index_buffer_ m);;
  call_void (glBindBuffer GL_ELEMENT_ARRAY_BUFFER (ibo_ ib));;
  call_void (glDrawElements GL_TRIANGLES (to_GLsizei (get_count ib))
               GL_UNSIGNED_INT 0).

(** [Renderable<format>]. *)
Record Renderable : Type := {
  format : Format;
  mesh_ : option Mesh;              (* std::shared_ptr<Mesh> *)
  texture_y : option Texture;       (* std::shared_ptr<Texture<format>> *)
  texture_u : option Texture;
  texture_v : option Texture;
  position_ : vec3;
  scale_ : vec2;
  transform_ : mat4;
  dirty_ : bool
}.

(** The one-texture constructor ([requires (format != GL_RED)]): [None]
    stands for an instantiation the constraint rejects.  [position_] and
    [scale_] are not initialised and keep the content of the storage. *)
Definition Renderable_ctor (fmt : Format)
    (mesh : option Mesh) (texture : option Texture)
    (raw_position : vec3) (raw_scale : vec2) : option Renderable :=
  if is_RED fmt then None
  else Some {| format := fmt;
               mesh_ := mesh;
               texture_y := texture;
               texture_u := None;
               texture_v := None;
               position_ := raw_position;
               scale_ := raw_scale;
               transform_ := mat4_diag f32.one;
               dirty_ := false |}.

(** The three-texture constructor ([requires (format == GL_RED)]). *)
Definition Renderable_ctor_planar (fmt : Format)
    (mesh : option Mesh) (tex_y tex_u tex_v : option Texture)
    (raw_position : vec3) (raw_scale : vec2) : option Renderable :=
  if is_RED fmt
  then Some {| format := fmt;
               mesh_ := mesh;
               texture_y := tex_y;
               texture_u := tex_u;
               texture_v := tex_v;
               position_ := raw_position;
               scale_ := raw_scale;
               transform_ := mat4_diag f32.one;
               dirty_ := false |}
  else None.

Definition with_position (r : Renderable) (p : vec3) (d : bool) : Renderable :=
  {| format := format r; mesh_ := mesh_ r;
     texture_y := texture_y r; texture_u := texture_u r;
     texture_v := texture_v r;
     position_ := p; scale_ := scale_ r;
     transform_ := transform_ r; dirty_ := d |}.

Definition with_scale (r : Renderable) (s : vec2) (d : bool) : Renderable :=
  {| format := format r; mesh_ := mesh_ r;
     texture_y := texture_y r; texture_u := texture_u r;
     texture_v := texture_v r;
     position_ := position_ r; scale_ := s;
     transform_ := transform_ r; dirty_ := d |}.

Definition with_transform (r : Renderable) (t : mat4) : Renderable :=
  {| format := format r; mesh_ := mesh_ r;
     texture_y := texture_y r; texture_u := texture_u r;
     texture_v := texture_v r;
     position_ := position_ r; scale_ := scale_ r;
     transform_ := t; dirty_ := dirty_ r |}.

(** [set_position (PositionCenter_t, position)]. *)
Definition set_position_Center (r : Renderable) (position : vec3) : Renderable :=
  with_position r position true.

(** [set_position (PositionTopLeft_t, position)]. *)
Definition set_position_TopLeft (r : Renderable) (position : vec3) : Renderable :=
  with_position r
    {| vec3_x := f32.add (vec3_x position) (f32.div (vec2_x (scale_ r)) f32.two);
       vec3_y := f32.add (vec3_y position) (f32.div (vec2_y (scale_ r)) f32.two);
       vec3_z := vec3_z position |}
    true.

(** [set_scale]. *)
Definition set_scale (r : Renderable) (scale : vec2) : Renderable :=
  with_scale r scale true.

(** The guarded block that opens both [draw] overloads.  The boolean tells
    whether the block ran, that is, whether the matrix was computed anew. *)
Definition update_transform (r : Renderable) : Renderable * bool :=
  if dirty_ r
  then
    let transMatrix := glm_translate (mat4_diag f32.one) (position_ r) in
    let scaleMatrix :=
      glm_scale (mat4_diag f32.one)
        {| vec3_x := vec2_x (scale_ r);
           vec3_y := vec2_y (scale_ r);
           vec3_z := f32.zero |} in
    (with_transform r (mat4_mul transMatrix scaleMatrix), true)
  else (r, false).

(** What a [draw] leaves behind: the object, the shader (whose location
    caches may have grown) and whether the matrix was computed anew. *)
Record Drawn : Type := {
  drawn_obj : Renderable;
  drawn_shader : ShaderProgram;
  recomputed : bool
}.

(** [draw (shader)] for [format != GL_RED]. *)
Definition draw_single (r : Renderable) (shader : ShaderProgram) : M Drawn :=
  let r1 := fst (update_transform r) in
  call_void (glActiveTexture GL_TEXTURE0);;
  ty <- deref (texture_y r1);;
  Texture_bind ty;;
  s1 <- set_int shader "u_texture" 0;;
  s2 <- set_mat4 s1 "u_Transform" (transform_ r1);;
  m <- deref (mesh_ r1);;
  Mesh_draw m;;
  ret {| drawn_obj := r1; drawn_shader := s2;
         recomputed := snd (update_transform r) |}.

(** [draw (shader)] for [format == GL_RED]. *)
Definition draw_planar (r : Renderable) (shader : ShaderProgram) : M Drawn :=
  let r1 := fst (update_transform r) in
  call_void (glActiveTexture GL_TEXTURE0);;
  ty <- deref (texture_y r1);;
  Texture_bind ty;;
  call_void (glActiveTexture GL_TEXTURE1);;
  tu <- deref (texture_u r1);;
  Texture_bind tu;;
  call_void (glActiveTexture GL_TEXTURE2);;
  tv <- deref (texture_v r1);;
  Texture_bind tv;;
  s1 <- set_int shader "u_texture" 0;;
  s2 <- set_mat4 s1 "u_Transform" (transform_ r1);;
  m <- deref (mesh_ r1);;
  Mesh_draw m;;
  ret {| drawn_obj := r1; drawn_shader := s2;
         recomputed := snd (update_transform r) |}.

(** Overload resolution between the two [draw]s is by the constraint on
    [format]. *)
Definition draw (r : Renderable) (shader : ShaderProgram) : M Drawn :=
  if is_RED (format r) then draw_planar r shader else draw_single r shader.

(** Conversion of a [std::pair<float, float>] to
    [std::pair<uint32_t, uint32_t>]. *)
Definition to_uint32_pair (a b : f32.float) : outcome (Z * Z) :=
  match f32.to_uint32 a, f32.to_uint32 b with
  | Ok x, Ok y => Ok (x, y)
  | _, _ => Undefined
  end.



(** [get_position (PositionTopLeft_t)]. *)
Definition get_position_TopLeft (r : Renderable) : outcome (Z * Z) :=
  let top_left_x :=
    f32.sub (vec3_x (position_ r)) (f32.div (vec2_x (scale_ r)) f32.two) in
  let top_left_y :=
    f32.sub (vec3_y (position_ r)) (f32.div (vec2_y (scale_ r)) f32.two) in
  to_uint32_pair (f32.round top_left_x) (f32.round top_left_y).

(** [get_format]. *)
Definition get_format (r : Renderable) : Z := GLenum_of (format r).

(** The non-null texture pointers a [Renderable] holds. *)
Definition textures_held (r : Renderable) : list Texture :=
  omap id [texture_y r; texture_u r; texture_v r].

End Code.

End renderer.

(** ** main.cpp: the render loop *)

Module main.
Import gl renderer.

Definition window_width : Z := 800.
Definition window_height : Z := 600.

Section Loop.
Context `{Glm} (drv : Driver).

Definition projectionMatrix : mat4 :=
  glm_ortho f32.zero (f32.of_Z window_width) (f32.of_Z window_height) f32.zero.

(** [Window::swap_buffers]. *)
Definition swap_buffers : M unit := call_void glfwSwapBuffers.

(** The centre of the window, where every frame puts the square. *)
Definition center : vec3 :=
  {| vec3_x := f32.div (f32.of_Z window_width) f32.two;
     vec3_y := f32.div (f32.of_Z window_height) f32.two;
     vec3_z := f32.zero |}.

(** The body of [while (!stop_token.stop_requested())]. *)
Definition frame (square : Renderable) (shaderProgram : ShaderProgram)
  : M (Renderable * ShaderProgram) :=
  let square1 := set_position_Center square center in
  call_void (glViewport 0 0 window_width window_height);;
  call_void (glClear GL_COLOR_BUFFER_BIT);;
  use shaderProgram;;
  s1 <- set_mat4 drv shaderProgram "u_Projection" projectionMatrix;;
  d <- draw drv square1 s1;;
  swap_buffers;;
  ret (drawn_obj d, drawn_shader d).

(** The loop, for a stop request that arrives after [n] iterations. *)
Fixpoint render_loop (n : nat) (square : Renderable)
    (shaderProgram : ShaderProgram) : M (Renderable * ShaderProgram) :=
  match n with
  | O => ret (square, shaderProgram)
  | S n' =>
      st <- frame square shaderProgram;;
      render_loop n' (fst st) (snd st)
  end.

End Loop.

(** The steps the per-frame sequence is described with, and the step a
    call belongs to.  Setting the viewport, looking up a uniform location
    and binding the vertex array and the index buffer belong to none of
    them.  [glUniform1i] sets the sampler
    uniform: [sampler_with_textures] says whether that counts as part of
    binding the textures or as setting a uniform. *)
Inductive Step : Type :=
| StepClear | StepUseShader | StepSetUniforms | StepBindTextures
| StepDrawCall | StepSwapBuffers.

Definition step_of `{Glm} (sampler_with_textures : bool) (c : Call)
  : option Step :=
  match c with
  | glClear _ => Some StepClear
  | glUseProgram _ => Some StepUseShader
  | glUniform1i _ _ =>
      Some (if sampler_with_textures then StepBindTextures
            else StepSetUniforms)
  | glUniformMatrix4fv _ _ _ _ => Some StepSetUniforms
  | glActiveTexture _ => Some StepBindTextures
  | glBindTexture _ _ => Some StepBindTextures
  | glDrawElements _ _ _ _ => Some StepDrawCall
  | glfwSwapBuffers => Some StepSwapBuffers
  | _ => None
  end.

Definition Step_eqb (a b : Step) : bool :=
  match a, b with
  | StepClear, StepClear | StepUseShader, StepUseShader
  | StepSetUniforms, StepSetUniforms | StepBindTextures, StepBindTextures
  | StepDrawCall, StepDrawCall | StepSwapBuffers, StepSwapBuffers => true
  | _, _ => false
  end.

(** Consecutive calls of one step are one occurrence of the step. *)
Fixpoint merge_runs (l : list Step) : list Step :=
  match l with
  | [] => []
  | a :: l' =>
      match l' with
      | b :: _ => if Step_eqb a b then merge_runs l' else a :: merge_runs l'
      | [] => [a]
      end
  end.

Definition steps_of `{Glm} (sampler_with_textures : bool) (t : list Event)
  : list Step :=
  merge_runs (omap (fun ev => step_of sampler_with_textures (fst ev)) t).

(** clear, use shader, set uniforms, bind textures, draw, swap buffers. *)
Definition linear_order : list Step :=
  [StepClear; StepUseShader; StepSetUniforms; StepBindTextures;
   StepDrawCall; StepSwapBuffers].

Definition is_location_query `{Glm} (c : Call) : bool :=
  match c with
  | glGetUniformLocation _ _ => true
  | glGetAttribLocation _ _ => true
  | _ => false
  end.

(** The calls of a trace, the location look-ups left out. *)
Definition calls_of `{Glm} (t : list Event) : list Call :=
  List.filter (fun c => negb (is_location_query c)) (map fst t).

Definition is_draw_call `{Glm} (c : Call) : bool :=
  match c with
  | glDrawElements _ _ _ _ => true
  | _ => false
  end.

Definition draw_calls `{Glm} (t : list Event) : nat :=
  length (List.filter (fun ev => is_draw_call (fst ev)) t).

(** The transform of a square of scale [s] placed at the centre. *)
Definition frame_transform `{Glm} (s : vec2) : mat4 :=
  mat4_mul
    (glm_translate (mat4_diag f32.one) center)
    (glm_scale (mat4_diag f32.one)
       {| vec3_x := vec2_x s; vec3_y := vec2_y s; vec3_z := f32.zero |}).

(** The calls of one frame as the loop body issues them, for a program
    [program] with uniform locations [l_projection], [l_texture] and
    [l_transform], a texture [texture], and a mesh with vertex array
    [vao], index buffer [ibo] and [count] indices. *)
Definition frame_calls `{Glm} (program l_projection l_texture l_transform
    texture vao ibo count : Z) (s : vec2) : list Call :=
  [glViewport 0 0 window_width window_height;
   glClear GL_COLOR_BUFFER_BIT;
   glUseProgram program;
   glUniformMatrix4fv l_projection 1 GL_FALSE projectionMatrix;
   glActiveTexture GL_TEXTURE0;
   glBindTexture GL_TEXTURE_2D texture;
   glUniform1i l_texture 0;
   glUniformMatrix4fv l_transform 1 GL_FALSE (frame_transform s);
   glBindVertexArray vao;
   glBindBuffer GL_ELEMENT_ARRAY_BUFFER ibo;
   glDrawElements GL_TRIANGLES count GL_UNSIGNED_INT 0;
   glfwSwapBuffers].

(** What [get_uniform_location] asks GL when [name] is used with shader
    [p]: nothing if the name is cached, otherwise one look-up, answered with
    [location]. *)
Definition lookup_events `{Glm} (p : ShaderProgram) (name : string)
    (location : Z) : list Event :=
  match m_UniformLocationCache p !! name with
  | Some _ => []
  | None => [(glGetUniformLocation (shaderProgram_ p) name, RInt location)]
  end.

(** Everything one frame asks of GL when it starts with shader [p]: the
    calls of [frame_calls], each uniform preceded by the look-up of its
    location if the name is not cached in [p]. *)
Definition frame_events `{Glm} (p : ShaderProgram)
    (l_projection l_texture l_transform texture vao ibo count : Z) (s : vec2)
  : list Event :=
  [(glViewport 0 0 window_width window_height, RVoid);
   (glClear GL_COLOR_BUFFER_BIT, RVoid);
   (glUseProgram (shaderProgram_ p), RVoid)]
  ++ lookup_events p "u_Projection" l_projection
  ++ [(glUniformMatrix4fv l_projection 1 GL_FALSE projectionMatrix, RVoid);
      (glActiveTexture GL_TEXTURE0, RVoid);
      (glBindTexture GL_TEXTURE_2D texture, RVoid)]
  ++ lookup_events p "u_texture" l_texture
  ++ [(glUniform1i l_texture 0, RVoid)]
  ++ lookup_events p "u_Transform" l_transform
  ++ [(glUniformMatrix4fv l_transform 1 GL_FALSE (frame_transform s), RVoid);
      (glBindVertexArray vao, RVoid);
      (glBindBuffer GL_ELEMENT_ARRAY_BUFFER ibo, RVoid);
      (glDrawElements GL_TRIANGLES count GL_UNSIGNED_INT 0, RVoid);
      (glfwSwapBuffers, RVoid)].

(** The steps of one frame as the loop body orders them: the projection
    uniform is set before the texture is bound, the transform uniform (and
    the sampler uniform) after. *)
Definition frame_order : list Step :=
  [StepClear; StepUseShader; StepSetUniforms; StepBindTextures;
   StepSetUniforms; StepDrawCall; StepSwapBuffers].

End main.

(** ** Concrete instances used to run the definitions *)

Module sample.
Import gl renderer.

(** Matrices kept as the glm expressions that build them. *)
Inductive mexpr : Type :=
| MDiag (s : f32.float)
| MTranslate (m : mexpr) (v : vec3)
| MScale (m : mexpr) (v : vec3)
| MMul (a b : mexpr)
| MOrtho (l r b t : f32.float).

#[export] Instance symbolic : Glm := {|
  mat4 := mexpr;
  mat4_diag := MDiag;
  glm_translate := MTranslate;
  glm_scale := MScale;
  mat4_mul := MMul;
  glm_ortho := MOrtho
|}.

Definition is_RInt (ev : Event) : bool :=
  match snd ev with RInt _ => true | _ => false end.

(** A driver that plays a script: the k-th integer-valued call of a run
    returns the k-th entry (1 past the end); every info log is ["log"]. *)
Definition scripted (answers : list Z) : Driver :=
  {| answer_int := fun h _ =>
       nth (length (List.filter is_RInt h)) answers 1;
     answer_str := fun _ _ => "log" |}.

(** The quad of [main.cpp] once uploaded: six indices. *)
Definition quad : Mesh :=
  {| vertex_array_ := Some {| va_vbo_ := Some {| vbo_ := 1 |}; vao_ := 1 |};
     vertex_buffer_ := Some {| vbo_ := 1 |};
     index_buffer_ := Some {| ibo_ := 2; count_ := 6 |} |}.

(** A [Texture<GL_RGBA>(800, 600)]. *)
Definition tex : Texture :=
  {| width_ := 800; height_ := 600; textureId_ := 1; pbo_ := 3;
     buffer_size_ := 1920000 |}.

(** Planes of a 4:2:0 frame, [Texture<GL_RED>]. *)
Definition plane_y : Texture :=
  {| width_ := 800; height_ := 600; textureId_ := 5; pbo_ := 6;
     buffer_size_ := 480000 |}.
Definition plane_u : Texture :=
  {| width_ := 400; height_ := 300; textureId_ := 7; pbo_ := 8;
     buffer_size_ := 120000 |}.
Definition plane_v : Texture :=
  {| width_ := 400; height_ := 300; textureId_ := 9; pbo_ := 10;
     buffer_size_ := 120000 |}.

Definition vec2_of (x y : Z) : vec2 :=
  {| vec2_x := f32.of_Z x; vec2_y := f32.of_Z y |}.
Definition vec3_of (x y z : Z) : vec3 :=
  {| vec3_x := f32.of_Z x; vec3_y := f32.of_Z y; vec3_z := f32.of_Z z |}.

(** Storage content before construction. *)
Definition raw_vec3 : vec3 := vec3_of 0 0 0.
Definition raw_vec2 : vec2 := vec2_of 0 0.

Definition raw_Texture : Texture :=
  {| width_ := 0; height_ := 0; textureId_ := 0; pbo_ := 0;
     buffer_size_ := 0 |}.
Definition raw_IndexBuffer : IndexBuffer := {| ibo_ := 0; count_ := 0 |}.

(** [renderer::Renderable square{quad, tex}] as constructed in [main]. *)
Definition square0 : Renderable :=
  {| format := RGBA; mesh_ := Some quad;
     texture_y := Some tex; texture_u := None; texture_v := None;
     position_ := raw_vec3; scale_ := raw_vec2;
     transform_ := mat4_diag f32.one; dirty_ := false |}.

(** ... after [square.set_scale({200.0F, 100.0F})]. *)
Definition square : Renderable := set_scale square0 (vec2_of 200 100).

(** A planar-YUV [Renderable<GL_RED>]. *)
Definition yuv : Renderable :=
  {| format := RED; mesh_ := Some quad;
     texture_y := Some plane_y; texture_u := Some plane_u;
     texture_v := Some plane_v;
     position_ := raw_vec3; scale_ := raw_vec2;
     transform_ := mat4_diag f32.one; dirty_ := false |}.

(** A linked program with empty location caches. *)
Definition program : ShaderProgram :=
  {| shaderProgram_ := 3;
     m_UniformLocationCache := ∅;
     m_AttributeLocationCache := ∅ |}.

Definition window0 : window.Window :=
  {| window.window_width_ := 800; window.window_height_ := 600;
     window.window_title_ := "Window 1";
     window.window_ := {| window.shouldClose := window.GLFW_FALSE |};
     window.context_out_ := false |}.

End sample.

(** ** Reading traces and histories of operations *)

Module observe.
Import gl renderer.

Section Observe.
Context `{Glm}.

(** The matrices handed to [glUniformMatrix4fv]. *)
Definition uploaded_matrix (ev : Event) : option mat4 :=
  match fst ev with
  | glUniformMatrix4fv _ _ _ m => Some m
  | _ => None
  end.

Definition uploads (t : list Event) : list mat4 := omap uploaded_matrix t.

(** The texture bindings of a trace: the texture unit selected by the last
    [glActiveTexture] (if any) with the texture bound. *)
Fixpoint texture_binds (unit : option Z) (t : list Event)
  : list (option Z * Z) :=
  match t with
  | [] => []
  | ev :: t' =>
      match fst ev with
      | glActiveTexture u => texture_binds (Some u) t'
      | glBindTexture _ texture => (unit, texture) :: texture_binds unit t'
      | _ => texture_binds unit t'
      end
  end.

Definition is_uniform_query (name : string) (ev : Event) : bool :=
  match fst ev with
  | glGetUniformLocation _ n => String.eqb n name
  | _ => false
  end.

Definition is_attrib_query (name : string) (ev : Event) : bool :=
  match fst ev with
  | glGetAttribLocation _ n => String.eqb n name
  | _ => false
  end.

Definition uniform_queries (name : string) (t : list Event) : nat :=
  length (List.filter (is_uniform_query name) t).

Definition attrib_queries (name : string) (t : list Event) : nat :=
  length (List.filter (is_attrib_query name) t).

(** The transform [draw] computes from the stored position and scale. *)
Definition composed (r : Renderable) : mat4 :=
  mat4_mul
    (glm_translate (mat4_diag f32.one) (position_ r))
    (glm_scale (mat4_diag f32.one)
       {| vec3_x := vec2_x (scale_ r);
          vec3_y := vec2_y (scale_ r);
          vec3_z := f32.zero |}).

(** The pointers a [draw] dereferences are non-null: the mesh with its
    vertex array and index buffer, the Y texture and, for planar YUV, the U
    and V textures. *)
Definition drawable (r : Renderable) : bool :=
  match mesh_ r with
  | Some m =>
      match vertex_array_ m, index_buffer_ m, texture_y r with
      | Some _, Some _, Some _ =>
          if is_RED (format r)
          then match texture_u r, texture_v r with
               | Some _, Some _ => true
               | _, _ => false
               end
          else true
      | _, _, _ => false
      end
  | None => false
  end.

(** What a client does to a [Renderable] between construction and a
    [draw]: the three setters and earlier draws. *)
Inductive RenderableOp : Type :=
| OpSetPositionCenter (p : vec3)
| OpSetPositionTopLeft (p : vec3)
| OpSetScale (s : vec2)
| OpDraw.

Definition is_setter (o : RenderableOp) : bool :=
  match o with OpDraw => false | _ => true end.

(** The object after an operation; for a draw, the object the draw leaves
    (see [draw_leaves]). *)
Definition after_op (r : Renderable) (o : RenderableOp) : Renderable :=
  match o with
  | OpSetPositionCenter p => set_position_Center r p
  | OpSetPositionTopLeft p => set_position_TopLeft r p
  | OpSetScale s => set_scale r s
  | OpDraw => fst (update_transform r)
  end.

Definition after_ops (r : Renderable) (ops : list RenderableOp) : Renderable :=
  fold_left after_op ops r.

(** The program after an operation: the same handle, and every cached
    location still cached with the same value. *)
Definition extends (p p' : ShaderProgram) : Prop :=
  shaderProgram_ p' = shaderProgram_ p
  /\ (forall n z, m_UniformLocationCache p !! n = Some z ->
                  m_UniformLocationCache p' !! n = Some z)
  /\ (forall n z, m_AttributeLocationCache p !! n = Some z ->
                  m_AttributeLocationCache p' !! n = Some z).

(** What one run contributes for one name: no query if the name was cached
    at the start, at most one query otherwise, and after a query the name
    is cached. *)
Definition uniform_once (name : string) (p : ShaderProgram)
    (new : list Event) (p' : ShaderProgram) : Prop :=
  (is_Some (m_UniformLocationCache p !! name) -> uniform_queries name new = 0%nat)
  /\ (uniform_queries name new <= 1)%nat
  /\ (uniform_queries name new = 1%nat ->
      is_Some (m_UniformLocationCache p' !! name)).

Definition attrib_once (name : string) (p : ShaderProgram)
    (new : list Event) (p' : ShaderProgram) : Prop :=
  (is_Some (m_AttributeLocationCache p !! name) -> attrib_queries name new = 0%nat)
  /\ (attrib_queries name new <= 1)%nat
  /\ (attrib_queries name new = 1%nat ->
      is_Some (m_AttributeLocationCache p' !! name)).

(** What a client does to a [ShaderProgram] after construction. *)
Inductive ShaderOp : Type :=
| OpUse
| OpSetInt (name : string) (value : Z)
| OpSetMat4 (name : string) (value : mat4)
| OpGetAttribLocation (name : string).

Context (drv : Driver).

Definition shader_op (o : ShaderOp) (p : ShaderProgram) : M ShaderProgram :=
  match o with
  | OpUse => use p;; ret p
  | OpSetInt name value => set_int drv p name value
  | OpSetMat4 name value => set_mat4 drv p name value
  | OpGetAttribLocation name =>
      pl <- get_attrib_location drv p name;; ret (fst pl)
  end.

Fixpoint shader_ops (os : list ShaderOp) (p : ShaderProgram)
  : M ShaderProgram :=
  match os with
  | [] => ret p
  | o :: os' => p' <- shader_op o p;; shader_ops os' p'
  end.

End Observe.

End observe.

(** ** renderer.h: move assignment and the remaining small members *)

Module wrappers.
Import gl renderer.

(** The move assignment operators swap the handle members
    ([std::ranges::swap]) and touch nothing else.  Each returns the target
    and the source as the assignment leaves them. *)
Definition ShaderProgram_move_assign (this other : ShaderProgram)
  : ShaderProgram * ShaderProgram :=
  ({| shaderProgram_ := shaderProgram_ other;
      m_UniformLocationCache := m_UniformLocationCache this;
      m_AttributeLocationCache := m_AttributeLocationCache this |},
   {| shaderProgram_ := shaderProgram_ this;
      m_UniformLocationCache := m_UniformLocationCache other;
      m_AttributeLocationCache := m_AttributeLocationCache other |}).

Definition VertexBuffer_move_assign (this other : VertexBuffer)
  : VertexBuffer * VertexBuffer :=
  ({| vbo_ := vbo_ other |}, {| vbo_ := vbo_ this |}).

Definition IndexBuffer_move_assign (this other : IndexBuffer)
  : IndexBuffer * IndexBuffer :=
  ({| ibo_ := ibo_ other; count_ := count_ this |},
   {| ibo_ := ibo_ this; count_ := count_ other |}).

Definition VertexArray_move_assign (this other : VertexArray)
  : VertexArray * VertexArray :=
  ({| va_vbo_ := va_vbo_ this; vao_ := vao_ other |},
   {| va_vbo_ := va_vbo_ other; vao_ := vao_ this |}).

Definition Texture_move_assign (this other : Texture) : Texture * Texture :=
  ({| width_ := width_ this;
      height_ := height_ this;
      textureId_ := textureId_ other;
      pbo_ := pbo_ other;
      buffer_size_ := buffer_size_ this |},
   {| width_ := width_ other;
      height_ := height_ other;
      textureId_ := textureId_ this;
      pbo_ := pbo_ this;
      buffer_size_ := buffer_size_ other |}).

Section Binds.
Context `{Glm}.

(** [bind] / [unbind] of the wrappers. *)
Definition VertexBuffer_bind (b : VertexBuffer) : M unit :=
  call_void (glBindBuffer GL_ARRAY_BUFFER (vbo_ b)).

Definition VertexBuffer_unbind (b : VertexBuffer) : M unit :=
  call_void (glBindBuffer GL_ARRAY_BUFFER 0).

Definition IndexBuffer_bind (b : IndexBuffer) : M unit :=
  call_void (glBindBuffer GL_ELEMENT_ARRAY_BUFFER (ibo_ b)).

Definition IndexBuffer_unbind (b : IndexBuffer) : M unit :=
  call_void (glBindBuffer GL_ELEMENT_ARRAY_BUFFER 0).

Definition VertexArray_bind (a : VertexArray) : M unit :=
  call_void (glBindVertexArray (vao_ a)).

Definition VertexArray_unbind (a : VertexArray) : M unit :=
  call_void (glBindVertexArray 0).

Definition Texture_unbind (t : Texture) : M unit :=
  call_void (glBindTexture GL_TEXTURE_2D 0).

(** [Renderable::get_texture] for [format != GL_RED] and for
    [format == GL_RED]. *)
Definition get_texture (r : Renderable) : option Texture := texture_y r.

Definition get_texture_planar (r : Renderable)
  : option Texture * option Texture * option Texture :=
  (texture_y r, texture_u r, texture_v r).

End Binds.

(** [VertexAttribElement] and [VertexBufferLayout]. *)
Record VertexAttribElement : Type := {
  ae_type : Z;
  ae_count : Z;
  ae_normalized : Z;
  ae_offset : Z
}.

Record VertexBufferLayout : Type := {
  elements_ : list VertexAttribElement;
  stride_ : Z
}.

Definition GL_FLOAT : Z := 0x1406.

(** A default-constructed layout: no element, [stride_{}]. *)
Definition VertexBufferLayout_default : VertexBufferLayout :=
  {| elements_ := []; stride_ := 0 |}.

(** [push<float> (count, offset)]. *)
Definition push_float (l : VertexBufferLayout) (count offset : Z)
  : VertexBufferLayout :=
  {| elements_ := elements_ l
                  ++ [{| ae_type := GL_FLOAT; ae_count := count;
                         ae_normalized := GL_FALSE; ae_offset := offset |}];
     stride_ := stride_ l |}.

Definition get_elements (l : VertexBufferLayout) : list VertexAttribElement :=
  elements_ l.

Definition get_stride (l : VertexBufferLayout) : Z := stride_ l.

Definition set_stride (l : VertexBufferLayout) (stride : Z)
  : VertexBufferLayout :=
  {| elements_ := elements_ l; stride_ := stride |}.

(** [Vertex]: a [glm::vec3] followed by a [glm::vec2], five packed 4-byte
    floats. *)
Record Vertex : Type := { position : vec3; uv : vec2 }.

Definition sizeof_Vertex : Z := 20.
Definition offsetof_position : Z := 0.   (* checked_offset_of(&Vertex::position) *)
Definition offsetof_uv : Z := 12.        (* checked_offset_of(&Vertex::uv) *)

(** [Vertex::getLayout]. *)
Definition getLayout : VertexBufferLayout :=
  let layout := VertexBufferLayout_default in
  let layout := set_stride layout sizeof_Vertex in
  let layout := push_float layout 3 offsetof_position in
  let layout := push_float layout 2 offsetof_uv in
  layout.

End wrappers.

(** ** Events on a window *)

Module window_ops.
Import window.

(** What happens to a [Window] after construction: GLFW delivers a key
    event to [key_callback], some thread calls [get_context], or a token is
    destroyed. *)
Inductive WindowOp : Type :=
| WKey (key scancode action mods : Z)
| WGetContext
| WDestroyContext.

Definition window_after (w : Window) (o : WindowOp) : Window :=
  match o with
  | WKey key scancode action mods => key_callback w key scancode action mods
  | WGetContext => fst (get_context w)
  | WDestroyContext => OpenGLContext_dtor w OpenGLContext_of_window
  end.

Definition window_after_all (w : Window) (os : list WindowOp) : Window :=
  fold_left window_after os w.

Definition is_escape_press (o : WindowOp) : bool :=
  match o with
  | WKey key _ action _ => (key =? GLFW_KEY_ESCAPE) && (action =? GLFW_PRESS)
  | _ => false
  end.

End window_ops.

(** ** More readers of traces and histories *)

Module inspect.
Import gl renderer observe.

Section Inspect.
Context `{Glm}.

(** The GL objects a trace creates and the ones it deletes, in order. *)
Inductive GLObject : Type :=
| ShaderObject (id : Z)
| ProgramObject (id : Z).

Definition created_by (ev : Event) : option GLObject :=
  match ev with
  | (glCreateShader _, RInt id) => Some (ShaderObject id)
  | (glCreateProgram, RInt id) => Some (ProgramObject id)
  | _ => None
  end.

Definition deleted_by (ev : Event) : option GLObject :=
  match fst ev with
  | glDeleteShader id => Some (ShaderObject id)
  | glDeleteProgram id => Some (ProgramObject id)
  | _ => None
  end.

Definition created (t : list Event) : list GLObject := omap created_by t.
Definition deleted (t : list Event) : list GLObject := omap deleted_by t.

(** The sampler uniforms a trace sets: location and texture unit index. *)
Definition sampler_set (ev : Event) : option (Z * Z) :=
  match fst ev with
  | glUniform1i location v0 => Some (location, v0)
  | _ => None
  end.

Definition sampler_sets (t : list Event) : list (Z * Z) := omap sampler_set t.

(** The uniform names a trace asks GL for. *)
Definition queried_name (ev : Event) : option string :=
  match fst ev with
  | glGetUniformLocation _ name => Some name
  | _ => None
  end.

Definition queried_names (t : list Event) : list string := omap queried_name t.



(** The three uniform names of a frame are cached with these locations. *)
Definition warm (p : ShaderProgram) (l_projection l_texture l_transform : Z)
  : Prop :=
  m_UniformLocationCache p !! "u_Projection" = Some l_projection
  /\ m_UniformLocationCache p !! "u_texture" = Some l_texture
  /\ m_UniformLocationCache p !! "u_Transform" = Some l_transform.

(** How the two uniform look-ups of a [draw] relate the shader before
    ([sp]) and after ([s2]): [q1] and [q2] are the queries issued for
    ["u_texture"] and ["u_Transform"], [l1] and [l2] the locations used. *)
Definition uniform_lookups (sp : ShaderProgram) (q1 : list Event) (l1 : Z)
    (q2 : list Event) (l2 : Z) (s2 : ShaderProgram) : Prop :=
  extends sp s2
  /\ m_UniformLocationCache s2 !! "u_texture" = Some l1
  /\ m_UniformLocationCache s2 !! "u_Transform" = Some l2
  /\ (q1 = []
      \/ q1 = [(glGetUniformLocation (shaderProgram_ sp) "u_texture", RInt l1)])
  /\ (q2 = []
      \/ q2 = [(glGetUniformLocation (shaderProgram_ sp) "u_Transform", RInt l2)])
  /\ (forall z, m_UniformLocationCache sp !! "u_texture" = Some z ->
                q1 = [] /\ l1 = z)
  /\ (forall z, m_UniformLocationCache sp !! "u_Transform" = Some z ->
                q2 = [] /\ l2 = z)
  /\ (is_Some (m_UniformLocationCache sp !! "u_texture") ->
      is_Some (m_UniformLocationCache sp !! "u_Transform") -> s2 = sp).

End Inspect.

End inspect.

(** ** What GL answers to the constructor of a [ShaderProgram]

    The integer answers the driver gives to the status-bearing calls of
    [LoadShader] and of the constructor, each asked after the calls that
    precede it when everything before it succeeded. *)

Module paths.
Import gl renderer.

Section Paths.
Context `{Glm} (drv : Driver).

(** [LoadShader (type, src)] called after [h]: the name GL gives the new
    shader, the three calls up to its compilation, the compile status GL
    then reports, and the four calls of a [LoadShader] that succeeds. *)
Definition shader_name (type : Z) (h : list Event) : Z :=
  answer_int drv h (glCreateShader type).

Definition shader_prefix (type : Z) (src : string) (h : list Event)
  : list Event :=
  [(glCreateShader type, RInt (shader_name type h));
   (glShaderSource (shader_name type h) src, RVoid);
   (glCompileShader (shader_name type h), RVoid)].

Definition compile_status (type : Z) (src : string) (h : list Event) : Z :=
  answer_int drv (h ++ shader_prefix type src h)
    (glGetShaderiv (shader_name type h) GL_COMPILE_STATUS).

Definition shader_events (type : Z) (src : string) (h : list Event)
  : list Event :=
  shader_prefix type src h
  ++ [(glGetShaderiv (shader_name type h) GL_COMPILE_STATUS,
       RInt (compile_status type src h))].

Section Ctor.
Variables (vertex_shader fragment_shader : string) (h : list Event).

Definition vertex_name : Z := shader_name GL_VERTEX_SHADER h.

Definition vertex_status : Z :=
  compile_status GL_VERTEX_SHADER vertex_shader h.

Definition after_vertex : list Event :=
  h ++ shader_events GL_VERTEX_SHADER vertex_shader h.

Definition fragment_name : Z := shader_name GL_FRAGMENT_SHADER after_vertex.

Definition fragment_status : Z :=
  compile_status GL_FRAGMENT_SHADER fragment_shader after_vertex.

Definition after_fragment : list Event :=
  after_vertex ++ shader_events GL_FRAGMENT_SHADER fragment_shader after_vertex.

Definition program_name : Z := answer_int drv after_fragment glCreateProgram.

(** The calls from [glCreateProgram] to the deletion of the two shaders. *)
Definition link_events : list Event :=
  [(glCreateProgram, RInt program_name);
   (glAttachShader program_name vertex_name, RVoid);
   (glAttachShader program_name fragment_name, RVoid);
   (glLinkProgram program_name, RVoid);
   (glDetachShader program_name vertex_name, RVoid);
   (glDetachShader program_name fragment_name, RVoid);
   (glDeleteShader vertex_name, RVoid);
   (glDeleteShader fragment_name, RVoid)].

Definition link_status : Z :=
  answer_int drv (after_fragment ++ link_events)
    (glGetProgramiv program_name GL_LINK_STATUS).

End Ctor.

End Paths.

End paths.

(** ** renderer.h: creating and filling buffers, vertex arrays, textures and
    meshes

    These functions issue GL calls beyond those of [gl.Call].  Their traces
    are over the calls of [gl.Call] together with the calls below; a
    computation of [gl.M] runs in them on the [gl.Call] part of the
    history. *)

Module setup.
Import gl renderer wrappers.

(** More enumerants of [glad/gles2.h]. *)
Definition GL_MAP_WRITE_BIT : Z := 0x0002.
Definition GL_MAP_INVALIDATE_RANGE_BIT : Z := 0x0004.
Definition GL_UNPACK_ALIGNMENT : Z := 0x0CF5.
Definition GL_UNSIGNED_BYTE : Z := 0x1401.
Definition GL_LINEAR : Z := 0x2601.
Definition GL_TEXTURE_MAG_FILTER : Z := 0x2800.
Definition GL_TEXTURE_MIN_FILTER : Z := 0x2801.
Definition GL_TEXTURE_WRAP_S : Z := 0x2802.
Definition GL_TEXTURE_WRAP_T : Z := 0x2803.
Definition GL_CLAMP_TO_EDGE : Z := 0x812F.
Definition GL_R8 : Z := 0x8229.
Definition GL_STREAM_DRAW : Z := 0x88E0.
Definition GL_STATIC_DRAW : Z := 0x88E4.
Definition GL_PIXEL_UNPACK_BUFFER : Z := 0x88EC.

(** A [std::span<std::byte const>] as the sources obtain one: raw bytes,
    or [std::as_bytes] of a span of vertices or of 32-bit words. *)
Inductive Bytes : Type :=
| RawBytes (l : list Byte.byte)
| AsBytes_Vertex (l : list Vertex)
| AsBytes_uint32 (l : list Z).

(** [span.size ()]. *)
Definition size (b : Bytes) : Z :=
  match b with
  | RawBytes l => Z.of_nat (length l)
  | AsBytes_Vertex l => sizeof_Vertex * Z.of_nat (length l)
  | AsBytes_uint32 l => 4 * Z.of_nat (length l)
  end.

Inductive SetupCall : Type :=
| glGenBuffers                 (* glGenBuffers(1, &id): returns the id *)
| glGenTextures                (* glGenTextures(1, &id) *)
| glGenVertexArrays            (* glGenVertexArrays(1, &id) *)
| glBufferData (target size : Z) (data : option Bytes) (usage : Z)
| glEnableVertexAttribArray (index : Z)
| glVertexAttribPointer (index size type normalized stride pointer : Z)
| glTexParameteri (target pname param : Z)
| glTexImage2D (target level internalformat width height border format
                type : Z)      (* pixels = nullptr *)
| glMapBufferRange (target offset length access : Z)
| memcpy (dest : Z) (src : Bytes)
| glUnmapBuffer (target : Z)
| glTexSubImage2D (target level xoffset yoffset width height format type
                   pixels : Z)
| glPixelStorei (pname param : Z).

Section Setup.
Context `{Glm}.

Definition XCall : Type := (Call + SetupCall)%type.
Definition XEvent : Type := (XCall * Ret)%type.

(** What an integer-valued call returns, given the calls before it. *)
Record XDriver : Type := {
  x_answer_int : list XEvent -> XCall -> Z
}.

Definition XM (A : Type) : Type := list XEvent -> list XEvent * outcome A.

Definition xret {A} (a : A) : XM A := fun _ => ([], Ok a).

Definition xbind {A B} (m : XM A) (k : A -> XM B) : XM B :=
  fun h =>
    match m h with
    | (n1, Ok a) => let '(n2, r) := k a (h ++ n1) in (n1 ++ n2, r)
    | (n1, Throw e) => (n1, Throw e)
    | (n1, Undefined) => (n1, Undefined)
    end.

Definition x_outcome {A} (o : outcome A) : XM A := fun _ => ([], o).

Definition x_void (c : XCall) : XM unit := fun _ => ([(c, RVoid)], Ok tt).

Definition x_int (drv : XDriver) (c : XCall) : XM Z :=
  fun h => let z := x_answer_int drv h c in ([(c, RInt z)], Ok z).

(** The [gl.Call] part of a history, and a [gl.M] computation run on it. *)
Definition core_event (ev : XEvent) : option Event :=
  match fst ev with
  | inl c => Some (c, snd ev)
  | inr _ => None
  end.

Definition lift {A} (m : M A) : XM A :=
  fun h =>
    let '(n, r) := m (omap core_event h) in
    (map (fun ev : Event => (inl (fst ev), snd ev)) n, r).

End Setup.

Arguments xret {_ _} a _.
Arguments xbind {_ _ _} m k _.
Arguments x_outcome {_ _} o _.
Arguments x_void {_} c _.
Arguments lift {_ _} m _.

End setup.

Notation "x <-- m ;; k" := (setup.xbind m (fun x => k))
  (at level 100, m at next level, right associativity).
Notation "m ;;; k" := (setup.xbind m (fun _ => k))
  (at level 100, right associativity).

Module resources.
Import gl renderer wrappers setup.

Definition INT_MIN : Z := - 2 ^ 31.
Definition INT_MAX : Z := 2 ^ 31 - 1.

(** [a * b] on [int]: undefined when the product is not representable. *)
Definition int_mul (a b : Z) : outcome Z :=
  if (INT_MIN <=? a * b) && (a * b <=? INT_MAX) then Ok (a * b)
  else Undefined.

(** [i++] on [int]: undefined at [INT_MAX]. *)
Definition int_incr (i : Z) : outcome Z :=
  if i <? INT_MAX then Ok (i + 1) else Undefined.

(** [static_cast<size_t>] of an [int], [static_cast<uint32_t>] and
    [static_cast<GLsizeiptr>] of a [size_t], [static_cast<GLint>] /
    [static_cast<GLsizei>] of a [size_t]. *)
Definition to_size_t (z : Z) : Z := z mod 2 ^ 64.
Definition to_uint32_t (z : Z) : Z := z mod 2 ^ 32.
Definition to_GLsizeiptr (z : Z) : Z := if z <? 2 ^ 63 then z else z - 2 ^ 64.
Definition to_GLint (z : Z) : Z := to_GLsizei (z mod 2 ^ 32).

(** Bytes per pixel of the three formats. *)
Definition bytes_per_pixel (f : Format) : Z :=
  match f with
  | RGBA => 4
  | RGB => 3
  | RED => 1
  end.

Section Code.
Context `{Glm} (drv : XDriver).

Local Abbreviation x_int := (setup.x_int drv).

(** [VertexBuffer::VertexBuffer ()]. *)
Definition VertexBuffer_ctor : XM VertexBuffer :=
  id <-- x_int (inr glGenBuffers);;
  xret {| vbo_ := id |}.

(** [VertexBuffer::set_data]. *)
Definition VertexBuffer_set_data (b : VertexBuffer) (data : Bytes) : XM unit :=
  lift (VertexBuffer_bind b);;;
  x_void (inr (glBufferData GL_ARRAY_BUFFER (to_GLsizeiptr (size data))
                 (Some data) GL_STATIC_DRAW)).

(** [IndexBuffer::IndexBuffer ()]; [count_] is not initialised. *)
Definition IndexBuffer_ctor (raw_count : Z) : XM IndexBuffer :=
  id <-- x_int (inr glGenBuffers);;
  xret {| ibo_ := id; count_ := raw_count |}.

(** [IndexBuffer::set_data]; the object is returned with its new count. *)
Definition IndexBuffer_set_data (b : IndexBuffer) (data : list Z)
  : XM IndexBuffer :=
  lift (IndexBuffer_bind b);;;
  let b' := {| ibo_ := ibo_ b;
               count_ := to_uint32_t (Z.of_nat (length data)) |} in
  x_void (inr (glBufferData GL_ELEMENT_ARRAY_BUFFER
                 (to_GLsizeiptr (size (AsBytes_uint32 data)))
                 (Some (AsBytes_uint32 data)) GL_STATIC_DRAW));;;
  xret b'.

(** The loop of the [VertexArray] constructor, from index [i] on; [i] is an
    [int], incremented after each element. *)
Fixpoint attrib_loop (i : Z) (elements : list VertexAttribElement)
    (stride : Z) : XM unit :=
  match elements with
  | [] => xret tt
  | element :: rest =>
      x_void (inr (glEnableVertexAttribArray i));;;
      x_void (inr (glVertexAttribPointer i (to_GLint (ae_count element))
                     (ae_type element) (ae_normalized element)
                     (to_GLint stride) (ae_offset element)));;;
      i' <-- x_outcome (int_incr i);;
      attrib_loop i' rest stride
  end.

(** [VertexArray::VertexArray (vbo, layout)]. *)
Definition VertexArray_ctor (vbo : option VertexBuffer)
    (layout : VertexBufferLayout) : XM VertexArray :=
  vao <-- x_int (inr glGenVertexArrays);;
  let this := {| va_vbo_ := vbo; vao_ := vao |} in
  lift (VertexArray_bind this);;;
  b <-- lift (deref vbo);;
  lift (VertexBuffer_bind b);;;
  attrib_loop 0 (get_elements layout) (get_stride layout);;;
  lift (VertexArray_unbind this);;;
  xret this.

(** [Texture<format>::Texture (width, height)]. *)
Definition Texture_ctor (fmt : Format) (width height : Z) : XM Texture :=
  wh <-- x_outcome (int_mul width height);;
  n <-- x_outcome (int_mul wh (bytes_per_pixel fmt));;
  let buffer_size := to_size_t n in
  pbo <-- x_int (inr glGenBuffers);;
  x_void (inl (glBindBuffer GL_PIXEL_UNPACK_BUFFER pbo));;;
  x_void (inr (glBufferData GL_PIXEL_UNPACK_BUFFER (to_GLsizeiptr buffer_size)
                 None GL_STREAM_DRAW));;;
  x_void (inl (glBindBuffer GL_PIXEL_UNPACK_BUFFER 0));;;
  textureId <-- x_int (inr glGenTextures);;
  let this := {| width_ := width; height_ := height;
                 textureId_ := textureId; pbo_ := pbo;
                 buffer_size_ := buffer_size |} in
  lift (Texture_bind this);;;
  x_void (inr (glTexParameteri GL_TEXTURE_2D GL_TEXTURE_WRAP_S GL_CLAMP_TO_EDGE));;;
  x_void (inr (glTexParameteri GL_TEXTURE_2D GL_TEXTURE_WRAP_T GL_CLAMP_TO_EDGE));;;
  x_void (inr (glTexParameteri GL_TEXTURE_2D GL_TEXTURE_MIN_FILTER GL_LINEAR));;;
  x_void (inr (glTexParameteri GL_TEXTURE_2D GL_TEXTURE_MAG_FILTER GL_LINEAR));;;
  x_void (inr (glTexImage2D GL_TEXTURE_2D 0
                 (if is_RED fmt then GL_R8 else GLenum_of fmt)
                 width height 0 (GLenum_of fmt) GL_UNSIGNED_BYTE));;;
  lift (Texture_unbind this);;;
  xret this.

(** [Texture<format>::copy_data]. *)
Definition Texture_copy_data (fmt : Format) (this : Texture) (data : Bytes)
  : XM unit :=
  lift (Texture_bind this);;;
  x_void (inl (glBindBuffer GL_PIXEL_UNPACK_BUFFER (pbo_ this)));;;
  gpuMemory <-- x_int (inr (glMapBufferRange GL_PIXEL_UNPACK_BUFFER 0
                              (to_GLsizeiptr (size data))
                              (Z.lor GL_MAP_WRITE_BIT
                                     GL_MAP_INVALIDATE_RANGE_BIT)));;
  (if gpuMemory =? 0 then xret tt
   else
     x_void (inr (memcpy gpuMemory data));;;
     unmapped <-- x_int (inr (glUnmapBuffer GL_PIXEL_UNPACK_BUFFER));;
     xret tt);;;
  x_void (inr (glTexSubImage2D GL_TEXTURE_2D 0 0 0 (width_ this) (height_ this)
                 (GLenum_of fmt) GL_UNSIGNED_BYTE 0));;;
  x_void (inr (glPixelStorei GL_UNPACK_ALIGNMENT 4));;;
  x_void (inl (glBindBuffer GL_PIXEL_UNPACK_BUFFER 0));;;
  lift (Texture_unbind this).

(** [Mesh::Mesh (vertices, indices)]. *)
Definition Mesh_ctor (vertices : list Vertex) (indices : list Z)
    (raw_count : Z) : XM Mesh :=
  vb <-- VertexBuffer_ctor;;
  VertexBuffer_set_data vb (AsBytes_Vertex vertices);;;
  ib0 <-- IndexBuffer_ctor raw_count;;
  ib <-- IndexBuffer_set_data ib0 indices;;
  va <-- VertexArray_ctor (Some vb) getLayout;;
  xret {| vertex_array_ := Some va;
          vertex_buffer_ := Some vb;
          index_buffer_ := Some ib |}.

End Code.

(** The constants [vertices] and [indices] and [QuadMesh]. *)
Definition f_half : f32.float := f32.div f32.one f32.two.
Definition f_minus_half : f32.float := SFopp f_half.

Definition vertices : list Vertex :=
  [ {| position := {| vec3_x := f_minus_half; vec3_y := f_half; vec3_z := f32.zero |};
       uv := {| vec2_x := f32.zero; vec2_y := f32.one |} |};
    {| position := {| vec3_x := f_minus_half; vec3_y := f_minus_half; vec3_z := f32.zero |};
       uv := {| vec2_x := f32.zero; vec2_y := f32.zero |} |};
    {| position := {| vec3_x := f_half; vec3_y := f_half; vec3_z := f32.zero |};
       uv := {| vec2_x := f32.one; vec2_y := f32.one |} |};
    {| position := {| vec3_x := f_half; vec3_y := f_minus_half; vec3_z := f32.zero |};
       uv := {| vec2_x := f32.one; vec2_y := f32.zero |} |} ].

Definition indices : list Z := [0; 1; 2; 2; 1; 3].

Definition QuadMesh `{Glm} (drv : XDriver) (raw_count : Z) : XM Mesh :=
  Mesh_ctor drv vertices indices raw_count.

(** Readers of these traces. *)
Section Readers.
Context `{Glm}.

(** The buffer bound to [target] after a trace (by its last
    [glBindBuffer]), the texture and the vertex array bound after it. *)
Definition binds_buffer (target : Z) (ev : XEvent) : option Z :=
  match fst ev with
  | inl (glBindBuffer t id) => if t =? target then Some id else None
  | _ => None
  end.

Definition bound_buffer (target : Z) (t : list XEvent) : option Z :=
  last (omap (binds_buffer target) t).

Definition binds_texture (ev : XEvent) : option Z :=
  match fst ev with
  | inl (glBindTexture _ id) => Some id
  | _ => None
  end.

Definition bound_texture (t : list XEvent) : option Z :=
  last (omap binds_texture t).

Definition binds_vertex_array (ev : XEvent) : option Z :=
  match fst ev with
  | inl (glBindVertexArray id) => Some id
  | _ => None
  end.

Definition bound_vertex_array (t : list XEvent) : option Z :=
  last (omap binds_vertex_array t).

(** The calls of a trace. *)
Definition xcalls (t : list XEvent) : list XCall := map fst t.

(** The two calls the constructor of [VertexArray] makes for the element
    at index [i]. *)
Definition attrib_calls (stride : Z) (i : nat) (element : VertexAttribElement)
  : list XCall :=
  [inr (glEnableVertexAttribArray (Z.of_nat i));
   inr (glVertexAttribPointer (Z.of_nat i) (to_GLint (ae_count element))
          (ae_type element) (ae_normalized element) (to_GLint stride)
          (ae_offset element))].

End Readers.

(** A driver that plays a script, as [sample.scripted]. *)
Definition is_RInt (ev : @XEvent sample.symbolic) : bool :=
  match snd ev with RInt _ => true | _ => false end.

Definition scripted (answers : list Z) : @XDriver sample.symbolic :=
  {| x_answer_int := fun h _ =>
       nth (length (List.filter is_RInt h)) answers 1 |}.

End resources.

(** * Properties *)

(** ** The context token of [Window] *)

Module window_facts.
Import window.

Lemma get_context_free (w : Window) :
  context_out_ w = false ->
  get_context w = (set_context_out w true, Ok OpenGLContext_of_window).
Proof.
  intros Hfree. unfold get_context, compare_exchange_strong.
  rewrite Hfree. reflexivity.
Qed.

Lemma get_context_taken (w : Window) :
  context_out_ w = true ->
  get_context w = (w, Throw (runtime_error "OpenGL context already acquired!")).
Proof.
  intros Htaken. unfold get_context, compare_exchange_strong.
  rewrite Htaken. cbn. destruct w; cbn in *; subst; reflexivity.
Qed.

Lemma get_context_Ok_iff (w : Window) :
  is_Ok (snd (get_context w)) = true <-> context_out_ w = false.
Proof.
  destruct (context_out_ w) eqn:E.
  - rewrite (get_context_taken _ E). cbn. split; discriminate.
  - rewrite (get_context_free _ E). cbn. split; reflexivity.
Qed.

Lemma dtor_clears (w : Window) (c : OpenGLContext) :
  context_out_ (OpenGLContext_dtor w c) = false.
Proof. reflexivity. Qed.

Lemma fresh_flag_matches (w : Window) : flag_matches (fresh w).
Proof. reflexivity. Qed.

(** Every indivisible step keeps the flag in step with the calls that own
    it. *)
Lemma fire_flag_matches (e : event) (s s' : sys) :
  flag_matches s -> fire e s = Some s' -> flag_matches s'.
Proof.
  unfold flag_matches, outstanding. intros Hinv Hfire.
  destruct e; cbn in Hfire.
  - destruct (context_out_ (win s)) eqn:E.
    + rewrite (get_context_taken _ E) in Hfire. inversion Hfire; subst; cbn.
      rewrite E. exact Hinv.
    + rewrite (get_context_free _ E) in Hfire. inversion Hfire; subst; cbn.
      lia.
  - destruct (returning s) eqn:E; [discriminate|].
    inversion Hfire; subst; cbn. lia.
  - destruct (live s) eqn:E; [discriminate|].
    inversion Hfire; subst; cbn. lia.
  - destruct (releasing s) eqn:E; [discriminate|].
    inversion Hfire; subst; cbn.
    destruct (context_out_ (win s)); lia.
Qed.

Lemma run_flag_matches (es : list event) : forall s s',
  flag_matches s -> run es s = Some s' -> flag_matches s'.
Proof.
  induction es as [|e es IH]; intros s s' Hinv Hrun; cbn in Hrun.
  - inversion Hrun; subst. exact Hinv.
  - destruct (fire e s) as [s1|] eqn:E; [|discriminate].
    eapply IH; [|exact Hrun]. eapply fire_flag_matches; eassumption.
Qed.

(** C1. In every state a window reaches from construction, through any
    interleaving of [get_context] calls and token destructions, at most one
    token is live and the flag is set exactly when a call owns it;
    [get_context] succeeds exactly when the flag is false and then leaves it
    true; while a token is outstanding it throws
    [runtime_error ("OpenGL context already acquired!")] and leaves the
    window unchanged; destroying a token clears the flag, after which
    [get_context] succeeds. *)
Theorem context_token_exclusive (w : Window) (es : list event) (s : sys) :
  run es (fresh w) = Some s ->
  (live s <= 1)%nat
  /\ flag_matches s
  /\ (is_Ok (snd (get_context (win s))) = true <-> context_out_ (win s) = false)
  /\ (is_Ok (snd (get_context (win s))) = true ->
      context_out_ (fst (get_context (win s))) = true)
  /\ ((0 < outstanding s)%nat ->
      get_context (win s)
      = (win s, Throw (runtime_error "OpenGL context already acquired!")))
  /\ (forall c : OpenGLContext,
        context_out_ (OpenGLContext_dtor (win s) c) = false
        /\ get_context (OpenGLContext_dtor (win s) c)
           = (set_context_out (win s) true, Ok OpenGLContext_of_window)).
Proof.
  intros Hrun.
  assert (Hinv : flag_matches s)
    by (eapply run_flag_matches; [apply fresh_flag_matches | exact Hrun]).
  split; [|split; [|split; [|split; [|split]]]].
  - unfold flag_matches, outstanding in Hinv.
    destruct (context_out_ (win s)); lia.
  - exact Hinv.
  - apply get_context_Ok_iff.
  - intros Hok. apply get_context_Ok_iff in Hok.
    rewrite (get_context_free _ Hok). reflexivity.
  - intros Hout. apply get_context_taken.
    unfold flag_matches in Hinv.
    destruct (context_out_ (win s)); [reflexivity | lia].
  - intros c. split; [reflexivity|].
    rewrite get_context_free by reflexivity. reflexivity.
Qed.

(** Two threads race for the context, the winner gets its token, and a
    third call arrives while the token is live. *)
Lemma context_token_exclusive_witness :
  let s := {| win := set_context_out sample.window0 true;
              returning := 0; live := 1; releasing := 0 |} in
  run [EvExchange; EvExchange; EvReturn; EvExchange] (fresh sample.window0)
  = Some s
  /\ (live s <= 1)%nat
  /\ get_context (win s)
     = (win s, Throw (runtime_error "OpenGL context already acquired!")).
Proof.
  cbv zeta.
  split; [reflexivity|].
  pose proof (context_token_exclusive sample.window0
                [EvExchange; EvExchange; EvReturn; EvExchange] _ eq_refl)
    as (Hlive & _ & _ & _ & Hthrow & _).
  split; [exact Hlive | apply Hthrow; cbn; lia].
Defined.

(** C9. [should_close] is true exactly while GLFW's close flag is not
    [GLFW_TRUE]: true on a window whose flag is [GLFW_FALSE], false once the
    flag has been set, as the ESC key callback does; other keys leave the
    answer as it was. *)
Theorem should_close_negates_flag (w : Window) (key scancode action mods : Z) :
  (should_close w = true <-> glfwWindowShouldClose (window_ w) <> GLFW_TRUE)
  /\ (should_close w = false <-> glfwWindowShouldClose (window_ w) = GLFW_TRUE)
  /\ should_close (key_callback w GLFW_KEY_ESCAPE scancode GLFW_PRESS mods)
     = false
  /\ (key_callback w key scancode action mods = w
      \/ should_close (key_callback w key scancode action mods) = false).
Proof.
  unfold should_close, glfwWindowShouldClose.
  split; [|split; [|split]].
  - destruct (Z.eqb_spec (shouldClose (window_ w)) GLFW_TRUE) as [Heq|Hne];
      cbn; split; intros; try discriminate; try assumption; try reflexivity.
    contradiction.
  - destruct (Z.eqb_spec (shouldClose (window_ w)) GLFW_TRUE) as [Heq|Hne];
      cbn; split; intros; try discriminate; try assumption; try reflexivity.
    contradiction.
  - reflexivity.
  - unfold key_callback.
    destruct ((key =? GLFW_KEY_ESCAPE) && (action =? GLFW_PRESS));
      [right; reflexivity | left; reflexivity].
Qed.

End window_facts.

(** ** The resource wrappers *)

Module wrapper_facts.
Import gl renderer.

(** Every move constructor hands the handle over and zeroes the source's, so
    the destructor of a moved-from [ShaderProgram], [VertexBuffer],
    [IndexBuffer] or [Texture] names handle 0 only. *)
Lemma move_ctor_transfers_handle `{Glm}
    (sp : ShaderProgram) (vb : VertexBuffer) (raw_ib ib : IndexBuffer)
    (va : VertexArray) (raw_t t : Texture) (h : list Event) :
  (shaderProgram_ (fst (ShaderProgram_move sp)) = shaderProgram_ sp
   /\ ShaderProgram_dtor (snd (ShaderProgram_move sp)) h
      = ([(glDeleteProgram 0, RVoid)], Ok tt))
  /\ (vbo_ (fst (VertexBuffer_move vb)) = vbo_ vb
      /\ VertexBuffer_dtor (snd (VertexBuffer_move vb)) h
         = ([(glDeleteBuffers 0, RVoid)], Ok tt))
  /\ (ibo_ (fst (IndexBuffer_move raw_ib ib)) = ibo_ ib
      /\ IndexBuffer_dtor (snd (IndexBuffer_move raw_ib ib)) h
         = ([(glDeleteBuffers 0, RVoid)], Ok tt))
  /\ vao_ (fst (VertexArray_move va)) = vao_ va
  /\ (textureId_ (fst (Texture_move raw_t t)) = textureId_ t
      /\ pbo_ (fst (Texture_move raw_t t)) = pbo_ t
      /\ Texture_dtor (snd (Texture_move raw_t t)) h
         = ([(glDeleteTextures 0, RVoid); (glDeleteBuffers 0, RVoid)], Ok tt)).
Proof. repeat split. Qed.

(** C3 (evaluation of the code). The move constructors of [Texture] and
    [IndexBuffer] write the handles only: [width_], [height_],
    [buffer_size_] and [count_] of the new object are whatever the storage
    held, not the members of the source.  Moving the 800 x 600 texture of
    [main] into zeroed storage yields a texture of width 0, height 0 and
    staging size 0; moving a six-index buffer yields a count of 0. *)
Theorem move_ctor_leaves_members_unset (raw_t t : Texture)
    (raw_ib ib : IndexBuffer) :
  (width_ (fst (Texture_move raw_t t)) = width_ raw_t
   /\ height_ (fst (Texture_move raw_t t)) = height_ raw_t
   /\ buffer_size_ (fst (Texture_move raw_t t)) = buffer_size_ raw_t
   /\ count_ (fst (IndexBuffer_move raw_ib ib)) = count_ raw_ib)
  /\ fst (Texture_move sample.raw_Texture sample.tex)
     = {| width_ := 0; height_ := 0; textureId_ := 1; pbo_ := 3;
          buffer_size_ := 0 |}
  /\ width_ (fst (Texture_move sample.raw_Texture sample.tex))
     <> width_ sample.tex
  /\ fst (IndexBuffer_move sample.raw_IndexBuffer {| ibo_ := 2; count_ := 6 |})
     = {| ibo_ := 2; count_ := 0 |}
  /\ get_count
       (fst (IndexBuffer_move sample.raw_IndexBuffer
               {| ibo_ := 2; count_ := 6 |}))
     <> get_count {| ibo_ := 2; count_ := 6 |}.
Proof.
  split; [repeat split|].
  split; [reflexivity|].
  split; [cbn; lia|].
  split; [reflexivity | cbn; lia].
Qed.

End wrapper_facts.

(** ** Position and size of a [Renderable] *)

Module position_facts.
Import gl renderer.

Section Position.
Context `{Glm}.

Lemma set_position_TopLeft_stores (r : Renderable) (p : vec3) :
  position_ (set_position_TopLeft r p)
  = {| vec3_x := f32.add (vec3_x p) (f32.div (vec2_x (scale_ r)) f32.two);
       vec3_y := f32.add (vec3_y p) (f32.div (vec2_y (scale_ r)) f32.two);
       vec3_z := vec3_z p |}
  /\ scale_ (set_position_TopLeft r p) = scale_ r.
Proof. split; reflexivity. Qed.

Lemma get_position_TopLeft_reads (r : Renderable) :
  get_position_TopLeft r
  = to_uint32_pair
      (f32.round (f32.sub (vec3_x (position_ r)) (f32.div (vec2_x (scale_ r)) f32.two)))
      (f32.round (f32.sub (vec3_y (position_ r)) (f32.div (vec2_y (scale_ r)) f32.two))).
Proof. reflexivity. Qed.


End Position.



End position_facts.

(** ** Running computations *)

Module run_facts.
Import gl.

Section Run.
Context `{Glm} (drv : Driver).

Lemma bind_run {A B} (m : M A) (k : A -> M B) (h n1 : list Event) (a : A) :
  m h = (n1, Ok a) ->
  bind m k h = (n1 ++ fst (k a (h ++ n1)), snd (k a (h ++ n1))).
Proof.
  intros Hm. unfold bind. rewrite Hm.
  destruct (k a (h ++ n1)); reflexivity.
Qed.

Lemma bind_step {A B} (m : M A) (k : A -> M B) (h n1 n2 : list Event)
    (a : A) (res : outcome B) :
  m h = (n1, Ok a) ->
  k a (h ++ n1) = (n2, res) ->
  bind m k h = (n1 ++ n2, res).
Proof. intros Hm Hk. unfold bind. rewrite Hm, Hk. reflexivity. Qed.

Lemma bind_Ok_inv {A B} (m : M A) (k : A -> M B) (h new : list Event) (b : B) :
  bind m k h = (new, Ok b) ->
  exists n1 a n2,
    m h = (n1, Ok a) /\ k a (h ++ n1) = (n2, Ok b) /\ new = n1 ++ n2.
Proof.
  unfold bind. destruct (m h) as [n1 [a| |]]; try discriminate.
  destruct (k a (h ++ n1)) as [n2 r] eqn:Ek. intros Heq.
  inversion Heq; subst. eauto 6.
Qed.

Lemma bind_Throw {A B} (m : M A) (k : A -> M B) (h n1 : list Event)
    (e : exception) :
  m h = (n1, Throw e) -> bind m k h = (n1, Throw e).
Proof. intros Hm. unfold bind. rewrite Hm. reflexivity. Qed.

Lemma call_void_run (c : Call) (h : list Event) :
  call_void c h = ([(c, RVoid)], Ok tt).
Proof. reflexivity. Qed.

Lemma call_int_run (c : Call) (h : list Event) :
  call_int drv c h = ([(c, RInt (answer_int drv h c))], Ok (answer_int drv h c)).
Proof. reflexivity. Qed.

Lemma call_str_run (c : Call) (h : list Event) :
  call_str drv c h = ([(c, RStr (answer_str drv h c))], Ok (answer_str drv h c)).
Proof. reflexivity. Qed.

Lemma ret_run {A} (a : A) (h : list Event) : ret a h = ([], Ok a).
Proof. reflexivity. Qed.

Lemma deref_run {A} (a : A) (h : list Event) : deref (Some a) h = ([], Ok a).
Proof. reflexivity. Qed.

End Run.

End run_facts.

(** ** The location caches of [ShaderProgram] *)

Module shader_facts.
Import gl renderer observe.

Section Cache.
Context `{Glm} (drv : Driver).

(** A look-up adds nothing to the trace on a hit and one query on a miss. *)
Lemma get_uniform_location_hit (p : ShaderProgram) (name : string)
    (location : Z) (h : list Event) :
  m_UniformLocationCache p !! name = Some location ->
  get_uniform_location drv p name h = ([], Ok (p, location)).
Proof. intros Hhit. unfold get_uniform_location. rewrite Hhit. reflexivity. Qed.

Lemma get_uniform_location_miss (p : ShaderProgram) (name : string)
    (h : list Event) :
  m_UniformLocationCache p !! name = None ->
  let call := glGetUniformLocation (shaderProgram_ p) name in
  let location := answer_int drv h call in
  get_uniform_location drv p name h
  = ([(call, RInt location)],
     Ok ({| shaderProgram_ := shaderProgram_ p;
            m_UniformLocationCache :=
              <[name := location]> (m_UniformLocationCache p);
            m_AttributeLocationCache := m_AttributeLocationCache p |},
         location)).
Proof. intros Hmiss. unfold get_uniform_location. rewrite Hmiss. reflexivity. Qed.

Lemma get_attrib_location_hit (p : ShaderProgram) (name : string)
    (location : Z) (h : list Event) :
  m_AttributeLocationCache p !! name = Some location ->
  get_attrib_location drv p name h = ([], Ok (p, location)).
Proof. intros Hhit. unfold get_attrib_location. rewrite Hhit. reflexivity. Qed.

Lemma get_attrib_location_miss (p : ShaderProgram) (name : string)
    (h : list Event) :
  m_AttributeLocationCache p !! name = None ->
  let call := glGetAttribLocation (shaderProgram_ p) name in
  let location := answer_int drv h call in
  get_attrib_location drv p name h
  = ([(call, RInt location)],
     Ok ({| shaderProgram_ := shaderProgram_ p;
            m_UniformLocationCache := m_UniformLocationCache p;
            m_AttributeLocationCache :=
              <[name := location]> (m_AttributeLocationCache p) |},
         location)).
Proof. intros Hmiss. unfold get_attrib_location. rewrite Hmiss. reflexivity. Qed.


(** A single query for [name] counts one, any other event none. *)
Lemma uniform_queries_app (name : string) (t1 t2 : list Event) :
  uniform_queries name (t1 ++ t2)
  = (uniform_queries name t1 + uniform_queries name t2)%nat.
Proof.
  unfold uniform_queries. rewrite List.filter_app, length_app. reflexivity.
Qed.

Lemma attrib_queries_app (name : string) (t1 t2 : list Event) :
  attrib_queries name (t1 ++ t2)
  = (attrib_queries name t1 + attrib_queries name t2)%nat.
Proof.
  unfold attrib_queries. rewrite List.filter_app, length_app. reflexivity.
Qed.

Lemma extends_refl (p : ShaderProgram) : extends p p.
Proof. repeat split; auto. Qed.

Lemma extends_trans (p1 p2 p3 : ShaderProgram) :
  extends p1 p2 -> extends p2 p3 -> extends p1 p3.
Proof.
  intros (Hid12 & Hu12 & Ha12) (Hid23 & Hu23 & Ha23).
  repeat split; [congruence | auto | auto].
Qed.

Lemma get_uniform_location_run (p : ShaderProgram) (n : string)
    (h : list Event) :
  exists new p' location,
    get_uniform_location drv p n h = (new, Ok (p', location))
    /\ m_UniformLocationCache p' !! n = Some location
    /\ extends p p'
    /\ (new = []
        \/ new = [(glGetUniformLocation (shaderProgram_ p) n, RInt location)])
    /\ (forall name, uniform_once name p new p' /\ attrib_queries name new = 0%nat).
Proof.
  destruct (m_UniformLocationCache p !! n) as [z|] eqn:E.
  - exists [], p, z. rewrite (get_uniform_location_hit _ _ _ h E).
    split; [reflexivity|]. split; [exact E|]. split; [apply extends_refl|].
    split; [left; reflexivity|].
    intros name. unfold uniform_once. cbn. repeat split; auto; lia.
  - eexists _, _, _. rewrite (get_uniform_location_miss _ _ h E). cbv zeta.
    split; [reflexivity|]. cbn [m_UniformLocationCache].
    split; [apply lookup_insert_eq|].
    split.
    { repeat split; cbn; auto. intros n0 z Hn0.
      destruct (decide (n = n0)) as [->|Hne]; [congruence|].
      rewrite lookup_insert_ne by exact Hne. exact Hn0. }
    split; [right; reflexivity|].
    intros name. unfold uniform_once, uniform_queries, attrib_queries.
    cbn [List.filter is_uniform_query is_attrib_query fst length
         m_UniformLocationCache].
    destruct (String.eqb_spec n name) as [->|Hne]; cbn [length].
    + repeat split; try lia.
      * intros [z Hz]. congruence.
      * intros _. rewrite lookup_insert_eq. eauto.
    + repeat split; try lia.
Qed.

Lemma get_attrib_location_run (p : ShaderProgram) (n : string)
    (h : list Event) :
  exists new p' location,
    get_attrib_location drv p n h = (new, Ok (p', location))
    /\ m_AttributeLocationCache p' !! n = Some location
    /\ extends p p'
    /\ (new = []
        \/ new = [(glGetAttribLocation (shaderProgram_ p) n, RInt location)])
    /\ (forall name, attrib_once name p new p' /\ uniform_queries name new = 0%nat).
Proof.
  destruct (m_AttributeLocationCache p !! n) as [z|] eqn:E.
  - exists [], p, z. rewrite (get_attrib_location_hit _ _ _ h E).
    split; [reflexivity|]. split; [exact E|]. split; [apply extends_refl|].
    split; [left; reflexivity|].
    intros name. unfold attrib_once. cbn. repeat split; auto; lia.
  - eexists _, _, _. rewrite (get_attrib_location_miss _ _ h E). cbv zeta.
    split; [reflexivity|]. cbn [m_AttributeLocationCache].
    split; [apply lookup_insert_eq|].
    split.
    { repeat split; cbn; auto. intros n0 z Hn0.
      destruct (decide (n = n0)) as [->|Hne]; [congruence|].
      rewrite lookup_insert_ne by exact Hne. exact Hn0. }
    split; [right; reflexivity|].
    intros name. unfold attrib_once, uniform_queries, attrib_queries.
    cbn [List.filter is_uniform_query is_attrib_query fst length
         m_AttributeLocationCache].
    destruct (String.eqb_spec n name) as [->|Hne]; cbn [length].
    + repeat split; try lia.
      * intros [z Hz]. congruence.
      * intros _. rewrite lookup_insert_eq. eauto.
    + repeat split; try lia.
Qed.

Lemma uniform_once_snoc (name : string) (p p' : ShaderProgram)
    (q : list Event) (ev : Event) :
  is_uniform_query name ev = false ->
  uniform_once name p q p' -> uniform_once name p (q ++ [ev]) p'.
Proof.
  intros Hev (H0 & H1 & H2). unfold uniform_once.
  rewrite uniform_queries_app. unfold uniform_queries at 2 4 6.
  cbn [List.filter]. rewrite Hev. cbn [length].
  repeat split; intros; try rewrite Nat.add_0_r in *; auto.
Qed.

Lemma set_int_run (p : ShaderProgram) (n : string) (v : Z) (h : list Event) :
  exists q p' location,
    set_int drv p n v h = (q ++ [(glUniform1i location v, RVoid)], Ok p')
    /\ m_UniformLocationCache p' !! n = Some location
    /\ extends p p'
    /\ (q = []
        \/ q = [(glGetUniformLocation (shaderProgram_ p) n, RInt location)])
    /\ (forall name,
          uniform_once name p (q ++ [(glUniform1i location v, RVoid)]) p'
          /\ attrib_queries name (q ++ [(glUniform1i location v, RVoid)]) = 0%nat).
Proof.
  destruct (get_uniform_location_run p n h)
    as (q & p' & l & Hrun & Hl & Hext & Hq & Hcount).
  exists q, p', l. unfold set_int.
  rewrite (run_facts.bind_run _ _ _ _ _ Hrun). cbn.
  split; [reflexivity|]. split; [exact Hl|]. split; [exact Hext|].
  split; [exact Hq|].
  intros name. destruct (Hcount name) as (Hu & Ha). split.
  - apply uniform_once_snoc; [reflexivity | exact Hu].
  - rewrite attrib_queries_app, Ha. reflexivity.
Qed.

Lemma set_mat4_run (p : ShaderProgram) (n : string) (v : mat4)
    (h : list Event) :
  exists q p' location,
    set_mat4 drv p n v h
    = (q ++ [(glUniformMatrix4fv location 1 GL_FALSE v, RVoid)], Ok p')
    /\ m_UniformLocationCache p' !! n = Some location
    /\ extends p p'
    /\ (q = []
        \/ q = [(glGetUniformLocation (shaderProgram_ p) n, RInt location)])
    /\ (forall name,
          uniform_once name p
            (q ++ [(glUniformMatrix4fv location 1 GL_FALSE v, RVoid)]) p'
          /\ attrib_queries name
               (q ++ [(glUniformMatrix4fv location 1 GL_FALSE v, RVoid)]) = 0%nat).
Proof.
  destruct (get_uniform_location_run p n h)
    as (q & p' & l & Hrun & Hl & Hext & Hq & Hcount).
  exists q, p', l. unfold set_mat4.
  rewrite (run_facts.bind_run _ _ _ _ _ Hrun). cbn.
  split; [reflexivity|]. split; [exact Hl|]. split; [exact Hext|].
  split; [exact Hq|].
  intros name. destruct (Hcount name) as (Hu & Ha). split.
  - apply uniform_once_snoc; [reflexivity | exact Hu].
  - rewrite attrib_queries_app, Ha. reflexivity.
Qed.

(** One client operation always completes, keeps what is cached, and asks
    GL at most once for a name, never for a cached one. *)
Lemma shader_op_run (o : ShaderOp) (p : ShaderProgram) (h : list Event) :
  exists new p',
    shader_op drv o p h = (new, Ok p')
    /\ extends p p'
    /\ (forall name, uniform_once name p new p' /\ attrib_once name p new p').
Proof.
  destruct o as [|n v|n v|n]; cbn [shader_op].
  - exists [(glUseProgram (shaderProgram_ p), RVoid)], p.
    split; [reflexivity|]. split; [apply extends_refl|].
    intros name. unfold uniform_once, attrib_once. cbn.
    repeat split; intros; auto; lia.
  - destruct (set_int_run p n v h) as (q & p' & l & Hrun & _ & Hext & _ & Hc).
    eexists _, p'. split; [exact Hrun|]. split; [exact Hext|].
    intros name. destruct (Hc name) as (Hu & Ha). split; [exact Hu|].
    unfold attrib_once. rewrite Ha. repeat split; intros; auto; lia.
  - destruct (set_mat4_run p n v h) as (q & p' & l & Hrun & _ & Hext & _ & Hc).
    eexists _, p'. split; [exact Hrun|]. split; [exact Hext|].
    intros name. destruct (Hc name) as (Hu & Ha). split; [exact Hu|].
    unfold attrib_once. rewrite Ha. repeat split; intros; auto; lia.
  - destruct (get_attrib_location_run p n h)
      as (q & p' & l & Hrun & _ & Hext & _ & Hc).
    exists q, p'. rewrite (run_facts.bind_run _ _ _ _ _ Hrun). cbn.
    rewrite app_nil_r.
    split; [reflexivity|]. split; [exact Hext|].
    intros name. destruct (Hc name) as (Ha & Hu). split; [|exact Ha].
    unfold uniform_once. rewrite Hu. repeat split; intros; auto; lia.
Qed.

Lemma extends_is_Some_uniform (p p' : ShaderProgram) (name : string) :
  extends p p' ->
  is_Some (m_UniformLocationCache p !! name) ->
  is_Some (m_UniformLocationCache p' !! name).
Proof. intros (_ & Hu & _) [z Hz]. exists z. auto. Qed.

Lemma extends_is_Some_attrib (p p' : ShaderProgram) (name : string) :
  extends p p' ->
  is_Some (m_AttributeLocationCache p !! name) ->
  is_Some (m_AttributeLocationCache p' !! name).
Proof. intros (_ & _ & Ha) [z Hz]. exists z. auto. Qed.

(** The same over any sequence of client operations. *)
Lemma shader_ops_run (os : list ShaderOp) :
  forall (p : ShaderProgram) (h : list Event),
  exists new p',
    shader_ops drv os p h = (new, Ok p')
    /\ extends p p'
    /\ (forall name, uniform_once name p new p' /\ attrib_once name p new p').
Proof.
  induction os as [|o os IH]; intros p h; cbn [shader_ops].
  - exists [], p. split; [reflexivity|]. split; [apply extends_refl|].
    intros name. unfold uniform_once, attrib_once. cbn.
    repeat split; intros; auto; lia.
  - destruct (shader_op_run o p h) as (n1 & p1 & Hrun1 & Hext1 & Hc1).
    destruct (IH p1 (h ++ n1)) as (n2 & p2 & Hrun2 & Hext2 & Hc2).
    exists (n1 ++ n2), p2.
    rewrite (run_facts.bind_run _ _ _ _ _ Hrun1), Hrun2. cbn [fst snd].
    split; [reflexivity|].
    split; [eapply extends_trans; eassumption|].
    intros name.
    destruct (Hc1 name) as ((Hu10 & Hu11 & Hu12) & (Ha10 & Ha11 & Ha12)).
    destruct (Hc2 name) as ((Hu20 & Hu21 & Hu22) & (Ha20 & Ha21 & Ha22)).
    split.
    + unfold uniform_once. rewrite uniform_queries_app.
      split; [|split].
      * intros Hs. rewrite (Hu10 Hs).
        rewrite Hu20; [reflexivity|].
        eapply extends_is_Some_uniform; eassumption.
      * destruct (Nat.eq_dec (uniform_queries name n1) 1%nat) as [E1|E1].
        -- rewrite (Hu20 (Hu12 E1)). lia.
        -- lia.
      * intros Hsum.
        destruct (Nat.eq_dec (uniform_queries name n1) 1%nat) as [E1|E1].
        -- eapply extends_is_Some_uniform; [exact Hext2 | auto].
        -- apply Hu22. lia.
    + unfold attrib_once. rewrite attrib_queries_app.
      split; [|split].
      * intros Hs. rewrite (Ha10 Hs).
        rewrite Ha20; [reflexivity|].
        eapply extends_is_Some_attrib; eassumption.
      * destruct (Nat.eq_dec (attrib_queries name n1) 1%nat) as [E1|E1].
        -- rewrite (Ha20 (Ha12 E1)). lia.
        -- lia.
      * intros Hsum.
        destruct (Nat.eq_dec (attrib_queries name n1) 1%nat) as [E1|E1].
        -- eapply extends_is_Some_attrib; [exact Hext2 | auto].
        -- apply Ha22. lia.
Qed.

(** C6. For every program object and every name: on a miss
    [get_uniform_location] / [get_attrib_location] issue one GL query, store
    the answer (any integer, negative ones included) under the name and
    return it; over any sequence of client operations each name is queried
    at most once per cache; and a name stored with a value is never queried
    again, every later look-up returning that value and leaving the program
    object as it is. *)
Theorem location_queried_once (os : list ShaderOp) (p : ShaderProgram)
    (h : list Event) (name : string) :
  (m_UniformLocationCache p !! name = None ->
   exists p1,
     get_uniform_location drv p name h
     = ([(glGetUniformLocation (shaderProgram_ p) name,
          RInt (answer_int drv h (glGetUniformLocation (shaderProgram_ p) name)))],
        Ok (p1, answer_int drv h (glGetUniformLocation (shaderProgram_ p) name)))
     /\ m_UniformLocationCache p1 !! name
        = Some (answer_int drv h (glGetUniformLocation (shaderProgram_ p) name)))
  /\ (m_AttributeLocationCache p !! name = None ->
      exists p1,
        get_attrib_location drv p name h
        = ([(glGetAttribLocation (shaderProgram_ p) name,
             RInt (answer_int drv h (glGetAttribLocation (shaderProgram_ p) name)))],
           Ok (p1, answer_int drv h (glGetAttribLocation (shaderProgram_ p) name)))
        /\ m_AttributeLocationCache p1 !! name
           = Some (answer_int drv h (glGetAttribLocation (shaderProgram_ p) name)))
  /\ exists new p',
       shader_ops drv os p h = (new, Ok p')
       /\ (uniform_queries name new <= 1)%nat
       /\ (attrib_queries name new <= 1)%nat
       /\ (forall z, m_UniformLocationCache p !! name = Some z ->
             uniform_queries name new = 0%nat
             /\ forall h', get_uniform_location drv p' name h' = ([], Ok (p', z)))
       /\ (forall z, m_AttributeLocationCache p !! name = Some z ->
             attrib_queries name new = 0%nat
             /\ forall h', get_attrib_location drv p' name h' = ([], Ok (p', z))).
Proof.
  split; [|split].
  - intros Hmiss. eexists. rewrite (get_uniform_location_miss _ _ h Hmiss).
    cbv zeta. split; [reflexivity|]. apply lookup_insert_eq.
  - intros Hmiss. eexists. rewrite (get_attrib_location_miss _ _ h Hmiss).
    cbv zeta. split; [reflexivity|]. apply lookup_insert_eq.
  - destruct (shader_ops_run os p h) as (new & p' & Hrun & Hext & Hc).
    exists new, p'. split; [exact Hrun|].
    destruct (Hc name) as ((Hu0 & Hu1 & _) & (Ha0 & Ha1 & _)).
    destruct Hext as (_ & Hu & Ha).
    split; [exact Hu1|]. split; [exact Ha1|]. split.
    + intros z Hz. split; [apply Hu0; eauto|].
      intros h'. apply get_uniform_location_hit. auto.
    + intros z Hz. split; [apply Ha0; eauto|].
      intros h'. apply get_attrib_location_hit. auto.
Qed.

End Cache.

(** A uniform the program does not have: GL answers -1 once; the two
    [set_int] calls that follow the first look-up are served from the
    cache. *)
Lemma location_queried_once_witness :
  let drv := sample.scripted [-1; 7] in
  let p1 := {| shaderProgram_ := 3;
               m_UniformLocationCache := {[ "u_missing" := -1 ]};
               m_AttributeLocationCache := ∅ |} in
  (exists p0,
     get_uniform_location drv sample.program "u_missing" []
     = ([(glGetUniformLocation 3 "u_missing", RInt (-1))], Ok (p0, -1))
     /\ m_UniformLocationCache p0 !! "u_missing" = Some (-1))
  /\ exists new p',
       shader_ops drv [OpSetInt "u_missing" 0; OpSetInt "u_missing" 1] p1 [] = (new, Ok p')
       /\ uniform_queries "u_missing" new = 0%nat
       /\ get_uniform_location drv p' "u_missing" new = ([], Ok (p', -1)).
Proof.
  cbv zeta. split.
  - destruct (location_queried_once (sample.scripted [-1; 7]) []
                sample.program [] "u_missing") as (Hmiss & _ & _).
    destruct (Hmiss (lookup_empty _)) as (p0 & Hrun & Hstored).
    exists p0. split; [exact Hrun | exact Hstored].
  - destruct (location_queried_once (sample.scripted [-1; 7])
                [OpSetInt "u_missing" 0; OpSetInt "u_missing" 1]
                {| shaderProgram_ := 3;
                   m_UniformLocationCache := {[ "u_missing" := -1 ]};
                   m_AttributeLocationCache := ∅ |} [] "u_missing")
      as (_ & _ & new & p' & Hrun & _ & _ & Hhit & _).
    exists new, p'. split; [exact Hrun|].
    destruct (Hhit (-1) (lookup_singleton_eq _ _)) as (Hzero & Hget).
    split; [exact Hzero | apply Hget].
Defined.

End shader_facts.

(** ** Drawing a [Renderable] *)

Module draw_facts.
Import gl renderer observe.

Section Draw.
Context `{Glm} (drv : Driver).

(** The guarded block touches [transform_] only. *)
Lemma update_transform_fields (r : Renderable) :
  let r1 := fst (update_transform r) in
  format r1 = format r /\ mesh_ r1 = mesh_ r
  /\ texture_y r1 = texture_y r /\ texture_u r1 = texture_u r
  /\ texture_v r1 = texture_v r
  /\ position_ r1 = position_ r /\ scale_ r1 = scale_ r
  /\ dirty_ r1 = dirty_ r.
Proof.
  intros r1. subst r1. unfold update_transform.
  destruct (dirty_ r) eqn:E; cbn; repeat split; auto.
Qed.

Lemma update_transform_recomputes (r : Renderable) :
  snd (update_transform r) = dirty_ r
  /\ transform_ (fst (update_transform r))
     = if dirty_ r then composed r else transform_ r.
Proof. unfold update_transform, composed. destruct (dirty_ r); split; reflexivity. Qed.

Lemma Mesh_draw_run (m : Mesh) (va : VertexArray) (ib : IndexBuffer)
    (h : list Event) :
  vertex_array_ m = Some va -> index_buffer_ m = Some ib ->
  Mesh_draw m h
  = ([(glBindVertexArray (vao_ va), RVoid);
      (glBindBuffer GL_ELEMENT_ARRAY_BUFFER (ibo_ ib), RVoid);
      (glDrawElements GL_TRIANGLES (to_GLsizei (count_ ib)) GL_UNSIGNED_INT 0,
       RVoid)], Ok tt).
Proof. intros Hva Hib. unfold Mesh_draw. rewrite Hva, Hib. reflexivity. Qed.

(** The trace of a completed one-texture draw. *)
Lemma draw_single_run (r : Renderable) (sp : ShaderProgram) (h : list Event)
    (ty : Texture) (m : Mesh) (va : VertexArray) (ib : IndexBuffer) :
  texture_y r = Some ty -> mesh_ r = Some m ->
  vertex_array_ m = Some va -> index_buffer_ m = Some ib ->
  exists q1 l1 q2 l2 sp',
    draw_single drv r sp h
    = ((glActiveTexture GL_TEXTURE0, RVoid)
       :: (glBindTexture GL_TEXTURE_2D (textureId_ ty), RVoid)
       :: q1 ++ (glUniform1i l1 0, RVoid)
       :: q2 ++ [(glUniformMatrix4fv l2 1 GL_FALSE
                    (transform_ (fst (update_transform r))), RVoid);
                 (glBindVertexArray (vao_ va), RVoid);
                 (glBindBuffer GL_ELEMENT_ARRAY_BUFFER (ibo_ ib), RVoid);
                 (glDrawElements GL_TRIANGLES (to_GLsizei (count_ ib))
                    GL_UNSIGNED_INT 0, RVoid)],
       Ok {| drawn_obj := fst (update_transform r);
             drawn_shader := sp';
             recomputed := snd (update_transform r) |})
    /\ (q1 = [] \/ exists z, q1 = [(glGetUniformLocation (shaderProgram_ sp) "u_texture", RInt z)])
    /\ (q2 = [] \/ exists z, q2 = [(glGetUniformLocation (shaderProgram_ sp) "u_Transform", RInt z)])
    /\ extends sp sp'.
Proof.
  intros Hty Hm Hva Hib.
  destruct (update_transform_fields r) as (_ & Hm1 & Hty1 & _).
  unfold draw_single.
  set (h1 := ((h ++ [(glActiveTexture GL_TEXTURE0, RVoid)]) ++ [])
               ++ [(glBindTexture GL_TEXTURE_2D (textureId_ ty), RVoid)]).
  destruct (shader_facts.set_int_run drv sp "u_texture" 0 h1)
    as (q1 & s1 & l1 & Hrun1 & _ & Hext1 & Hq1 & _).
  destruct (shader_facts.set_mat4_run drv s1 "u_Transform"
              (transform_ (fst (update_transform r)))
              (h1 ++ q1 ++ [(glUniform1i l1 0, RVoid)]))
    as (q2 & s2 & l2 & Hrun2 & _ & Hext2 & Hq2 & _).
  exists q1, l1, q2, l2, s2.
  split; [|split; [|split]].
  - rewrite Hty1, Hm1, Hty, Hm.
    etransitivity.
    + eapply run_facts.bind_step; [reflexivity|].
      eapply run_facts.bind_step; [reflexivity|].
      eapply run_facts.bind_step; [reflexivity|].
      eapply run_facts.bind_step; [exact Hrun1|].
      eapply run_facts.bind_step; [exact Hrun2|].
      eapply run_facts.bind_step; [reflexivity|].
      eapply run_facts.bind_step; [apply (Mesh_draw_run _ _ _ _ Hva Hib)|].
      reflexivity.
    + cbn [app]. rewrite <- !app_assoc. cbn [app]. reflexivity.
  - destruct Hq1 as [-> | ->]; eauto.
  - destruct Hq2 as [-> | ->]; [left; reflexivity|].
    right. destruct Hext1 as (Hid & _). rewrite Hid. eauto.
  - eapply shader_facts.extends_trans; eassumption.
Qed.

(** The trace of a completed planar (three-texture) draw. *)
Lemma draw_planar_run (r : Renderable) (sp : ShaderProgram) (h : list Event)
    (ty tu tv : Texture) (m : Mesh) (va : VertexArray) (ib : IndexBuffer) :
  texture_y r = Some ty -> texture_u r = Some tu -> texture_v r = Some tv ->
  mesh_ r = Some m ->
  vertex_array_ m = Some va -> index_buffer_ m = Some ib ->
  exists q1 l1 q2 l2 sp',
    draw_planar drv r sp h
    = ((glActiveTexture GL_TEXTURE0, RVoid)
       :: (glBindTexture GL_TEXTURE_2D (textureId_ ty), RVoid)
       :: (glActiveTexture GL_TEXTURE1, RVoid)
       :: (glBindTexture GL_TEXTURE_2D (textureId_ tu), RVoid)
       :: (glActiveTexture GL_TEXTURE2, RVoid)
       :: (glBindTexture GL_TEXTURE_2D (textureId_ tv), RVoid)
       :: q1 ++ (glUniform1i l1 0, RVoid)
       :: q2 ++ [(glUniformMatrix4fv l2 1 GL_FALSE
                    (transform_ (fst (update_transform r))), RVoid);
                 (glBindVertexArray (vao_ va), RVoid);
                 (glBindBuffer GL_ELEMENT_ARRAY_BUFFER (ibo_ ib), RVoid);
                 (glDrawElements GL_TRIANGLES (to_GLsizei (count_ ib))
                    GL_UNSIGNED_INT 0, RVoid)],
       Ok {| drawn_obj := fst (update_transform r);
             drawn_shader := sp';
             recomputed := snd (update_transform r) |})
    /\ (q1 = [] \/ exists z, q1 = [(glGetUniformLocation (shaderProgram_ sp) "u_texture", RInt z)])
    /\ (q2 = [] \/ exists z, q2 = [(glGetUniformLocation (shaderProgram_ sp) "u_Transform", RInt z)])
    /\ extends sp sp'.
Proof.
  intros Hty Htu Htv Hm Hva Hib.
  destruct (update_transform_fields r) as (_ & Hm1 & Hty1 & Htu1 & Htv1 & _).
  unfold draw_planar.
  set (h1 := ((((((((h ++ [(glActiveTexture GL_TEXTURE0, RVoid)]) ++ [])
               ++ [(glBindTexture GL_TEXTURE_2D (textureId_ ty), RVoid)])
               ++ [(glActiveTexture GL_TEXTURE1, RVoid)]) ++ [])
               ++ [(glBindTexture GL_TEXTURE_2D (textureId_ tu), RVoid)])
               ++ [(glActiveTexture GL_TEXTURE2, RVoid)]) ++ [])
               ++ [(glBindTexture GL_TEXTURE_2D (textureId_ tv), RVoid)]).
  destruct (shader_facts.set_int_run drv sp "u_texture" 0 h1)
    as (q1 & s1 & l1 & Hrun1 & _ & Hext1 & Hq1 & _).
  destruct (shader_facts.set_mat4_run drv s1 "u_Transform"
              (transform_ (fst (update_transform r)))
              (h1 ++ q1 ++ [(glUniform1i l1 0, RVoid)]))
    as (q2 & s2 & l2 & Hrun2 & _ & Hext2 & Hq2 & _).
  exists q1, l1, q2, l2, s2.
  split; [|split; [|split]].
  - rewrite Hty1, Htu1, Htv1, Hm1, Hty, Htu, Htv, Hm.
    etransitivity.
    + do 9 (eapply run_facts.bind_step; [reflexivity|]).
      eapply run_facts.bind_step; [exact Hrun1|].
      eapply run_facts.bind_step; [exact Hrun2|].
      eapply run_facts.bind_step; [reflexivity|].
      eapply run_facts.bind_step; [apply (Mesh_draw_run _ _ _ _ Hva Hib)|].
      reflexivity.
    + cbn [app]. rewrite <- !app_assoc. cbn [app]. reflexivity.
  - destruct Hq1 as [-> | ->]; eauto.
  - destruct Hq2 as [-> | ->]; [left; reflexivity|].
    right. destruct Hext1 as (Hid & _). rewrite Hid. eauto.
  - eapply shader_facts.extends_trans; eassumption.
Qed.

(** A completed draw leaves the object of the guarded block and reports
    whether the block ran. *)
Lemma draw_leaves (r : Renderable) (sp : ShaderProgram) (h new : list Event)
    (d : Drawn) :
  draw drv r sp h = (new, Ok d) ->
  drawn_obj d = fst (update_transform r)
  /\ recomputed d = snd (update_transform r).
Proof.
  unfold draw, draw_single, draw_planar. intros Hrun.
  destruct (is_RED (format r));
    repeat (apply run_facts.bind_Ok_inv in Hrun;
            destruct Hrun as (? & ? & ? & _ & Hrun & _));
    inversion Hrun; subst; split; reflexivity.
Qed.

(** No [draw] clears the dirty flag. *)
Lemma draw_keeps_dirty (r : Renderable) (sp : ShaderProgram)
    (h new : list Event) (d : Drawn) :
  draw drv r sp h = (new, Ok d) ->
  dirty_ (drawn_obj d) = dirty_ r /\ recomputed d = dirty_ r.
Proof.
  intros Hrun. destruct (draw_leaves _ _ _ _ _ Hrun) as (-> & ->).
  destruct (update_transform_fields r) as (_ & _ & _ & _ & _ & _ & _ & Hd).
  destruct (update_transform_recomputes r) as (Hs & _).
  split; assumption.
Qed.

(** Setters raise the dirty flag and nothing lowers it. *)
Lemma after_op_dirty (r : Renderable) (o : RenderableOp) :
  dirty_ r = true \/ is_setter o = true -> dirty_ (after_op r o) = true.
Proof.
  destruct o; cbn; intros [Hd | Hs]; try reflexivity; try discriminate.
  destruct (update_transform_fields r) as (_ & _ & _ & _ & _ & _ & _ & ->).
  exact Hd.
Qed.

Lemma after_ops_dirty (ops : list RenderableOp) : forall r : Renderable,
  dirty_ r = true \/ existsb is_setter ops = true ->
  dirty_ (after_ops r ops) = true.
Proof.
  unfold after_ops.
  induction ops as [|o ops IH]; intros r Hpre; cbn [fold_left].
  - destruct Hpre as [Hd | Hs]; [exact Hd | discriminate].
  - apply IH. cbn [existsb] in Hpre.
    destruct Hpre as [Hd | Hs].
    + left. apply after_op_dirty. left. exact Hd.
    + apply orb_true_iff in Hs. destruct Hs as [Hs | Hs].
      * left. apply after_op_dirty. right. exact Hs.
      * right. exact Hs.
Qed.

(** Operations keep the format and the pointers. *)
Lemma after_op_pointers (r : Renderable) (o : RenderableOp) :
  format (after_op r o) = format r /\ mesh_ (after_op r o) = mesh_ r
  /\ texture_y (after_op r o) = texture_y r
  /\ texture_u (after_op r o) = texture_u r
  /\ texture_v (after_op r o) = texture_v r.
Proof.
  destruct o; cbn; try (repeat split; reflexivity).
  destruct (update_transform_fields r) as (? & ? & ? & ? & ? & _). auto.
Qed.

Lemma after_ops_pointers (ops : list RenderableOp) : forall r : Renderable,
  format (after_ops r ops) = format r /\ mesh_ (after_ops r ops) = mesh_ r
  /\ texture_y (after_ops r ops) = texture_y r
  /\ texture_u (after_ops r ops) = texture_u r
  /\ texture_v (after_ops r ops) = texture_v r.
Proof.
  unfold after_ops.
  induction ops as [|o ops IH]; intros r; cbn [fold_left].
  - repeat split.
  - destruct (IH (after_op r o)) as (-> & -> & -> & -> & ->).
    apply after_op_pointers.
Qed.

Lemma drawable_inv (r : Renderable) :
  drawable r = true ->
  exists m va ib ty,
    mesh_ r = Some m /\ vertex_array_ m = Some va
    /\ index_buffer_ m = Some ib /\ texture_y r = Some ty
    /\ (is_RED (format r) = true ->
        exists tu tv, texture_u r = Some tu /\ texture_v r = Some tv).
Proof.
  unfold drawable.
  destruct (mesh_ r) as [m|]; [|discriminate].
  destruct (vertex_array_ m) as [va|] eqn:Eva; [|discriminate].
  destruct (index_buffer_ m) as [ib|] eqn:Eib; [|discriminate].
  destruct (texture_y r) as [ty|]; [|discriminate].
  intros Hd. exists m, va, ib, ty.
  split; [reflexivity|]. split; [exact Eva|]. split; [exact Eib|].
  split; [reflexivity|].
  intros Hred. rewrite Hred in Hd.
  destruct (texture_u r) as [tu|]; [|discriminate].
  destruct (texture_v r) as [tv|]; [|discriminate].
  eauto.
Qed.

Lemma after_ops_drawable (ops : list RenderableOp) (r : Renderable) :
  drawable (after_ops r ops) = drawable r.
Proof.
  unfold drawable.
  destruct (after_ops_pointers ops r) as (-> & -> & -> & -> & ->).
  reflexivity.
Qed.

(** A draw on non-null pointers completes, uploads exactly the transform
    left by the guarded block, and extends the shader's caches. *)
Lemma draw_run (r : Renderable) (sp : ShaderProgram) (h : list Event) :
  drawable r = true ->
  exists new d,
    draw drv r sp h = (new, Ok d)
    /\ uploads new = [transform_ (fst (update_transform r))]
    /\ extends sp (drawn_shader d).
Proof.
  intros Hd.
  destruct (drawable_inv r Hd) as (m & va & ib & ty & Hm & Hva & Hib & Hty & Hred).
  unfold draw. destruct (is_RED (format r)) eqn:Efmt.
  - destruct (Hred eq_refl) as (tu & tv & Htu & Htv).
    destruct (draw_planar_run r sp h ty tu tv m va ib Hty Htu Htv Hm Hva Hib)
      as (q1 & l1 & q2 & l2 & sp' & Hrun & Hq1 & Hq2 & Hext).
    eexists _, _. split; [exact Hrun|]. split; [|exact Hext].
    destruct Hq1 as [-> | [z1 ->]]; destruct Hq2 as [-> | [z2 ->]];
      reflexivity.
  - destruct (draw_single_run r sp h ty m va ib Hty Hm Hva Hib)
      as (q1 & l1 & q2 & l2 & sp' & Hrun & Hq1 & Hq2 & Hext).
    eexists _, _. split; [exact Hrun|]. split; [|exact Hext].
    destruct Hq1 as [-> | [z1 ->]]; destruct Hq2 as [-> | [z2 ->]];
      reflexivity.
Qed.

(** C4. Once a position or a scale has been set (by any of the three
    setters, with any draws in between), a draw uploads exactly one matrix,
    and it is translate (identity, position) times
    scale (identity, vec3 (scale.x, scale.y, 0)) of the stored position and
    scale; that matrix is also what the object keeps as its transform. *)
Theorem draw_uploads_composed (r0 : Renderable) (ops : list RenderableOp)
    (sp : ShaderProgram) (h : list Event) :
  existsb is_setter ops = true ->
  drawable r0 = true ->
  exists new d,
    draw drv (after_ops r0 ops) sp h = (new, Ok d)
    /\ uploads new
       = [mat4_mul
            (glm_translate (mat4_diag f32.one) (position_ (after_ops r0 ops)))
            (glm_scale (mat4_diag f32.one)
               {| vec3_x := vec2_x (scale_ (after_ops r0 ops));
                  vec3_y := vec2_y (scale_ (after_ops r0 ops));
                  vec3_z := f32.zero |})]
    /\ transform_ (drawn_obj d) = composed (after_ops r0 ops).
Proof.
  intros Hset Hd0.
  assert (Hd : drawable (after_ops r0 ops) = true)
    by (rewrite after_ops_drawable; exact Hd0).
  assert (Hdirty : dirty_ (after_ops r0 ops) = true)
    by (apply after_ops_dirty; right; exact Hset).
  destruct (draw_run (after_ops r0 ops) sp h Hd) as (new & d & Hrun & Hup & _).
  destruct (update_transform_recomputes (after_ops r0 ops)) as (_ & Ht).
  rewrite Hdirty in Ht.
  exists new, d. split; [exact Hrun|]. split.
  - rewrite Hup, Ht. reflexivity.
  - destruct (draw_leaves _ _ _ _ _ Hrun) as (-> & _). exact Ht.
Qed.

Lemma draw_binds_single (r : Renderable) (sp : ShaderProgram)
    (h : list Event) (ty : Texture) (m : Mesh) (va : VertexArray)
    (ib : IndexBuffer) :
  is_RED (format r) = false ->
  texture_y r = Some ty -> mesh_ r = Some m ->
  vertex_array_ m = Some va -> index_buffer_ m = Some ib ->
  exists pre d,
    draw drv r sp h
    = (pre ++ [(glDrawElements GL_TRIANGLES (to_GLsizei (count_ ib))
                  GL_UNSIGNED_INT 0, RVoid)], Ok d)
    /\ texture_binds None pre = [(Some GL_TEXTURE0, textureId_ ty)]
    /\ main.draw_calls pre = 0%nat.
Proof.
  intros Hfmt Hty Hm Hva Hib. unfold draw. rewrite Hfmt.
  destruct (draw_single_run r sp h ty m va ib Hty Hm Hva Hib)
    as (q1 & l1 & q2 & l2 & sp' & Hrun & Hq1 & Hq2 & _).
  rewrite Hrun.
  exists ((glActiveTexture GL_TEXTURE0, RVoid)
          :: (glBindTexture GL_TEXTURE_2D (textureId_ ty), RVoid)
          :: q1 ++ (glUniform1i l1 0, RVoid)
          :: q2 ++ [(glUniformMatrix4fv l2 1 GL_FALSE
                       (transform_ (fst (update_transform r))), RVoid);
                    (glBindVertexArray (vao_ va), RVoid);
                    (glBindBuffer GL_ELEMENT_ARRAY_BUFFER (ibo_ ib), RVoid)]).
  eexists.
  destruct Hq1 as [-> | [z1 ->]]; destruct Hq2 as [-> | [z2 ->]];
    (split; [reflexivity|]; split; reflexivity).
Qed.

Lemma draw_binds_planar (r : Renderable) (sp : ShaderProgram)
    (h : list Event) (ty tu tv : Texture) (m : Mesh) (va : VertexArray)
    (ib : IndexBuffer) :
  is_RED (format r) = true ->
  texture_y r = Some ty -> texture_u r = Some tu -> texture_v r = Some tv ->
  mesh_ r = Some m ->
  vertex_array_ m = Some va -> index_buffer_ m = Some ib ->
  exists pre d,
    draw drv r sp h
    = (pre ++ [(glDrawElements GL_TRIANGLES (to_GLsizei (count_ ib))
                  GL_UNSIGNED_INT 0, RVoid)], Ok d)
    /\ texture_binds None pre
       = [(Some GL_TEXTURE0, textureId_ ty);
          (Some GL_TEXTURE1, textureId_ tu);
          (Some GL_TEXTURE2, textureId_ tv)]
    /\ main.draw_calls pre = 0%nat.
Proof.
  intros Hfmt Hty Htu Htv Hm Hva Hib. unfold draw. rewrite Hfmt.
  destruct (draw_planar_run r sp h ty tu tv m va ib Hty Htu Htv Hm Hva Hib)
    as (q1 & l1 & q2 & l2 & sp' & Hrun & Hq1 & Hq2 & _).
  rewrite Hrun.
  exists ((glActiveTexture GL_TEXTURE0, RVoid)
          :: (glBindTexture GL_TEXTURE_2D (textureId_ ty), RVoid)
          :: (glActiveTexture GL_TEXTURE1, RVoid)
          :: (glBindTexture GL_TEXTURE_2D (textureId_ tu), RVoid)
          :: (glActiveTexture GL_TEXTURE2, RVoid)
          :: (glBindTexture GL_TEXTURE_2D (textureId_ tv), RVoid)
          :: q1 ++ (glUniform1i l1 0, RVoid)
          :: q2 ++ [(glUniformMatrix4fv l2 1 GL_FALSE
                       (transform_ (fst (update_transform r))), RVoid);
                    (glBindVertexArray (vao_ va), RVoid);
                    (glBindBuffer GL_ELEMENT_ARRAY_BUFFER (ibo_ ib), RVoid)]).
  eexists.
  destruct Hq1 as [-> | [z1 ->]]; destruct Hq2 as [-> | [z2 ->]];
    (split; [reflexivity|]; split; reflexivity).
Qed.

(** C8. A [Renderable] of format RGBA or RGB can only be built by the
    one-texture constructor and then holds exactly that texture; one of
    format RED can only be built by the three-texture constructor and holds
    exactly the three planes; setters and draws do not change this.  Its
    [draw] completes, ends with the one [glDrawElements] of the mesh, and
    before it binds the single texture with unit GL_TEXTURE0 active, or the
    Y, U and V planes with units GL_TEXTURE0, GL_TEXTURE1 and GL_TEXTURE2
    active, in that order. *)
Theorem textures_bound_per_format (fmt : Format) (m : Mesh)
    (va : VertexArray) (ib : IndexBuffer) (ty tu tv : Texture)
    (raw_position : vec3) (raw_scale : vec2) (ops : list RenderableOp)
    (sp : ShaderProgram) (h : list Event) :
  vertex_array_ m = Some va ->
  index_buffer_ m = Some ib ->
  (is_RED fmt = false ->
   Renderable_ctor_planar fmt (Some m) (Some ty) (Some tu) (Some tv)
     raw_position raw_scale = None
   /\ exists r0,
        Renderable_ctor fmt (Some m) (Some ty) raw_position raw_scale = Some r0
        /\ textures_held (after_ops r0 ops) = [ty]
        /\ exists pre d,
             draw drv (after_ops r0 ops) sp h
             = (pre ++ [(glDrawElements GL_TRIANGLES (to_GLsizei (count_ ib))
                           GL_UNSIGNED_INT 0, RVoid)], Ok d)
             /\ texture_binds None pre = [(Some GL_TEXTURE0, textureId_ ty)]
             /\ main.draw_calls pre = 0%nat)
  /\ (is_RED fmt = true ->
      Renderable_ctor fmt (Some m) (Some ty) raw_position raw_scale = None
      /\ exists r0,
           Renderable_ctor_planar fmt (Some m) (Some ty) (Some tu) (Some tv)
             raw_position raw_scale = Some r0
           /\ textures_held (after_ops r0 ops) = [ty; tu; tv]
           /\ exists pre d,
                draw drv (after_ops r0 ops) sp h
                = (pre ++ [(glDrawElements GL_TRIANGLES
                              (to_GLsizei (count_ ib)) GL_UNSIGNED_INT 0,
                            RVoid)], Ok d)
                /\ texture_binds None pre
                   = [(Some GL_TEXTURE0, textureId_ ty);
                      (Some GL_TEXTURE1, textureId_ tu);
                      (Some GL_TEXTURE2, textureId_ tv)]
                /\ main.draw_calls pre = 0%nat).
Proof.
  intros Hva Hib. split; intros Hfmt.
  - unfold Renderable_ctor, Renderable_ctor_planar. rewrite Hfmt.
    split; [reflexivity|]. eexists. split; [reflexivity|].
    match goal with |- context [after_ops ?r0 ops] =>
      destruct (after_ops_pointers ops r0) as (Hf & Hm & Hy & Hu & Hv)
    end.
    cbn [format mesh_ texture_y texture_u texture_v] in Hf, Hm, Hy, Hu, Hv.
    split.
    + unfold textures_held. rewrite Hy, Hu, Hv. reflexivity.
    + eapply draw_binds_single; try eassumption. rewrite Hf. exact Hfmt.
  - unfold Renderable_ctor, Renderable_ctor_planar. rewrite Hfmt.
    split; [reflexivity|]. eexists. split; [reflexivity|].
    match goal with |- context [after_ops ?r0 ops] =>
      destruct (after_ops_pointers ops r0) as (Hf & Hm & Hy & Hu & Hv)
    end.
    cbn [format mesh_ texture_y texture_u texture_v] in Hf, Hm, Hy, Hu, Hv.
    split.
    + unfold textures_held. rewrite Hy, Hu, Hv. reflexivity.
    + eapply draw_binds_planar; try eassumption. rewrite Hf. exact Hfmt.
Qed.

End Draw.

(** The square of [main]: scale set once, centred, drawn. *)
Lemma draw_uploads_composed_witness :
  exists new d,
    draw (sample.scripted [2; 1])
      (after_ops sample.square0
         [OpSetScale (sample.vec2_of 200 100);
          OpSetPositionCenter (sample.vec3_of 400 300 0)])
      sample.program [] = (new, Ok d)
    /\ uploads new
       = [sample.MMul
            (sample.MTranslate (sample.MDiag f32.one) (sample.vec3_of 400 300 0))
            (sample.MScale (sample.MDiag f32.one)
               {| vec3_x := f32.of_Z 200; vec3_y := f32.of_Z 100;
                  vec3_z := f32.zero |})].
Proof.
  destruct (draw_uploads_composed (sample.scripted [2; 1]) sample.square0
              [OpSetScale (sample.vec2_of 200 100);
               OpSetPositionCenter (sample.vec3_of 400 300 0)]
              sample.program [] eq_refl eq_refl)
    as (new & d & Hrun & Hup & _).
  exists new, d. split; [exact Hrun | exact Hup].
Defined.

(** An RGBA square and a planar-YUV quad, each scaled and drawn. *)
Lemma textures_bound_per_format_witness :
  (exists r0 pre d,
     Renderable_ctor RGBA (Some sample.quad) (Some sample.tex)
       sample.raw_vec3 sample.raw_vec2 = Some r0
     /\ textures_held (after_ops r0 [OpSetScale (sample.vec2_of 200 100)])
        = [sample.tex]
     /\ draw (sample.scripted [2; 1])
          (after_ops r0 [OpSetScale (sample.vec2_of 200 100)])
          sample.program []
        = (pre ++ [(glDrawElements GL_TRIANGLES 6 GL_UNSIGNED_INT 0, RVoid)],
           Ok d)
     /\ texture_binds None pre = [(Some GL_TEXTURE0, 1)])
  /\ (exists r0 pre d,
        Renderable_ctor_planar RED (Some sample.quad) (Some sample.plane_y)
          (Some sample.plane_u) (Some sample.plane_v)
          sample.raw_vec3 sample.raw_vec2 = Some r0
        /\ textures_held (after_ops r0 [OpSetScale (sample.vec2_of 200 100)])
           = [sample.plane_y; sample.plane_u; sample.plane_v]
        /\ draw (sample.scripted [2; 1])
             (after_ops r0 [OpSetScale (sample.vec2_of 200 100)])
             sample.program []
           = (pre ++ [(glDrawElements GL_TRIANGLES 6 GL_UNSIGNED_INT 0, RVoid)],
              Ok d)
        /\ texture_binds None pre
           = [(Some GL_TEXTURE0, 5); (Some GL_TEXTURE1, 7);
              (Some GL_TEXTURE2, 9)]).
Proof.
  split.
  - destruct (textures_bound_per_format (sample.scripted [2; 1]) RGBA
                sample.quad _ _ sample.tex sample.plane_u sample.plane_v
                sample.raw_vec3 sample.raw_vec2
                [OpSetScale (sample.vec2_of 200 100)] sample.program []
                eq_refl eq_refl) as (Hsingle & _).
    destruct (Hsingle eq_refl)
      as (_ & r0 & Hctor & Hheld & pre & d & Hrun & Hbinds & _).
    exists r0, pre, d. repeat split; assumption.
  - destruct (textures_bound_per_format (sample.scripted [2; 1]) RED
                sample.quad _ _ sample.plane_y sample.plane_u sample.plane_v
                sample.raw_vec3 sample.raw_vec2
                [OpSetScale (sample.vec2_of 200 100)] sample.program []
                eq_refl eq_refl) as (_ & Hplanar).
    destruct (Hplanar eq_refl)
      as (_ & r0 & Hctor & Hheld & pre & d & Hrun & Hbinds & _).
    exists r0, pre, d. repeat split; assumption.
Defined.

(** C2 (evaluation of the code). The square of [main], its scale set, is
    drawn twice with nothing in between: the first draw computes the matrix,
    the flag is still set afterwards, and the second draw computes the
    matrix again (to the same value) instead of reusing it. *)
Theorem second_draw_recomputes :
  exists t1 d1 t2 d2,
    draw (sample.scripted [2; 1]) sample.square sample.program [] = (t1, Ok d1)
    /\ recomputed d1 = true
    /\ dirty_ (drawn_obj d1) = true
    /\ draw (sample.scripted [2; 1]) (drawn_obj d1) (drawn_shader d1) t1
       = (t2, Ok d2)
    /\ recomputed d2 = true
    /\ transform_ (drawn_obj d2) = transform_ (drawn_obj d1).
Proof.
  destruct (draw_run (sample.scripted [2; 1]) sample.square sample.program []
              eq_refl) as (t1 & d1 & Hrun1 & _ & _).
  destruct (draw_keeps_dirty _ _ _ _ _ _ Hrun1) as (Hd1 & Hr1).
  destruct (draw_leaves _ _ _ _ _ _ Hrun1) as (Hobj1 & _).
  assert (Hdrawable : drawable (drawn_obj d1) = true)
    by (rewrite Hobj1; reflexivity).
  destruct (draw_run (sample.scripted [2; 1]) (drawn_obj d1) (drawn_shader d1)
              t1 Hdrawable) as (t2 & d2 & Hrun2 & _ & _).
  destruct (draw_keeps_dirty _ _ _ _ _ _ Hrun2) as (Hd2 & Hr2).
  destruct (draw_leaves _ _ _ _ _ _ Hrun2) as (Hobj2 & _).
  exists t1, d1, t2, d2.
  split; [exact Hrun1|]. split; [rewrite Hr1; reflexivity|].
  split; [rewrite Hd1; reflexivity|]. split; [exact Hrun2|].
  split; [rewrite Hr2, Hd1; reflexivity|].
  rewrite Hobj2, Hobj1. reflexivity.
Qed.

End draw_facts.

(** ** Construction of a [ShaderProgram] *)

Module ctor_facts.
Import gl renderer observe inspect paths.

(** Decide the test [x =? 0] of the goal from a hypothesis on [x]. *)
Ltac status_is H :=
  match goal with
  | |- context [?x =? 0] =>
      first
        [ replace (x =? 0) with true
            by (symmetry; apply Z.eqb_eq; exact H)
        | replace (x =? 0) with false
            by (symmetry; apply Z.eqb_neq; exact H) ]
  end.

Section Ctor.
Context `{Glm} (drv : Driver).

Lemma deleted_app (t1 t2 : list Event) :
  deleted (t1 ++ t2) = deleted t1 ++ deleted t2.
Proof. unfold deleted. apply omap_app. Qed.

(** The three ways [LoadShader] ends, by what GL answers. *)
Lemma LoadShader_cases (type : Z) (src : string) (h : list Event) :
  (shader_name drv type h = 0 ->
   LoadShader drv type src h
   = ([(glCreateShader type, RInt (shader_name drv type h))],
      Throw (runtime_error "failed to allocate shader")))
  /\ (shader_name drv type h <> 0 -> compile_status drv type src h = 0 ->
      exists logs msg,
        LoadShader drv type src h
        = (shader_events drv type src h ++ logs
           ++ [(glDeleteShader (shader_name drv type h), RVoid)],
           Throw (runtime_error msg))
        /\ deleted logs = [])
  /\ (shader_name drv type h <> 0 -> compile_status drv type src h <> 0 ->
      LoadShader drv type src h
      = (shader_events drv type src h, Ok (shader_name drv type h))).
Proof.
  unfold shader_events, compile_status, shader_prefix, shader_name.
  unfold LoadShader, bind, call_int, call_void, call_str, throw, ret.
  cbn. rewrite <- ?app_assoc. cbn [app].
  set (s := answer_int drv h (glCreateShader type)).
  split; [|split].
  - intros Hs. status_is Hs. reflexivity.
  - intros Hs Hst. status_is Hs. cbn.
    rewrite <- ?app_assoc. cbn [app].
    status_is Hst.
    match goal with
    | |- context [if ?b then _ else _] => destruct b
    end; cbn; rewrite <- ?app_assoc; cbn [app].
    + eexists [_; _], _. split; [reflexivity | reflexivity].
    + eexists [_], _. split; [reflexivity | reflexivity].
  - intros Hs Hst. status_is Hs. cbn.
    rewrite <- ?app_assoc. cbn [app].
    status_is Hst. reflexivity.
Qed.

Section Answers.
Variables (vertex_shader fragment_shader : string) (h : list Event).

Local Abbreviation v := (vertex_name drv h).
Local Abbreviation sv := (vertex_status drv vertex_shader h).
Local Abbreviation f := (fragment_name drv vertex_shader h).
Local Abbreviation sf := (fragment_status drv vertex_shader fragment_shader h).
Local Abbreviation p := (program_name drv vertex_shader fragment_shader h).
Local Abbreviation sl := (link_status drv vertex_shader fragment_shader h).
Local Abbreviation vertex_events :=
  (shader_events drv GL_VERTEX_SHADER vertex_shader h).
Local Abbreviation fragment_events :=
  (shader_events drv GL_FRAGMENT_SHADER fragment_shader
     (after_vertex drv vertex_shader h)).
Local Abbreviation ctor :=
  (ShaderProgram_ctor drv vertex_shader fragment_shader h).

(** The part of the constructor after the two shaders are loaded. *)
Lemma link_cases :
  let rest :=
    (program <- call_int drv glCreateProgram;;
     if program =? 0
     then throw (runtime_error "Failed to allocate shader program")
     else
       call_void (glAttachShader program v);;
       call_void (glAttachShader program f);;
       call_void (glLinkProgram program);;
       call_void (glDetachShader program v);;
       call_void (glDetachShader program f);;
       call_void (glDeleteShader v);;
       call_void (glDeleteShader f);;
       linked <- call_int drv (glGetProgramiv program GL_LINK_STATUS);;
       if linked =? 0
       then
         infoLen <- call_int drv (glGetProgramiv program GL_INFO_LOG_LENGTH);;
         if 1 <? infoLen
         then
           infoLog <- call_str drv (glGetProgramInfoLog program infoLen);;
           call_void (glDeleteProgram program);;
           throw (runtime_error
                    ("Error linking shader program:" ++ newline ++ ":"
                     ++ infoLog)%string)
         else
           call_void (glDeleteProgram program);;
           throw (runtime_error "Error linking shader program")
       else ret {| shaderProgram_ := program;
                   m_UniformLocationCache := ∅;
                   m_AttributeLocationCache := ∅ |})
      (after_fragment drv vertex_shader fragment_shader h) in
  (p = 0 ->
   rest = ([(glCreateProgram, RInt p)],
           Throw (runtime_error "Failed to allocate shader program")))
  /\ (p <> 0 -> sl = 0 ->
      exists logs msg,
        rest
        = (link_events drv vertex_shader fragment_shader h
           ++ [(glGetProgramiv p GL_LINK_STATUS, RInt sl)] ++ logs
           ++ [(glDeleteProgram p, RVoid)],
           Throw (runtime_error msg))
        /\ deleted logs = [])
  /\ (p <> 0 -> sl <> 0 ->
      rest
      = (link_events drv vertex_shader fragment_shader h
         ++ [(glGetProgramiv p GL_LINK_STATUS, RInt sl)],
         Ok {| shaderProgram_ := p;
               m_UniformLocationCache := ∅;
               m_AttributeLocationCache := ∅ |})).
Proof.
  cbv zeta.
  unfold link_status, link_events, program_name.
  set (hf := after_fragment drv vertex_shader fragment_shader h).
  set (vn := vertex_name drv h).
  set (fn := fragment_name drv vertex_shader h).
  unfold bind, call_int, call_void, call_str, throw, ret.
  cbn. rewrite <- ?app_assoc. cbn [app].
  set (pn := answer_int drv hf glCreateProgram).
  split; [|split].
  - intros Hp. status_is Hp. reflexivity.
  - intros Hp Hsl. status_is Hp. cbn.
    rewrite <- ?app_assoc. cbn [app].
    status_is Hsl.
    match goal with
    | |- context [if ?b then _ else _] => destruct b
    end; cbn; rewrite <- ?app_assoc; cbn [app].
    + eexists [_; _], _. split; [reflexivity | reflexivity].
    + eexists [_], _. split; [reflexivity | reflexivity].
  - intros Hp Hsl. status_is Hp. cbn.
    rewrite <- ?app_assoc. cbn [app].
    status_is Hsl. reflexivity.
Qed.

(** The seven ways the constructor ends, by what GL answers. *)
Lemma ctor_cases :
  (v = 0 ->
   ctor = ([(glCreateShader GL_VERTEX_SHADER, RInt v)],
           Throw (runtime_error "failed to allocate shader")))
  /\ (v <> 0 -> sv = 0 ->
      exists logs msg,
        ctor = (vertex_events ++ logs ++ [(glDeleteShader v, RVoid)],
                Throw (runtime_error msg))
        /\ deleted logs = [])
  /\ (v <> 0 -> sv <> 0 -> f = 0 ->
      ctor = (vertex_events ++ [(glCreateShader GL_FRAGMENT_SHADER, RInt f)],
              Throw (runtime_error "failed to allocate shader")))
  /\ (v <> 0 -> sv <> 0 -> f <> 0 -> sf = 0 ->
      exists logs msg,
        ctor = (vertex_events ++ fragment_events ++ logs
                ++ [(glDeleteShader f, RVoid)],
                Throw (runtime_error msg))
        /\ deleted logs = [])
  /\ (v <> 0 -> sv <> 0 -> f <> 0 -> sf <> 0 -> p = 0 ->
      ctor = (vertex_events ++ fragment_events ++ [(glCreateProgram, RInt p)],
              Throw (runtime_error "Failed to allocate shader program")))
  /\ (v <> 0 -> sv <> 0 -> f <> 0 -> sf <> 0 -> p <> 0 -> sl = 0 ->
      exists logs msg,
        ctor = (vertex_events ++ fragment_events
                ++ link_events drv vertex_shader fragment_shader h
                ++ [(glGetProgramiv p GL_LINK_STATUS, RInt sl)] ++ logs
                ++ [(glDeleteProgram p, RVoid)],
                Throw (runtime_error msg))
        /\ deleted logs = [])
  /\ (v <> 0 -> sv <> 0 -> f <> 0 -> sf <> 0 -> p <> 0 -> sl <> 0 ->
      ctor = (vertex_events ++ fragment_events
              ++ link_events drv vertex_shader fragment_shader h
              ++ [(glGetProgramiv p GL_LINK_STATUS, RInt sl)],
              Ok {| shaderProgram_ := p;
                    m_UniformLocationCache := ∅;
                    m_AttributeLocationCache := ∅ |})).
Proof.
  destruct (LoadShader_cases GL_VERTEX_SHADER vertex_shader h)
    as (HV0 & HV1 & HV2).
  destruct (LoadShader_cases GL_FRAGMENT_SHADER fragment_shader
              (after_vertex drv vertex_shader h))
    as (HF0 & HF1 & HF2).
  destruct link_cases as (HL0 & HL1 & HL2).
  unfold ShaderProgram_ctor.
  split; [|split; [|split; [|split; [|split; [|split]]]]].
  - intros Hv. apply run_facts.bind_Throw. apply HV0. exact Hv.
  - intros Hv Hsv. destruct (HV1 Hv Hsv) as (logs & msg & Hrun & Hlogs).
    exists logs, msg. split; [|exact Hlogs].
    apply run_facts.bind_Throw. exact Hrun.
  - intros Hv Hsv Hf.
    eapply run_facts.bind_step; [exact (HV2 Hv Hsv)|].
    apply run_facts.bind_Throw. apply HF0. exact Hf.
  - intros Hv Hsv Hf Hsf. destruct (HF1 Hf Hsf) as (logs & msg & Hrun & Hlogs).
    exists logs, msg. split; [|exact Hlogs].
    eapply run_facts.bind_step; [exact (HV2 Hv Hsv)|].
    apply run_facts.bind_Throw. exact Hrun.
  - intros Hv Hsv Hf Hsf Hp.
    eapply run_facts.bind_step; [exact (HV2 Hv Hsv)|].
    eapply run_facts.bind_step; [exact (HF2 Hf Hsf)|].
    exact (HL0 Hp).
  - intros Hv Hsv Hf Hsf Hp Hsl.
    destruct (HL1 Hp Hsl) as (logs & msg & Hrun & Hlogs).
    exists logs, msg. split; [|exact Hlogs].
    eapply run_facts.bind_step; [exact (HV2 Hv Hsv)|].
    eapply run_facts.bind_step; [exact (HF2 Hf Hsf)|].
    exact Hrun.
  - intros Hv Hsv Hf Hsf Hp Hsl.
    eapply run_facts.bind_step; [exact (HV2 Hv Hsv)|].
    eapply run_facts.bind_step; [exact (HF2 Hf Hsf)|].
    exact (HL2 Hp Hsl).
Qed.

(** C5 (the defect).  Whatever GL answers, the constructor never runs into
    undefined behaviour, and it throws exactly when GL reports a failure: an
    allocation returns 0, or a compile or link status is 0.  A shader that
    fails to compile is deleted before the exception leaves, and on a link
    failure both shaders and the program are deleted.  But a vertex shader
    that was created and compiled is not deleted when the constructor then
    fails before linking: not when the fragment shader cannot be allocated,
    not when the fragment shader fails to compile (only the fragment shader
    is deleted), and not when the program cannot be allocated (neither
    shader is deleted). *)
Theorem failed_construction_leaks_shaders :
  exists new res,
    ctor = (new, res)
    /\ res <> Undefined
    /\ (is_Throw res = true
        <-> v = 0 \/ sv = 0 \/ f = 0 \/ sf = 0 \/ p = 0 \/ sl = 0)
    /\ In (glCreateShader GL_VERTEX_SHADER, RInt v) new
    /\ (v <> 0 -> sv = 0 -> deleted new = [ShaderObject v])
    /\ (v <> 0 -> sv <> 0 ->
        (f = 0 -> deleted new = [])
        /\ (f <> 0 -> sf = 0 -> deleted new = [ShaderObject f])
        /\ (f <> 0 -> sf <> 0 -> p = 0 ->
            In (glCreateShader GL_FRAGMENT_SHADER, RInt f) new
            /\ deleted new = [])
        /\ (f <> 0 -> sf <> 0 -> p <> 0 -> sl = 0 ->
            deleted new = [ShaderObject v; ShaderObject f; ProgramObject p])).
Proof.
  destruct ctor_cases as (C1 & C2 & C3 & C4 & C5 & C6 & C7).
  destruct (Z.eq_dec v 0) as [Hv | Hv].
  { eexists _, _. split; [exact (C1 Hv)|]. split; [discriminate|].
    split; [split; [intros _; left; exact Hv | reflexivity]|].
    split; [left; reflexivity|].
    split; [intros Hv'; contradiction|]. intros Hv'; contradiction. }
  destruct (Z.eq_dec sv 0) as [Hsv | Hsv].
  { destruct (C2 Hv Hsv) as (logs & msg & Hrun & Hlogs).
    eexists _, _. split; [exact Hrun|]. split; [discriminate|].
    split; [split; [intros _; right; left; exact Hsv | reflexivity]|].
    split; [apply in_or_app; left; left; reflexivity|].
    split; [intros _ _; rewrite !deleted_app, Hlogs; reflexivity|].
    intros _ Hsv'; contradiction. }
  destruct (Z.eq_dec f 0) as [Hf | Hf].
  { eexists _, _. split; [exact (C3 Hv Hsv Hf)|]. split; [discriminate|].
    split; [split; [intros _; right; right; left; exact Hf | reflexivity]|].
    split; [apply in_or_app; left; left; reflexivity|].
    split; [intros _ Hsv'; contradiction|].
    intros _ _. split; [intros _; rewrite !deleted_app; reflexivity|].
    split; [intros Hf'; contradiction|].
    split; intros Hf'; contradiction. }
  destruct (Z.eq_dec sf 0) as [Hsf | Hsf].
  { destruct (C4 Hv Hsv Hf Hsf) as (logs & msg & Hrun & Hlogs).
    eexists _, _. split; [exact Hrun|]. split; [discriminate|].
    split; [split; [intros _; do 3 right; left; exact Hsf | reflexivity]|].
    split; [apply in_or_app; left; left; reflexivity|].
    split; [intros _ Hsv'; contradiction|].
    intros _ _. split; [intros Hf'; contradiction|].
    split; [intros _ _; rewrite !deleted_app, Hlogs; reflexivity|].
    split; intros _ Hsf'; contradiction. }
  destruct (Z.eq_dec p 0) as [Hp | Hp].
  { eexists _, _. split; [exact (C5 Hv Hsv Hf Hsf Hp)|]. split; [discriminate|].
    split; [split; [intros _; do 4 right; left; exact Hp | reflexivity]|].
    split; [apply in_or_app; left; left; reflexivity|].
    split; [intros _ Hsv'; contradiction|].
    intros _ _. split; [intros Hf'; contradiction|].
    split; [intros _ Hsf'; contradiction|].
    split; [|intros _ _ Hp'; contradiction].
    intros _ _ _. split; [|rewrite !deleted_app; reflexivity].
    apply in_or_app; right. apply in_or_app; left. left; reflexivity. }
  destruct (Z.eq_dec sl 0) as [Hsl | Hsl].
  { destruct (C6 Hv Hsv Hf Hsf Hp Hsl) as (logs & msg & Hrun & Hlogs).
    eexists _, _. split; [exact Hrun|]. split; [discriminate|].
    split; [split; [intros _; do 5 right; exact Hsl | reflexivity]|].
    split; [apply in_or_app; left; left; reflexivity|].
    split; [intros _ Hsv'; contradiction|].
    intros _ _. split; [intros Hf'; contradiction|].
    split; [intros _ Hsf'; contradiction|].
    split; [intros _ _ Hp'; contradiction|].
    intros _ _ _ _. rewrite !deleted_app, Hlogs. reflexivity. }
  eexists _, _. split; [exact (C7 Hv Hsv Hf Hsf Hp Hsl)|]. split; [discriminate|].
  split; [split; [intros Hth; discriminate Hth | intros Hany; exfalso; lia]|].
  split; [apply in_or_app; left; left; reflexivity|].
  split; [intros _ Hsv'; contradiction|].
  intros _ _. split; [intros Hf'; contradiction|].
  split; [intros _ Hsf'; contradiction|].
  split; [intros _ _ Hp'; contradiction|].
  intros _ _ _ Hsl'; contradiction.
Qed.

End Answers.
End Ctor.

(** The vertex shader (name 1) compiles, the fragment shader (name 2) does
    not and has no info log: the constructor throws after deleting shader 2
    only, and shader 1 is never deleted. *)
Lemma failed_construction_leaks_shaders_witness :
  exists new,
    ShaderProgram_ctor (sample.scripted [1; 1; 2; 0; 0]) "v" "f" []
    = (new, Throw (runtime_error "Error compiling shader"))
    /\ In (glCreateShader GL_VERTEX_SHADER, RInt 1) new
    /\ deleted new = [ShaderObject 2]
    /\ ~ In (glDeleteShader 1, RVoid) new.
Proof.
  destruct (failed_construction_leaks_shaders (sample.scripted [1; 1; 2; 0; 0])
              "v" "f" [])
    as (new & res & Hrun & _ & _ & Hin & _ & Hleak).
  destruct (Hleak ltac:(vm_compute; discriminate)
              ltac:(vm_compute; discriminate))
    as (_ & Hdel & _).
  specialize (Hdel ltac:(vm_compute; discriminate) eq_refl).
  assert (Hres : res = Throw (runtime_error "Error compiling shader")).
  { assert (E : snd (ShaderProgram_ctor (sample.scripted [1; 1; 2; 0; 0])
                       "v" "f" [])
                = Throw (runtime_error "Error compiling shader"))
      by (vm_compute; reflexivity).
    rewrite Hrun in E. exact E. }
  exists new. rewrite <- Hres. split; [exact Hrun|].
  split; [exact Hin|]. split; [exact Hdel|].
  intros Hbad.
  assert (Hnew : new = fst (ShaderProgram_ctor
                              (sample.scripted [1; 1; 2; 0; 0]) "v" "f" []))
    by (rewrite Hrun; reflexivity).
  rewrite Hnew in Hbad. vm_compute in Hbad.
  repeat match type of Hbad with
         | _ \/ _ => destruct Hbad as [Hbad | Hbad]; [discriminate Hbad|]
         end.
  exact Hbad.
Defined.

End ctor_facts.

(** * Further properties of the code *)

(** ** Move assignment *)

Module assign_facts.
Import gl renderer wrappers.

Section Stale.
Context `{Glm} (drv : Driver).

(** X2. Move assignment leaves a [ShaderProgram] its location caches while
    giving it the other program's handle: a name cached before the
    assignment is afterwards served from the cache, so [set_int] and
    [set_mat4] send the value to the location that was looked up in the old
    program, without asking GL about the program now held. *)
Theorem move_assign_keeps_stale_locations (this other : ShaderProgram)
    (name : string) (location : Z) (v : Z) (m : mat4) (h : list Event) :
  m_UniformLocationCache this !! name = Some location ->
  shaderProgram_ (fst (ShaderProgram_move_assign this other))
  = shaderProgram_ other
  /\ set_int drv (fst (ShaderProgram_move_assign this other)) name v h
     = ([(glUniform1i location v, RVoid)],
        Ok (fst (ShaderProgram_move_assign this other)))
  /\ set_mat4 drv (fst (ShaderProgram_move_assign this other)) name m h
     = ([(glUniformMatrix4fv location 1 GL_FALSE m, RVoid)],
        Ok (fst (ShaderProgram_move_assign this other))).
Proof.
  intros Hcached.
  assert (Hhit : forall h0,
             get_uniform_location drv
               (fst (ShaderProgram_move_assign this other)) name h0
             = ([], Ok (fst (ShaderProgram_move_assign this other), location)))
    by (intros h0; apply shader_facts.get_uniform_location_hit; exact Hcached).
  split; [reflexivity|]. split.
  - unfold set_int. rewrite (run_facts.bind_run _ _ _ _ _ (Hhit h)).
    reflexivity.
  - unfold set_mat4. rewrite (run_facts.bind_run _ _ _ _ _ (Hhit h)).
    reflexivity.
Qed.

End Stale.

(** Program 3 has [u_Transform] cached at location 1 and is assigned
    program 9, where GL would report location 5. *)
Lemma move_assign_keeps_stale_locations_witness :
  set_int (sample.scripted [5])
    (fst (ShaderProgram_move_assign
            {| shaderProgram_ := 3;
               m_UniformLocationCache := {[ "u_Transform" := 1 ]};
               m_AttributeLocationCache := ∅ |}
            {| shaderProgram_ := 9;
               m_UniformLocationCache := ∅;
               m_AttributeLocationCache := ∅ |}))
    "u_Transform" 0 []
  = ([(glUniform1i 1 0, RVoid)],
     Ok {| shaderProgram_ := 9;
           m_UniformLocationCache := {[ "u_Transform" := 1 ]};
           m_AttributeLocationCache := ∅ |}).
Proof.
  exact (proj1 (proj2
           (move_assign_keeps_stale_locations (sample.scripted [5])
              {| shaderProgram_ := 3;
                 m_UniformLocationCache := {[ "u_Transform" := 1 ]};
                 m_AttributeLocationCache := ∅ |}
              {| shaderProgram_ := 9;
                 m_UniformLocationCache := ∅;
                 m_AttributeLocationCache := ∅ |}
              "u_Transform" 1 0 (sample.MDiag f32.one) []
              (lookup_singleton_eq _ _)))).
Defined.

End assign_facts.

(** ** Closing a window *)

Module close_facts.
Import window window_ops.

Lemma should_close_after (w : Window) (o : WindowOp) :
  should_close (window_after w o)
  = should_close w && negb (is_escape_press o).
Proof.
  destruct o as [key scancode action mods| |]; cbn [window_after is_escape_press].
  - unfold key_callback.
    destruct ((key =? GLFW_KEY_ESCAPE) && (action =? GLFW_PRESS)); cbn.
    + rewrite andb_false_r. reflexivity.
    + rewrite andb_true_r. reflexivity.
  - rewrite andb_true_r. unfold get_context, compare_exchange_strong.
    destruct (context_out_ w); reflexivity.
  - rewrite andb_true_r. reflexivity.
Qed.

(** X3. Through any sequence of key events, [get_context] calls and token
    destructions, [should_close] keeps its value until a press of ESC and
    is false ever after: nothing in the code resets the close flag, and no
    other key, no release or repeat of ESC, and no context operation sets
    it. *)
Theorem close_requested_by_escape_only (w : Window) (os : list WindowOp) :
  should_close (window_after_all w os)
  = should_close w && negb (existsb is_escape_press os).
Proof.
  unfold window_after_all. revert w.
  induction os as [|o os IH]; intros w; cbn [fold_left existsb].
  - rewrite andb_true_r. reflexivity.
  - rewrite IH, should_close_after, negb_orb, andb_assoc. reflexivity.
Qed.

End close_facts.

(** ** Getters and the first draws of a [Renderable] *)

Module getter_facts.
Import gl renderer observe inspect.

Section Getters.
Context `{Glm} (drv : Driver).






Lemma after_ops_untouched (ops : list RenderableOp) : forall r : Renderable,
  existsb is_setter ops = false -> dirty_ r = false ->
  dirty_ (after_ops r ops) = false
  /\ transform_ (after_ops r ops) = transform_ r.
Proof.
  unfold after_ops.
  induction ops as [|o ops IH]; intros r Hno Hclean; cbn [fold_left];
    [split; [exact Hclean | reflexivity]|].
  cbn [existsb] in Hno. apply orb_false_iff in Hno. destruct Hno as (Ho & Hno).
  destruct o; try discriminate Ho. cbn [after_op].
  assert (Hid : fst (update_transform r) = r)
    by (unfold update_transform; rewrite Hclean; reflexivity).
  rewrite Hid. apply IH; assumption.
Qed.

(** X5. Until the first setter call a [Renderable] built by either
    constructor draws with the identity matrix [glm::mat4 (1.0F)]: every
    such draw uploads exactly that matrix and computes nothing, so the
    uninitialised position and scale are never read by [draw]. *)
Theorem draws_before_first_setter_upload_identity (fmt : Format)
    (mesh : option Mesh) (ty tu tv : option Texture)
    (raw_position : vec3) (raw_scale : vec2) (r0 : Renderable)
    (ops : list RenderableOp) (sp : ShaderProgram) (h : list Event) :
  Renderable_ctor fmt mesh ty raw_position raw_scale = Some r0
  \/ Renderable_ctor_planar fmt mesh ty tu tv raw_position raw_scale = Some r0 ->
  drawable r0 = true ->
  existsb is_setter ops = false ->
  exists new d,
    draw drv (after_ops r0 ops) sp h = (new, Ok d)
    /\ uploads new = [mat4_diag f32.one]
    /\ recomputed d = false.
Proof.
  intros Hctor Hd Hno.
  assert (Hfresh : dirty_ r0 = false /\ transform_ r0 = mat4_diag f32.one).
  { unfold Renderable_ctor, Renderable_ctor_planar in Hctor.
    destruct Hctor as [Hc | Hc]; destruct (is_RED fmt);
      inversion Hc; subst; split; reflexivity. }
  destruct Hfresh as (Hclean & Hident).
  destruct (after_ops_untouched ops r0 Hno Hclean) as (Hclean' & Htr).
  assert (Hd' : drawable (after_ops r0 ops) = true)
    by (rewrite draw_facts.after_ops_drawable; exact Hd).
  destruct (draw_facts.draw_run drv (after_ops r0 ops) sp h Hd')
    as (new & d & Hrun & Hup & _).
  exists new, d. split; [exact Hrun|].
  destruct (draw_facts.update_transform_recomputes (after_ops r0 ops))
    as (Hrec & Ht).
  rewrite Hclean' in Ht, Hrec. split.
  - rewrite Hup, Ht, Htr, Hident. reflexivity.
  - destruct (draw_facts.draw_leaves _ _ _ _ _ _ Hrun) as (_ & ->).
    exact Hrec.
Qed.

End Getters.


(** The freshly constructed square of [main], drawn twice. *)
Lemma draws_before_first_setter_upload_identity_witness :
  exists new d,
    draw (sample.scripted [2; 1]) (after_ops sample.square0 [OpDraw])
      sample.program [] = (new, Ok d)
    /\ uploads new = [sample.MDiag f32.one]
    /\ recomputed d = false.
Proof.
  exact (draws_before_first_setter_upload_identity (sample.scripted [2; 1])
           RGBA (Some sample.quad) (Some sample.tex) None None
           sample.raw_vec3 sample.raw_vec2 sample.square0 [OpDraw]
           sample.program [] (or_introl eq_refl) eq_refl eq_refl).
Defined.

End getter_facts.

(** ** Draws and frames on a warm cache *)

Module warm_facts.
Import gl renderer observe inspect.

Section Warm.
Context `{Glm} (drv : Driver).

Lemma set_int_hit (p : ShaderProgram) (n : string) (v z : Z) (h : list Event) :
  m_UniformLocationCache p !! n = Some z ->
  set_int drv p n v h = ([(glUniform1i z v, RVoid)], Ok p).
Proof.
  intros Hhit. unfold set_int.
  rewrite (run_facts.bind_run _ _ _ _ _
             (shader_facts.get_uniform_location_hit drv p n z h Hhit)).
  reflexivity.
Qed.

Lemma set_int_miss (p : ShaderProgram) (n : string) (v : Z) (h : list Event) :
  m_UniformLocationCache p !! n = None ->
  set_int drv p n v h
  = ([(glGetUniformLocation (shaderProgram_ p) n,
       RInt (answer_int drv h (glGetUniformLocation (shaderProgram_ p) n)));
      (glUniform1i (answer_int drv h (glGetUniformLocation (shaderProgram_ p) n)) v,
       RVoid)],
     Ok {| shaderProgram_ := shaderProgram_ p;
           m_UniformLocationCache :=
             <[n := answer_int drv h (glGetUniformLocation (shaderProgram_ p) n)]>
               (m_UniformLocationCache p);
           m_AttributeLocationCache := m_AttributeLocationCache p |}).
Proof.
  intros Hmiss. unfold set_int.
  rewrite (run_facts.bind_run _ _ _ _ _
             (shader_facts.get_uniform_location_miss drv p n h Hmiss)).
  reflexivity.
Qed.

Lemma set_mat4_hit (p : ShaderProgram) (n : string) (v : mat4) (z : Z)
    (h : list Event) :
  m_UniformLocationCache p !! n = Some z ->
  set_mat4 drv p n v h = ([(glUniformMatrix4fv z 1 GL_FALSE v, RVoid)], Ok p).
Proof.
  intros Hhit. unfold set_mat4.
  rewrite (run_facts.bind_run _ _ _ _ _
             (shader_facts.get_uniform_location_hit drv p n z h Hhit)).
  reflexivity.
Qed.

Lemma set_mat4_miss (p : ShaderProgram) (n : string) (v : mat4)
    (h : list Event) :
  m_UniformLocationCache p !! n = None ->
  set_mat4 drv p n v h
  = ([(glGetUniformLocation (shaderProgram_ p) n,
       RInt (answer_int drv h (glGetUniformLocation (shaderProgram_ p) n)));
      (glUniformMatrix4fv
         (answer_int drv h (glGetUniformLocation (shaderProgram_ p) n))
         1 GL_FALSE v, RVoid)],
     Ok {| shaderProgram_ := shaderProgram_ p;
           m_UniformLocationCache :=
             <[n := answer_int drv h (glGetUniformLocation (shaderProgram_ p) n)]>
               (m_UniformLocationCache p);
           m_AttributeLocationCache := m_AttributeLocationCache p |}).
Proof.
  intros Hmiss. unfold set_mat4.
  rewrite (run_facts.bind_run _ _ _ _ _
             (shader_facts.get_uniform_location_miss drv p n h Hmiss)).
  reflexivity.
Qed.

Lemma extends_insert_uniform (p : ShaderProgram) (n : string) (z : Z) :
  m_UniformLocationCache p !! n = None ->
  extends p {| shaderProgram_ := shaderProgram_ p;
               m_UniformLocationCache := <[n := z]> (m_UniformLocationCache p);
               m_AttributeLocationCache := m_AttributeLocationCache p |}.
Proof.
  intros Hmiss. repeat split; cbn; auto.
  intros n0 z0 Hn0. destruct (decide (n = n0)) as [->|Hne]; [congruence|].
  rewrite lookup_insert_ne by exact Hne. exact Hn0.
Qed.

(** The two look-ups every [draw] makes. *)
Lemma uniforms_run (sp : ShaderProgram) (t : mat4) (h0 : list Event) :
  exists q1 l1 q2 l2 s1 s2,
    set_int drv sp "u_texture" 0 h0
    = (q1 ++ [(glUniform1i l1 0, RVoid)], Ok s1)
    /\ set_mat4 drv s1 "u_Transform" t
         (h0 ++ q1 ++ [(glUniform1i l1 0, RVoid)])
       = (q2 ++ [(glUniformMatrix4fv l2 1 GL_FALSE t, RVoid)], Ok s2)
    /\ uniform_lookups sp q1 l1 q2 l2 s2.
Proof.
  destruct (m_UniformLocationCache sp !! "u_texture") as [z1|] eqn:E1.
  - destruct (m_UniformLocationCache sp !! "u_Transform") as [z2|] eqn:E2.
    + exists [], z1, [], z2, sp, sp.
      split; [apply set_int_hit; exact E1|].
      split; [apply set_mat4_hit; exact E2|].
      unfold uniform_lookups.
      split; [apply shader_facts.extends_refl|].
      split; [exact E1|]. split; [exact E2|].
      split; [left; reflexivity|]. split; [left; reflexivity|].
      split; [intros z Hz; split; [reflexivity | congruence]|].
      split; [intros z Hz; split; [reflexivity | congruence]|].
      reflexivity.
    + eexists [], z1, [_], _, sp, _.
      split; [apply set_int_hit; exact E1|].
      split; [apply set_mat4_miss; exact E2|].
      unfold uniform_lookups. cbn [m_UniformLocationCache].
      split; [apply extends_insert_uniform; exact E2|].
      split; [rewrite lookup_insert_ne by discriminate; exact E1|].
      split; [apply lookup_insert_eq|].
      split; [left; reflexivity|]. split; [right; reflexivity|].
      split; [intros z Hz; split; [reflexivity | congruence]|].
      split; [intros z Hz; congruence|].
      intros _ [z Hz]. congruence.
  - set (s1 := {| shaderProgram_ := shaderProgram_ sp;
                  m_UniformLocationCache :=
                    <["u_texture" :=
                        answer_int drv h0
                          (glGetUniformLocation (shaderProgram_ sp) "u_texture")]>
                      (m_UniformLocationCache sp);
                  m_AttributeLocationCache := m_AttributeLocationCache sp |}).
    assert (Hs1 : forall n, n <> "u_texture" ->
                   m_UniformLocationCache s1 !! n
                   = m_UniformLocationCache sp !! n)
      by (intros n Hn; subst s1; cbn; apply lookup_insert_ne; congruence).
    destruct (m_UniformLocationCache sp !! "u_Transform") as [z2|] eqn:E2.
    + eexists [_], _, [], z2, s1, s1.
      split; [apply set_int_miss; exact E1|].
      split; [apply set_mat4_hit; rewrite Hs1 by discriminate; exact E2|].
      unfold uniform_lookups.
      split; [apply extends_insert_uniform; exact E1|].
      split; [subst s1; cbn; apply lookup_insert_eq|].
      split; [rewrite Hs1 by discriminate; exact E2|].
      split; [right; reflexivity|]. split; [left; reflexivity|].
      split; [intros z Hz; congruence|].
      split; [intros z Hz; split; [reflexivity | congruence]|].
      intros [z Hz]. congruence.
    + eexists [_], _, [_], _, s1, _.
      split; [apply set_int_miss; exact E1|].
      split; [apply set_mat4_miss; rewrite Hs1 by discriminate; exact E2|].
      unfold uniform_lookups. cbn [m_UniformLocationCache shaderProgram_].
      split.
      { eapply shader_facts.extends_trans;
          [apply extends_insert_uniform; exact E1|].
        apply (extends_insert_uniform s1). rewrite Hs1 by discriminate.
        exact E2. }
      split; [rewrite lookup_insert_ne by discriminate; apply lookup_insert_eq|].
      split; [apply lookup_insert_eq|].
      split; [right; reflexivity|]. split; [right; reflexivity|].
      split; [intros z Hz; congruence|].
      split; [intros z Hz; congruence|].
      intros [z Hz]. congruence.
Qed.

Lemma draw_single_detail (r : Renderable) (sp : ShaderProgram)
    (h : list Event) (ty : Texture) (m : Mesh) (va : VertexArray)
    (ib : IndexBuffer) :
  texture_y r = Some ty -> mesh_ r = Some m ->
  vertex_array_ m = Some va -> index_buffer_ m = Some ib ->
  exists q1 l1 q2 l2 s2,
    draw_single drv r sp h
    = ((glActiveTexture GL_TEXTURE0, RVoid)
       :: (glBindTexture GL_TEXTURE_2D (textureId_ ty), RVoid)
       :: q1 ++ (glUniform1i l1 0, RVoid)
       :: q2 ++ [(glUniformMatrix4fv l2 1 GL_FALSE
                    (transform_ (fst (update_transform r))), RVoid);
                 (glBindVertexArray (vao_ va), RVoid);
                 (glBindBuffer GL_ELEMENT_ARRAY_BUFFER (ibo_ ib), RVoid);
                 (glDrawElements GL_TRIANGLES (to_GLsizei (count_ ib))
                    GL_UNSIGNED_INT 0, RVoid)],
       Ok {| drawn_obj := fst (update_transform r);
             drawn_shader := s2;
             recomputed := snd (update_transform r) |})
    /\ uniform_lookups sp q1 l1 q2 l2 s2.
Proof.
  intros Hty Hm Hva Hib.
  destruct (draw_facts.update_transform_fields r) as (_ & Hm1 & Hty1 & _).
  unfold draw_single.
  set (h1 := ((h ++ [(glActiveTexture GL_TEXTURE0, RVoid)]) ++ [])
               ++ [(glBindTexture GL_TEXTURE_2D (textureId_ ty), RVoid)]).
  destruct (uniforms_run sp (transform_ (fst (update_transform r))) h1)
    as (q1 & l1 & q2 & l2 & s1 & s2 & Hrun1 & Hrun2 & Hfacts).
  exists q1, l1, q2, l2, s2. split; [|exact Hfacts].
  rewrite Hty1, Hm1, Hty, Hm.
  etransitivity.
  - eapply run_facts.bind_step; [reflexivity|].
    eapply run_facts.bind_step; [reflexivity|].
    eapply run_facts.bind_step; [reflexivity|].
    eapply run_facts.bind_step; [exact Hrun1|].
    eapply run_facts.bind_step; [exact Hrun2|].
    eapply run_facts.bind_step; [reflexivity|].
    eapply run_facts.bind_step;
      [apply (draw_facts.Mesh_draw_run _ _ _ _ Hva Hib)|].
    reflexivity.
  - cbn [app]. rewrite <- !app_assoc. cbn [app]. reflexivity.
Qed.

Lemma draw_planar_detail (r : Renderable) (sp : ShaderProgram)
    (h : list Event) (ty tu tv : Texture) (m : Mesh) (va : VertexArray)
    (ib : IndexBuffer) :
  texture_y r = Some ty -> texture_u r = Some tu -> texture_v r = Some tv ->
  mesh_ r = Some m ->
  vertex_array_ m = Some va -> index_buffer_ m = Some ib ->
  exists q1 l1 q2 l2 s2,
    draw_planar drv r sp h
    = ((glActiveTexture GL_TEXTURE0, RVoid)
       :: (glBindTexture GL_TEXTURE_2D (textureId_ ty), RVoid)
       :: (glActiveTexture GL_TEXTURE1, RVoid)
       :: (glBindTexture GL_TEXTURE_2D (textureId_ tu), RVoid)
       :: (glActiveTexture GL_TEXTURE2, RVoid)
       :: (glBindTexture GL_TEXTURE_2D (textureId_ tv), RVoid)
       :: q1 ++ (glUniform1i l1 0, RVoid)
       :: q2 ++ [(glUniformMatrix4fv l2 1 GL_FALSE
                    (transform_ (fst (update_transform r))), RVoid);
                 (glBindVertexArray (vao_ va), RVoid);
                 (glBindBuffer GL_ELEMENT_ARRAY_BUFFER (ibo_ ib), RVoid);
                 (glDrawElements GL_TRIANGLES (to_GLsizei (count_ ib))
                    GL_UNSIGNED_INT 0, RVoid)],
       Ok {| drawn_obj := fst (update_transform r);
             drawn_shader := s2;
             recomputed := snd (update_transform r) |})
    /\ uniform_lookups sp q1 l1 q2 l2 s2.
Proof.
  intros Hty Htu Htv Hm Hva Hib.
  destruct (draw_facts.update_transform_fields r)
    as (_ & Hm1 & Hty1 & Htu1 & Htv1 & _).
  unfold draw_planar.
  set (h1 := ((((((((h ++ [(glActiveTexture GL_TEXTURE0, RVoid)]) ++ [])
               ++ [(glBindTexture GL_TEXTURE_2D (textureId_ ty), RVoid)])
               ++ [(glActiveTexture GL_TEXTURE1, RVoid)]) ++ [])
               ++ [(glBindTexture GL_TEXTURE_2D (textureId_ tu), RVoid)])
               ++ [(glActiveTexture GL_TEXTURE2, RVoid)]) ++ [])
               ++ [(glBindTexture GL_TEXTURE_2D (textureId_ tv), RVoid)]).
  destruct (uniforms_run sp (transform_ (fst (update_transform r))) h1)
    as (q1 & l1 & q2 & l2 & s1 & s2 & Hrun1 & Hrun2 & Hfacts).
  exists q1, l1, q2, l2, s2. split; [|exact Hfacts].
  rewrite Hty1, Htu1, Htv1, Hm1, Hty, Htu, Htv, Hm.
  etransitivity.
  - do 9 (eapply run_facts.bind_step; [reflexivity|]).
    eapply run_facts.bind_step; [exact Hrun1|].
    eapply run_facts.bind_step; [exact Hrun2|].
    eapply run_facts.bind_step; [reflexivity|].
    eapply run_facts.bind_step;
      [apply (draw_facts.Mesh_draw_run _ _ _ _ Hva Hib)|].
    reflexivity.
  - cbn [app]. rewrite <- !app_assoc. cbn [app]. reflexivity.
Qed.

(** What every completed draw does to uniforms and caches. *)
Lemma draw_detail (r : Renderable) (sp : ShaderProgram) (h : list Event) :
  drawable r = true ->
  exists new d q1 l1 q2 l2,
    draw drv r sp h = (new, Ok d)
    /\ uniform_lookups sp q1 l1 q2 l2 (drawn_shader d)
    /\ sampler_sets new = [(l1, 0)]
    /\ queried_names new = queried_names q1 ++ queried_names q2
    /\ length (texture_binds None new)
       = (if is_RED (format r) then 3%nat else 1%nat).
Proof.
  intros Hd.
  destruct (draw_facts.drawable_inv r Hd)
    as (m & va & ib & ty & Hm & Hva & Hib & Hty & Hred).
  unfold draw. destruct (is_RED (format r)) eqn:Efmt.
  - destruct (Hred eq_refl) as (tu & tv & Htu & Htv).
    destruct (draw_planar_detail r sp h ty tu tv m va ib Hty Htu Htv Hm Hva Hib)
      as (q1 & l1 & q2 & l2 & s2 & Hrun & Hfacts).
    eexists _, _, q1, l1, q2, l2. split; [exact Hrun|]. split; [exact Hfacts|].
    destruct Hfacts as (_ & _ & _ & Hq1 & Hq2 & _).
    destruct Hq1 as [-> | ->]; destruct Hq2 as [-> | ->];
      repeat split; reflexivity.
  - destruct (draw_single_detail r sp h ty m va ib Hty Hm Hva Hib)
      as (q1 & l1 & q2 & l2 & s2 & Hrun & Hfacts).
    eexists _, _, q1, l1, q2, l2. split; [exact Hrun|]. split; [exact Hfacts|].
    destruct Hfacts as (_ & _ & _ & Hq1 & Hq2 & _).
    destruct Hq1 as [-> | ->]; destruct Hq2 as [-> | ->];
      repeat split; reflexivity.
Qed.

(** X6. A completed draw leaves ["u_texture"] and ["u_Transform"] in the
    shader's cache, having asked GL for each at most once and for no other
    name; any later draw with that shader, of any drawable [Renderable],
    asks GL for no location at all and leaves the shader object as it
    is. *)
Theorem second_draw_makes_no_lookup (r r2 : Renderable) (sp : ShaderProgram)
    (h h2 : list Event) :
  drawable r = true ->
  drawable r2 = true ->
  exists new d new2 d2,
    draw drv r sp h = (new, Ok d)
    /\ sublist (queried_names new) ["u_texture"; "u_Transform"]
    /\ is_Some (m_UniformLocationCache (drawn_shader d) !! "u_texture")
    /\ is_Some (m_UniformLocationCache (drawn_shader d) !! "u_Transform")
    /\ draw drv r2 (drawn_shader d) h2 = (new2, Ok d2)
    /\ queried_names new2 = []
    /\ drawn_shader d2 = drawn_shader d.
Proof.
  intros Hd Hd2.
  destruct (draw_detail r sp h Hd)
    as (new & d & q1 & l1 & q2 & l2 & Hrun & Hfacts & _ & Hnames & _).
  destruct Hfacts as (_ & Hc1 & Hc2 & Hq1 & Hq2 & _).
  destruct (draw_detail r2 (drawn_shader d) h2 Hd2)
    as (new2 & d2 & q1' & l1' & q2' & l2' & Hrun2 & Hfacts2 & _ & Hnames2 & _).
  destruct Hfacts2 as (_ & _ & _ & _ & _ & Hhit1 & Hhit2 & Hsame).
  exists new, d, new2, d2.
  split; [exact Hrun|]. split.
  { rewrite Hnames.
    destruct Hq1 as [-> | ->]; destruct Hq2 as [-> | ->]; cbn.
    - apply sublist_nil_l.
    - apply sublist_cons, sublist_skip, sublist_nil. 
    - apply sublist_skip, sublist_nil_l.
    - reflexivity. }
  split; [eauto|]. split; [eauto|]. split; [exact Hrun2|].
  split.
  - rewrite Hnames2.
    destruct (Hhit1 _ Hc1) as (-> & _). destruct (Hhit2 _ Hc2) as (-> & _).
    reflexivity.
  - apply Hsame; eauto.
Qed.

(** X7. Every draw, planar ones included, sets exactly one sampler
    uniform: the one named ["u_texture"], to texture unit 0.  A planar draw
    binds three textures (units 0, 1 and 2) but sets no sampler to unit 1
    or 2 and never asks for another sampler name. *)
Theorem draw_sets_one_sampler (r : Renderable) (sp : ShaderProgram)
    (h : list Event) :
  drawable r = true ->
  exists new d location,
    draw drv r sp h = (new, Ok d)
    /\ sampler_sets new = [(location, 0)]
    /\ m_UniformLocationCache (drawn_shader d) !! "u_texture" = Some location
    /\ length (texture_binds None new)
       = (if is_RED (format r) then 3%nat else 1%nat)
    /\ (forall name, In name (queried_names new) ->
                     name = "u_texture" \/ name = "u_Transform").
Proof.
  intros Hd.
  destruct (draw_detail r sp h Hd)
    as (new & d & q1 & l1 & q2 & l2 & Hrun & Hfacts & Hsamp & Hnames & Hbinds).
  destruct Hfacts as (_ & Hc1 & _ & Hq1 & Hq2 & _).
  exists new, d, l1.
  split; [exact Hrun|]. split; [exact Hsamp|]. split; [exact Hc1|].
  split; [exact Hbinds|].
  intros name Hin. rewrite Hnames in Hin.
  destruct Hq1 as [-> | ->]; destruct Hq2 as [-> | ->]; cbn in Hin;
    intuition.
Qed.

End Warm.

(** Two draws of the square of [main] on a cold cache. *)
Lemma second_draw_makes_no_lookup_witness :
  exists new d new2 d2,
    draw (sample.scripted [2; 1]) sample.square sample.program [] = (new, Ok d)
    /\ draw (sample.scripted [2; 1]) sample.yuv (drawn_shader d) []
       = (new2, Ok d2)
    /\ queried_names new2 = [].
Proof.
  destruct (second_draw_makes_no_lookup (sample.scripted [2; 1])
              sample.square sample.yuv sample.program [] [] eq_refl eq_refl)
    as (new & d & new2 & d2 & Hrun & _ & _ & _ & Hrun2 & Hnone & _).
  exists new, d, new2, d2. split; [exact Hrun|]. split; [exact Hrun2|].
  exact Hnone.
Defined.

(** The planar quad: three textures bound, one sampler set. *)
Lemma draw_sets_one_sampler_witness :
  exists new d location,
    draw (sample.scripted [2; 1]) sample.yuv sample.program [] = (new, Ok d)
    /\ sampler_sets new = [(location, 0)]
    /\ length (texture_binds None new) = 3%nat.
Proof.
  destruct (draw_sets_one_sampler (sample.scripted [2; 1]) sample.yuv
              sample.program [] eq_refl)
    as (new & d & l & Hrun & Hsamp & _ & Hbinds & _).
  exists new, d, l. split; [exact Hrun|]. split; [exact Hsamp|]. exact Hbinds.
Defined.

End warm_facts.

(** ** Frames after the first *)

Module loop_facts.
Import gl renderer observe inspect.

Section Frames.
Context `{Glm} (drv : Driver).

(** A frame on a shader whose three uniform names are cached is exactly
    the twelve calls, and leaves the shader as it is. *)
Lemma frame_warm (square : Renderable) (sp : ShaderProgram) (h : list Event)
    (ty : Texture) (m : Mesh) (va : VertexArray) (ib : IndexBuffer)
    (lP lT lX : Z) :
  warm sp lP lT lX ->
  is_RED (format square) = false ->
  texture_y square = Some ty -> mesh_ square = Some m ->
  vertex_array_ m = Some va -> index_buffer_ m = Some ib ->
  main.frame drv square sp h
  = (map (fun c => (c, RVoid))
       (main.frame_calls (shaderProgram_ sp) lP lT lX (textureId_ ty)
          (vao_ va) (ibo_ ib) (to_GLsizei (count_ ib)) (scale_ square)),
     Ok (fst (update_transform (set_position_Center square main.center)), sp)).
Proof.
  intros (HP & HT & HX) Hfmt Hty Hm Hva Hib.
  unfold main.frame, main.swap_buffers, use.
  set (square1 := set_position_Center square main.center).
  set (h0 := (((h ++ [(glViewport 0 0 main.window_width main.window_height, RVoid)])
              ++ [(glClear GL_COLOR_BUFFER_BIT, RVoid)])
              ++ [(glUseProgram (shaderProgram_ sp), RVoid)])
              ++ [(glUniformMatrix4fv lP 1 GL_FALSE main.projectionMatrix, RVoid)]).
  destruct (warm_facts.draw_single_detail drv square1 sp h0 ty m va ib
              Hty Hm Hva Hib)
    as (q1 & l1 & q2 & l2 & s2 & Hrun & Hfacts).
  destruct Hfacts as (_ & _ & _ & _ & _ & Hhit1 & Hhit2 & Hsame).
  destruct (Hhit1 _ HT) as (-> & ->). destruct (Hhit2 _ HX) as (-> & ->).
  rewrite (Hsame (ex_intro _ _ HT) (ex_intro _ _ HX)) in Hrun.
  assert (Hdraw : draw drv square1 sp h0 = _)
    by (unfold draw; subst square1;
        cbn [format set_position_Center with_position];
        rewrite Hfmt; exact Hrun).
  etransitivity.
  - eapply run_facts.bind_step; [reflexivity|].
    eapply run_facts.bind_step; [reflexivity|].
    eapply run_facts.bind_step; [reflexivity|].
    eapply run_facts.bind_step; [apply warm_facts.set_mat4_hit; exact HP|].
    eapply run_facts.bind_step; [exact Hdraw|].
    eapply run_facts.bind_step; [reflexivity|].
    reflexivity.
  - reflexivity.
Qed.

(** Any frame completes with the three names cached, and its calls are the
    twelve calls with the cached locations. *)
Lemma frame_warms (square : Renderable) (sp : ShaderProgram) (h : list Event)
    (ty : Texture) (m : Mesh) (va : VertexArray) (ib : IndexBuffer) :
  is_RED (format square) = false ->
  texture_y square = Some ty -> mesh_ square = Some m ->
  vertex_array_ m = Some va -> index_buffer_ m = Some ib ->
  exists new sp' lP lT lX,
    main.frame drv square sp h
    = (new,
       Ok (fst (update_transform (set_position_Center square main.center)),
           sp'))
    /\ warm sp' lP lT lX
    /\ shaderProgram_ sp' = shaderProgram_ sp
    /\ main.calls_of new
       = main.frame_calls (shaderProgram_ sp) lP lT lX (textureId_ ty)
           (vao_ va) (ibo_ ib) (to_GLsizei (count_ ib)) (scale_ square).
Proof.
  intros Hfmt Hty Hm Hva Hib.
  unfold main.frame, main.swap_buffers, use.
  set (square1 := set_position_Center square main.center).
  set (h0 := ((h ++ [(glViewport 0 0 main.window_width main.window_height, RVoid)])
              ++ [(glClear GL_COLOR_BUFFER_BIT, RVoid)])
              ++ [(glUseProgram (shaderProgram_ sp), RVoid)]).
  destruct (shader_facts.set_mat4_run drv sp "u_Projection"
              main.projectionMatrix h0)
    as (qP & s1 & lP & HrunP & HcP & HextP & HqP & _).
  set (nP := qP ++ [(glUniformMatrix4fv lP 1 GL_FALSE main.projectionMatrix, RVoid)])
    in HrunP.
  destruct (warm_facts.draw_single_detail drv square1 s1 (h0 ++ nP) ty m va ib
              Hty Hm Hva Hib)
    as (q1 & lT & q2 & lX & s2 & Hrun & Hfacts).
  destruct Hfacts as (Hext & HcT & HcX & Hq1 & Hq2 & _).
  assert (Hdraw : draw drv square1 s1 (h0 ++ nP) = _)
    by (unfold draw; subst square1;
        cbn [format set_position_Center with_position];
        rewrite Hfmt; exact Hrun).
  eexists _, s2, lP, lT, lX. split; [|split; [|split]].
  - etransitivity.
    + eapply run_facts.bind_step; [reflexivity|].
      eapply run_facts.bind_step; [reflexivity|].
      eapply run_facts.bind_step; [reflexivity|].
      eapply run_facts.bind_step; [exact HrunP|].
      eapply run_facts.bind_step; [exact Hdraw|].
      eapply run_facts.bind_step; [reflexivity|].
      reflexivity.
    + reflexivity.
  - destruct Hext as (_ & Hu & _). split; [auto | split; assumption].
  - destruct Hext as (-> & _). destruct HextP as (-> & _). reflexivity.
  - subst nP.
    destruct HqP as [-> | ->]; destruct Hq1 as [-> | ->];
      destruct Hq2 as [-> | ->]; reflexivity.
Qed.

Lemma frame_keeps (square : Renderable) :
  let square' := fst (update_transform (set_position_Center square main.center)) in
  format square' = format square /\ texture_y square' = texture_y square
  /\ mesh_ square' = mesh_ square /\ scale_ square' = scale_ square.
Proof.
  cbv zeta.
  destruct (draw_facts.update_transform_fields
              (set_position_Center square main.center))
    as (-> & -> & -> & _ & _ & _ & -> & _).
  repeat split.
Qed.

Lemma warm_loop (n : nat) : forall (square : Renderable) (sp : ShaderProgram)
    (h : list Event) (ty : Texture) (m : Mesh) (va : VertexArray)
    (ib : IndexBuffer) (lP lT lX : Z),
  warm sp lP lT lX ->
  is_RED (format square) = false ->
  texture_y square = Some ty -> mesh_ square = Some m ->
  vertex_array_ m = Some va -> index_buffer_ m = Some ib ->
  exists square',
    main.render_loop drv n square sp h
    = (concat
         (List.repeat
            (map (fun c => (c, RVoid))
               (main.frame_calls (shaderProgram_ sp) lP lT lX (textureId_ ty)
                  (vao_ va) (ibo_ ib) (to_GLsizei (count_ ib)) (scale_ square)))
            n),
       Ok (square', sp)).
Proof.
  induction n as [|n IH];
    intros square sp h ty m va ib lP lT lX Hwarm Hfmt Hty Hm Hva Hib.
  - exists square. reflexivity.
  - destruct (frame_keeps square) as (Hf' & Hty' & Hm' & Hs').
    assert (Hfmt1 := Hfmt). assert (Hty1 := Hty). assert (Hm1 := Hm).
    rewrite <- Hf' in Hfmt1. rewrite <- Hty' in Hty1. rewrite <- Hm' in Hm1.
    destruct (IH _ sp
                (h ++ map (fun c => (c, RVoid))
                        (main.frame_calls (shaderProgram_ sp) lP lT lX
                           (textureId_ ty) (vao_ va) (ibo_ ib)
                           (to_GLsizei (count_ ib)) (scale_ square)))
                ty m va ib lP lT lX Hwarm Hfmt1 Hty1 Hm1 Hva Hib)
      as (square' & Hloop).
    rewrite Hs' in Hloop.
    exists square'. cbn [main.render_loop List.repeat concat].
    eapply run_facts.bind_step.
    + eapply frame_warm; eassumption.
    + exact Hloop.
Qed.

(** X8. In the render loop only the first frame can ask GL for uniform
    locations: every later frame is exactly the same twelve calls (viewport,
    clear, use, projection matrix, texture unit and texture, sampler,
    transform, vertex array, index buffer, draw, swap) with the locations
    the first frame left in the cache, and nothing else. *)
Theorem later_frames_make_no_lookup (n : nat) (square : Renderable)
    (sp : ShaderProgram) (h : list Event)
    (ty : Texture) (m : Mesh) (va : VertexArray) (ib : IndexBuffer) :
  is_RED (format square) = false ->
  texture_y square = Some ty -> mesh_ square = Some m ->
  vertex_array_ m = Some va -> index_buffer_ m = Some ib ->
  exists first lP lT lX st,
    main.render_loop drv (S n) square sp h
    = (first
       ++ concat
            (List.repeat
               (map (fun c => (c, RVoid))
                  (main.frame_calls (shaderProgram_ sp) lP lT lX
                     (textureId_ ty) (vao_ va) (ibo_ ib)
                     (to_GLsizei (count_ ib)) (scale_ square)))
               n),
       Ok st)
    /\ main.calls_of first
       = main.frame_calls (shaderProgram_ sp) lP lT lX (textureId_ ty)
           (vao_ va) (ibo_ ib) (to_GLsizei (count_ ib)) (scale_ square)
    /\ warm (snd st) lP lT lX.
Proof.
  intros Hfmt Hty Hm Hva Hib.
  destruct (frame_warms square sp h ty m va ib Hfmt Hty Hm Hva Hib)
    as (first & sp' & lP & lT & lX & Hrun & Hwarm & Hid & Hcalls).
  destruct (frame_keeps square) as (Hf' & Hty' & Hm' & Hs').
  rewrite <- Hf' in Hfmt. rewrite <- Hty' in Hty. rewrite <- Hm' in Hm.
  destruct (warm_loop n _ sp' (h ++ first) ty m va ib lP lT lX
              Hwarm Hfmt Hty Hm Hva Hib) as (square' & Hloop).
  rewrite Hs', Hid in Hloop.
  exists first, lP, lT, lX, (square', sp').
  split; [|split; [exact Hcalls | exact Hwarm]].
  cbn [main.render_loop].
  eapply run_facts.bind_step; [exact Hrun | exact Hloop].
Qed.

End Frames.

(** Three iterations of the loop of [main] from a cold cache. *)
Lemma later_frames_make_no_lookup_witness :
  exists first lP lT lX st,
    main.render_loop (sample.scripted [0; 2; 1]) 3 sample.square
      sample.program []
    = (first
       ++ concat
            (List.repeat
               (map (fun c => (c, RVoid))
                  (main.frame_calls 3 lP lT lX 1 1 2 6 (sample.vec2_of 200 100)))
               2),
       Ok st)
    /\ warm (snd st) lP lT lX.
Proof.
  destruct (later_frames_make_no_lookup (sample.scripted [0; 2; 1]) 2
              sample.square sample.program [] sample.tex sample.quad _ _
              eq_refl eq_refl eq_refl eq_refl eq_refl)
    as (first & lP & lT & lX & st & Hloop & _ & Hwarm).
  exists first, lP, lT, lX, st. split; [exact Hloop | exact Hwarm].
Defined.

End loop_facts.

(** ** The render loop *)

Module main_facts.
Import gl renderer observe inspect.

Section Loop.
Context `{Glm} (drv : Driver).

Lemma lookup_events_ext (p p' : ShaderProgram) (n : string) (l : Z) :
  shaderProgram_ p' = shaderProgram_ p ->
  m_UniformLocationCache p' !! n = m_UniformLocationCache p !! n ->
  main.lookup_events p' n l = main.lookup_events p n l.
Proof. intros Hid Hc. unfold main.lookup_events. rewrite Hid, Hc. reflexivity. Qed.

(** Setting a uniform asks GL for the location exactly when the name is not
    cached, caches it, and touches no other name. *)
Lemma set_mat4_exact (p : ShaderProgram) (n : string) (v : mat4)
    (h : list Event) :
  exists l p',
    set_mat4 drv p n v h
    = (main.lookup_events p n l ++ [(glUniformMatrix4fv l 1 GL_FALSE v, RVoid)],
       Ok p')
    /\ m_UniformLocationCache p' !! n = Some l
    /\ shaderProgram_ p' = shaderProgram_ p
    /\ (forall n', n' <> n ->
          m_UniformLocationCache p' !! n' = m_UniformLocationCache p !! n').
Proof.
  unfold main.lookup_events.
  destruct (m_UniformLocationCache p !! n) as [z|] eqn:E.
  - exists z, p. split; [apply warm_facts.set_mat4_hit; exact E|].
    split; [exact E|]. split; reflexivity.
  - eexists _, _. split; [apply warm_facts.set_mat4_miss; exact E|].
    cbn [m_UniformLocationCache shaderProgram_].
    split; [apply lookup_insert_eq|]. split; [reflexivity|].
    intros n' Hn'. apply lookup_insert_ne. congruence.
Qed.

Lemma set_int_exact (p : ShaderProgram) (n : string) (v : Z)
    (h : list Event) :
  exists l p',
    set_int drv p n v h
    = (main.lookup_events p n l ++ [(glUniform1i l v, RVoid)], Ok p')
    /\ m_UniformLocationCache p' !! n = Some l
    /\ shaderProgram_ p' = shaderProgram_ p
    /\ (forall n', n' <> n ->
          m_UniformLocationCache p' !! n' = m_UniformLocationCache p !! n').
Proof.
  unfold main.lookup_events.
  destruct (m_UniformLocationCache p !! n) as [z|] eqn:E.
  - exists z, p. split; [apply warm_facts.set_int_hit; exact E|].
    split; [exact E|]. split; reflexivity.
  - eexists _, _. split; [apply warm_facts.set_int_miss; exact E|].
    cbn [m_UniformLocationCache shaderProgram_].
    split; [apply lookup_insert_eq|]. split; [reflexivity|].
    intros n' Hn'. apply lookup_insert_ne. congruence.
Qed.

(** Every event of a one-texture draw. *)
Lemma draw_single_exact (r : Renderable) (sp : ShaderProgram)
    (h : list Event) (ty : Texture) (m : Mesh) (va : VertexArray)
    (ib : IndexBuffer) :
  texture_y r = Some ty -> mesh_ r = Some m ->
  vertex_array_ m = Some va -> index_buffer_ m = Some ib ->
  exists lT lX s2,
    draw_single drv r sp h
    = ((glActiveTexture GL_TEXTURE0, RVoid)
       :: (glBindTexture GL_TEXTURE_2D (textureId_ ty), RVoid)
       :: main.lookup_events sp "u_texture" lT
       ++ (glUniform1i lT 0, RVoid)
       :: main.lookup_events sp "u_Transform" lX
       ++ [(glUniformMatrix4fv lX 1 GL_FALSE
              (transform_ (fst (update_transform r))), RVoid);
           (glBindVertexArray (vao_ va), RVoid);
           (glBindBuffer GL_ELEMENT_ARRAY_BUFFER (ibo_ ib), RVoid);
           (glDrawElements GL_TRIANGLES (to_GLsizei (count_ ib))
              GL_UNSIGNED_INT 0, RVoid)],
       Ok {| drawn_obj := fst (update_transform r);
             drawn_shader := s2;
             recomputed := snd (update_transform r) |})
    /\ m_UniformLocationCache s2 !! "u_texture" = Some lT
    /\ m_UniformLocationCache s2 !! "u_Transform" = Some lX
    /\ shaderProgram_ s2 = shaderProgram_ sp
    /\ (forall n', n' <> "u_texture" -> n' <> "u_Transform" ->
          m_UniformLocationCache s2 !! n' = m_UniformLocationCache sp !! n').
Proof.
  intros Hty Hm Hva Hib.
  destruct (draw_facts.update_transform_fields r) as (_ & Hm1 & Hty1 & _).
  unfold draw_single.
  set (h1 := ((h ++ [(glActiveTexture GL_TEXTURE0, RVoid)]) ++ [])
               ++ [(glBindTexture GL_TEXTURE_2D (textureId_ ty), RVoid)]).
  destruct (set_int_exact sp "u_texture" 0 h1)
    as (lT & s1 & Hrun1 & HcT & Hid1 & Hrest1).
  destruct (set_mat4_exact s1 "u_Transform"
              (transform_ (fst (update_transform r)))
              (h1 ++ main.lookup_events sp "u_texture" lT
                  ++ [(glUniform1i lT 0, RVoid)]))
    as (lX & s2 & Hrun2 & HcX & Hid2 & Hrest2).
  rewrite (lookup_events_ext sp s1 "u_Transform" lX Hid1
             (Hrest1 "u_Transform" ltac:(discriminate))) in Hrun2.
  exists lT, lX, s2. split; [|split; [|split; [|split]]].
  - rewrite Hty1, Hm1, Hty, Hm.
    etransitivity.
    + eapply run_facts.bind_step; [reflexivity|].
      eapply run_facts.bind_step; [reflexivity|].
      eapply run_facts.bind_step; [reflexivity|].
      eapply run_facts.bind_step; [exact Hrun1|].
      eapply run_facts.bind_step; [exact Hrun2|].
      eapply run_facts.bind_step; [reflexivity|].
      eapply run_facts.bind_step;
        [apply (draw_facts.Mesh_draw_run _ _ _ _ Hva Hib)|].
      reflexivity.
    + cbn [app]. rewrite <- !app_assoc. cbn [app]. reflexivity.
  - rewrite (Hrest2 "u_texture" ltac:(discriminate)). exact HcT.
  - exact HcX.
  - congruence.
  - intros n' H1 H2. rewrite (Hrest2 _ H2). apply Hrest1. exact H1.
Qed.

(** Every event of one iteration on a one-texture square with non-null
    pointers, and the shader it leaves. *)
Lemma frame_exact (square : Renderable) (sp : ShaderProgram) (h : list Event)
    (ty : Texture) (m : Mesh) (va : VertexArray) (ib : IndexBuffer) :
  is_RED (format square) = false ->
  texture_y square = Some ty -> mesh_ square = Some m ->
  vertex_array_ m = Some va -> index_buffer_ m = Some ib ->
  exists lP lT lX sp',
    main.frame drv square sp h
    = (main.frame_events sp lP lT lX (textureId_ ty) (vao_ va) (ibo_ ib)
         (to_GLsizei (count_ ib)) (scale_ square),
       Ok (fst (update_transform (set_position_Center square main.center)),
           sp'))
    /\ warm sp' lP lT lX
    /\ shaderProgram_ sp' = shaderProgram_ sp.
Proof.
  intros Hfmt Hty Hm Hva Hib.
  unfold main.frame, main.swap_buffers, use.
  set (square1 := set_position_Center square main.center).
  set (h0 := ((h ++ [(glViewport 0 0 main.window_width main.window_height, RVoid)])
              ++ [(glClear GL_COLOR_BUFFER_BIT, RVoid)])
              ++ [(glUseProgram (shaderProgram_ sp), RVoid)]).
  destruct (set_mat4_exact sp "u_Projection" main.projectionMatrix h0)
    as (lP & s1 & HrunP & HcP & HidP & HrestP).
  set (nP := main.lookup_events sp "u_Projection" lP
             ++ [(glUniformMatrix4fv lP 1 GL_FALSE main.projectionMatrix, RVoid)])
    in HrunP.
  destruct (draw_single_exact square1 s1 (h0 ++ nP) ty m va ib
              Hty Hm Hva Hib)
    as (lT & lX & s2 & Hrun & HcT & HcX & Hid2 & Hrest2).
  rewrite (lookup_events_ext sp s1 "u_texture" lT HidP
             (HrestP "u_texture" ltac:(discriminate))) in Hrun.
  rewrite (lookup_events_ext sp s1 "u_Transform" lX HidP
             (HrestP "u_Transform" ltac:(discriminate))) in Hrun.
  assert (Hdraw : draw drv square1 s1 (h0 ++ nP) = _)
    by (unfold draw; subst square1;
        cbn [format set_position_Center with_position];
        rewrite Hfmt; exact Hrun).
  exists lP, lT, lX, s2. split; [|split].
  - etransitivity.
    + eapply run_facts.bind_step; [reflexivity|].
      eapply run_facts.bind_step; [reflexivity|].
      eapply run_facts.bind_step; [reflexivity|].
      eapply run_facts.bind_step; [exact HrunP|].
      eapply run_facts.bind_step; [exact Hdraw|].
      eapply run_facts.bind_step; [reflexivity|].
      reflexivity.
    + subst nP. unfold main.frame_events.
      cbn [drawn_obj drawn_shader].
      repeat first [rewrite <- app_assoc | progress cbn [app]].
      reflexivity.
  - split; [|split; assumption].
    rewrite (Hrest2 "u_Projection" ltac:(discriminate) ltac:(discriminate)).
    exact HcP.
  - congruence.
Qed.

(** The calls, the steps and the draw calls of a frame, whichever names
    were cached when it started. *)
Lemma frame_events_order (p : ShaderProgram)
    (lP lT lX texture vao ibo count : Z) (s : vec2) :
  main.calls_of (main.frame_events p lP lT lX texture vao ibo count s)
  = main.frame_calls (shaderProgram_ p) lP lT lX texture vao ibo count s
  /\ (forall b,
        main.steps_of b (main.frame_events p lP lT lX texture vao ibo count s)
        = main.frame_order)
  /\ main.draw_calls (main.frame_events p lP lT lX texture vao ibo count s)
     = 1%nat.
Proof.
  unfold main.frame_events, main.lookup_events.
  destruct (m_UniformLocationCache p !! "u_Projection");
    destruct (m_UniformLocationCache p !! "u_texture");
    destruct (m_UniformLocationCache p !! "u_Transform");
    (split; [reflexivity|]; split; [intros []; reflexivity | reflexivity]).
Qed.

Lemma warm_frame_events (p : ShaderProgram)
    (lP lT lX texture vao ibo count : Z) (s : vec2) :
  warm p lP lT lX ->
  main.frame_events p lP lT lX texture vao ibo count s
  = map (fun c => (c, RVoid))
      (main.frame_calls (shaderProgram_ p) lP lT lX texture vao ibo count s).
Proof.
  intros (HP & HT & HX). unfold main.frame_events, main.lookup_events.
  rewrite HP, HT, HX. reflexivity.
Qed.

(** C7 (amended). The loop run for [n] iterations completes, and its trace
    is [n] frames.  Every frame issues, in this order: set the viewport,
    clear, activate the shader, set the projection uniform, select texture
    unit 0 and bind the texture, set the sampler uniform and the transform
    uniform, bind the vertex array and the index buffer, issue one draw
    call, swap buffers.  The only other calls are look-ups of uniform
    locations, on first use: in the first frame each of the three uniforms
    is preceded by one look-up of its location if its name is not yet
    cached in the shader, and no later frame makes any look-up.  Uniforms
    are thus set both before and after the texture is bound (on either
    reading of where the sampler uniform belongs), and there is exactly one
    draw call per frame. *)
Theorem frame_sequence (n : nat) (square : Renderable)
    (sp : ShaderProgram) (h : list Event)
    (ty : Texture) (m : Mesh) (va : VertexArray) (ib : IndexBuffer) :
  is_RED (format square) = false ->
  texture_y square = Some ty -> mesh_ square = Some m ->
  vertex_array_ m = Some va -> index_buffer_ m = Some ib ->
  exists frames st lP lT lX,
    main.render_loop drv n square sp h = (concat frames, Ok st)
    /\ length frames = n
    /\ (forall f, head frames = Some f ->
          f = main.frame_events sp lP lT lX (textureId_ ty) (vao_ va)
                (ibo_ ib) (to_GLsizei (count_ ib)) (scale_ square))
    /\ Forall
         (fun f =>
            f = map (fun c => (c, RVoid))
                  (main.frame_calls (shaderProgram_ sp) lP lT lX
                     (textureId_ ty) (vao_ va) (ibo_ ib)
                     (to_GLsizei (count_ ib)) (scale_ square)))
         (tail frames)
    /\ Forall
         (fun f =>
            main.calls_of f
            = main.frame_calls (shaderProgram_ sp) lP lT lX (textureId_ ty)
                (vao_ va) (ibo_ ib) (to_GLsizei (count_ ib)) (scale_ square)
            /\ (forall b, main.steps_of b f = main.frame_order)
            /\ main.draw_calls f = 1%nat)
         frames.
Proof.
  intros Hfmt Hty Hm Hva Hib.
  destruct n as [|n].
  - exists [], (square, sp), 0, 0, 0.
    split; [reflexivity|]. split; [reflexivity|].
    split; [intros f Hf; discriminate Hf|].
    split; constructor.
  - destruct (frame_exact square sp h ty m va ib Hfmt Hty Hm Hva Hib)
      as (lP & lT & lX & sp' & Hrun & Hwarm & Hid).
    destruct (loop_facts.frame_keeps square) as (Hf' & Hty' & Hm' & Hs').
    assert (Hfmt1 := Hfmt). assert (Hty1 := Hty). assert (Hm1 := Hm).
    rewrite <- Hf' in Hfmt1. rewrite <- Hty' in Hty1. rewrite <- Hm' in Hm1.
    destruct (loop_facts.warm_loop drv n _ sp'
                (h ++ main.frame_events sp lP lT lX (textureId_ ty) (vao_ va)
                        (ibo_ ib) (to_GLsizei (count_ ib)) (scale_ square))
                ty m va ib lP lT lX Hwarm Hfmt1 Hty1 Hm1 Hva Hib)
      as (square' & Hloop).
    rewrite Hs', Hid in Hloop.
    eexists (_ :: List.repeat _ n), (square', sp'), lP, lT, lX.
    split; [|split; [|split; [|split]]].
    + cbn [main.render_loop concat].
      eapply run_facts.bind_step; [exact Hrun | exact Hloop].
    + cbn [length]. rewrite repeat_length. reflexivity.
    + intros f Hf. cbn in Hf. injection Hf as <-. reflexivity.
    + cbn [tail]. apply List.Forall_forall. intros f Hin.
      apply repeat_spec in Hin. exact Hin.
    + constructor; [apply frame_events_order|].
      apply List.Forall_forall. intros f Hin.
      apply repeat_spec in Hin. subst f.
      split; [reflexivity|]. split; [intros []; reflexivity | reflexivity].
Qed.

End Loop.

(** Two iterations of the loop of [main] on a driver that reports
    locations 0, 2 and 1, from a shader with nothing cached: the first frame
    looks the three names up, the second makes the twelve calls only. *)
Lemma frame_sequence_witness :
  exists frames st,
    main.render_loop (sample.scripted [0; 2; 1]) 2 sample.square
      sample.program [] = (concat frames, Ok st)
    /\ length frames = 2%nat
    /\ map (fun f => length f) frames = [15%nat; 12%nat]
    /\ Forall (fun f => (forall b, main.steps_of b f = main.frame_order)
                        /\ main.draw_calls f = 1%nat) frames.
Proof.
  destruct (frame_sequence (sample.scripted [0; 2; 1]) 2 sample.square
              sample.program [] sample.tex sample.quad _ _
              eq_refl eq_refl eq_refl eq_refl eq_refl)
    as (frames & st & lP & lT & lX & Hloop & Hlen & Hfirst & Hrest & Hall).
  exists frames, st. split; [exact Hloop|]. split; [exact Hlen|].
  split.
  - destruct frames as [|f1 [|f2 [|f3 frames]]]; try discriminate Hlen.
    rewrite (Hfirst f1 eq_refl).
    apply Forall_inv in Hrest. cbn [tail] in Hrest. rewrite Hrest.
    reflexivity.
  - eapply Forall_impl; [exact Hall|].
    intros f (_ & Hsteps & Hdraws). split; assumption.
Defined.

(** C7 (as stated, refuted). The first frame of the loop of [main] does not
    go clear, use shader, set uniforms, bind textures, draw, swap: after the
    texture is bound the transform uniform is set, so the uniform-setting
    step occurs a second time, after texture binding; this is so whether
    setting the sampler uniform is counted with the uniforms or with the
    texture binding. *)
Lemma frame_not_linear :
  main.steps_of false
    (fst (main.frame (sample.scripted [0; 2; 1]) sample.square
            sample.program []))
  <> main.linear_order
  /\ main.steps_of true
       (fst (main.frame (sample.scripted [0; 2; 1]) sample.square
               sample.program []))
     <> main.linear_order.
Proof. split; vm_compute; discriminate. Qed.

End main_facts.

(** ** Lifetime of the GL objects of a [ShaderProgram] *)

Module lifetime_facts.
Import gl renderer observe inspect.

(** Symbolic execution of straight-line code over an arbitrary driver: name
    each answer, then split on the next test. *)
Ltac name_answers :=
  repeat match goal with
         | |- context [answer_int ?d ?t ?c] =>
             let z := fresh "z" in generalize (answer_int d t c); intro z
         | |- context [answer_str ?d ?t ?c] =>
             let s := fresh "log" in generalize (answer_str d t c); intro s
         end.

Ltac split_paths :=
  repeat (cbn; name_answers;
          match goal with
          | |- context [if ?b then _ else _] => destruct b eqn:?
          end);
  cbn.

(** The same under a hypothesis [run = (new, res)]: the conclusion is put
    aside while the run is split into its paths. *)
Ltac split_paths_of_run :=
  match goal with
  | |- _ = _ -> ?C =>
      let Concl := fresh "Concl" in
      let HC := fresh "HC" in
      remember C as Concl eqn:HC;
      split_paths;
      intros Heq; try discriminate Heq;
      injection Heq as <- <-;
      rewrite HC; clear HC Concl
  end.

Ltac pick tac := solve [tac] || (left; pick tac) || (right; pick tac).

Section Lifetime.
Context `{Glm} (drv : Driver).

(** X9. A construction that succeeds makes exactly seventeen calls: each
    shader is created, given its source, compiled and checked; the program
    is created, both shaders are attached, the program is linked, both
    shaders are detached and then deleted, and the link status is read.
    The two shaders are thus gone when the constructor returns and the
    destructor deletes the program: every object created is deleted exactly
    once. *)
Theorem successful_construction_deletes_each_object_once
    (vertex_shader fragment_shader : string) (h h' new : list Event)
    (p : ShaderProgram) :
  ShaderProgram_ctor drv vertex_shader fragment_shader h = (new, Ok p) ->
  exists v f,
    map fst new
    = [glCreateShader GL_VERTEX_SHADER;
       glShaderSource v vertex_shader;
       glCompileShader v;
       glGetShaderiv v GL_COMPILE_STATUS;
       glCreateShader GL_FRAGMENT_SHADER;
       glShaderSource f fragment_shader;
       glCompileShader f;
       glGetShaderiv f GL_COMPILE_STATUS;
       glCreateProgram;
       glAttachShader (shaderProgram_ p) v;
       glAttachShader (shaderProgram_ p) f;
       glLinkProgram (shaderProgram_ p);
       glDetachShader (shaderProgram_ p) v;
       glDetachShader (shaderProgram_ p) f;
       glDeleteShader v;
       glDeleteShader f;
       glGetProgramiv (shaderProgram_ p) GL_LINK_STATUS]
    /\ created new
       = [ShaderObject v; ShaderObject f; ProgramObject (shaderProgram_ p)]
    /\ deleted new = [ShaderObject v; ShaderObject f]
    /\ deleted (new ++ fst (ShaderProgram_dtor p h')) = created new.
Proof.
  unfold ShaderProgram_ctor, LoadShader, bind, call_int, call_void, call_str,
    throw, ret.
  split_paths_of_run.
  eexists _, _. repeat split.
Qed.

(** X10. When construction throws, the only object deleted is the one
    whose own step failed (a shader that did not compile), unless the
    failure is a link failure, in which case all three objects are deleted.
    A vertex shader that compiled is therefore not deleted when the
    fragment shader fails to be allocated or compiled, and neither shader is
    deleted when the program cannot be allocated. *)
Theorem failed_construction_deletes_at_most_the_failed_object
    (vertex_shader fragment_shader : string) (h new : list Event)
    (e : exception) :
  ShaderProgram_ctor drv vertex_shader fragment_shader h = (new, Throw e) ->
  exists earlier x,
    created new = earlier ++ [x]
    /\ ((length earlier = 2%nat /\ deleted new = earlier ++ [x]
         /\ exists program, x = ProgramObject program
                            /\ In (glGetProgramiv program GL_LINK_STATUS, RInt 0) new)
        \/ (deleted new = [x]
            /\ exists shader, x = ShaderObject shader
                              /\ In (glGetShaderiv shader GL_COMPILE_STATUS, RInt 0) new)
        \/ (deleted new = []
            /\ (x = ShaderObject 0 \/ x = ProgramObject 0))).
Proof.
  unfold ShaderProgram_ctor, LoadShader, bind, call_int, call_void, call_str,
    throw, ret.
  split_paths_of_run.
  all: repeat match goal with
              | E : (_ =? 0) = true |- _ => apply Z.eqb_eq in E; subst
              end.
  all: cbn.
  all: first
    [ exists [], (ShaderObject 0); split; [reflexivity|];
      right; right; split; [reflexivity | left; reflexivity]
    | eexists [_], (ShaderObject 0); split; [reflexivity|];
      right; right; split; [reflexivity | left; reflexivity]
    | eexists [_; _], (ProgramObject 0); split; [reflexivity|];
      right; right; split; [reflexivity | right; reflexivity]
    | eexists [], (ShaderObject _); split; [reflexivity|];
      right; left; split; [reflexivity|];
      eexists; split; [reflexivity | cbn; tauto]
    | eexists [_], (ShaderObject _); split; [reflexivity|];
      right; left; split; [reflexivity|];
      eexists; split; [reflexivity | cbn; tauto]
    | eexists [_; _], (ProgramObject _); split; [reflexivity|];
      left; split; [reflexivity|]; split; [reflexivity|];
      eexists; split; [reflexivity | cbn; tauto] ].
Qed.

(** X11. The message of the exception names the step that failed:
    allocation of a shader, compilation (with ["Vertex Shader"] or
    ["Fragment Shader"] and GL's info log when the log length GL reports
    exceeds 1, a bare message otherwise), allocation of the program, or
    linking (with the info log under the same condition). *)
Theorem construction_error_messages
    (vertex_shader fragment_shader : string) (h new : list Event)
    (e : exception) :
  ShaderProgram_ctor drv vertex_shader fragment_shader h = (new, Throw e) ->
  (e = runtime_error "failed to allocate shader"
   /\ exists type, last new = Some (glCreateShader type, RInt 0))
  \/ (e = runtime_error "Error compiling shader"
      /\ exists shader len,
           In (glGetShaderiv shader GL_INFO_LOG_LENGTH, RInt len) new
           /\ len <= 1)
  \/ (exists shader len log,
        e = runtime_error
              ("Error compiling shader Vertex Shader" ++ newline ++ ":" ++ log)%string
        /\ created new = [ShaderObject shader]
        /\ In (glGetShaderInfoLog shader len, RStr log) new /\ 1 < len)
  \/ (exists v shader len log,
        e = runtime_error
              ("Error compiling shader Fragment Shader" ++ newline ++ ":" ++ log)%string
        /\ created new = [ShaderObject v; ShaderObject shader]
        /\ In (glGetShaderInfoLog shader len, RStr log) new /\ 1 < len)
  \/ (e = runtime_error "Failed to allocate shader program"
      /\ last new = Some (glCreateProgram, RInt 0))
  \/ (e = runtime_error "Error linking shader program"
      /\ exists program len,
           In (glGetProgramiv program GL_INFO_LOG_LENGTH, RInt len) new
           /\ len <= 1)
  \/ (exists program len log,
        e = runtime_error
              ("Error linking shader program:" ++ newline ++ ":" ++ log)%string
        /\ In (glGetProgramInfoLog program len, RStr log) new /\ 1 < len).
Proof.
  unfold ShaderProgram_ctor, LoadShader, bind, call_int, call_void, call_str,
    throw, ret.
  split_paths_of_run.
  all: repeat match goal with
              | E : (_ =? 0) = true |- _ => apply Z.eqb_eq in E; subst
              | E : (1 <? _) = true |- _ => apply Z.ltb_lt in E
              | E : (1 <? _) = false |- _ => apply Z.ltb_ge in E
              end.
  all: cbn.
  all: pick ltac:(repeat first
                    [ split
                    | reflexivity
                    | eexists
                    | eassumption
                    | cbn; tauto ]).
Qed.

End Lifetime.

(** A construction on a driver that hands out ids 1, 2, 3 and reports
    success everywhere. *)
Lemma successful_construction_deletes_each_object_once_witness :
  exists new p,
    ShaderProgram_ctor (sample.scripted [1; 1; 2; 1; 3; 1]) "v" "f" []
    = (new, Ok p)
    /\ created new = [ShaderObject 1; ShaderObject 2; ProgramObject 3]
    /\ deleted (new ++ fst (ShaderProgram_dtor p [])) = created new.
Proof.
  eassert (Hrun : ShaderProgram_ctor (sample.scripted [1; 1; 2; 1; 3; 1])
                    "v" "f" [] = (_, Ok _))
    by (vm_compute; reflexivity).
  eexists _, _. split; [exact Hrun|].
  destruct (successful_construction_deletes_each_object_once _ _ _ _ []
              _ _ Hrun) as (v & f & _ & _ & _ & Hall).
  split; [reflexivity | exact Hall].
Defined.

(** The fragment shader does not compile: shader 1 was created before it
    and is not deleted. *)
Lemma failed_construction_deletes_at_most_the_failed_object_witness :
  exists new e earlier x,
    ShaderProgram_ctor (sample.scripted [1; 1; 2; 0; 0]) "v" "f" []
    = (new, Throw e)
    /\ created new = earlier ++ [x]
    /\ deleted new = [ShaderObject 2].
Proof.
  eassert (Hrun : ShaderProgram_ctor (sample.scripted [1; 1; 2; 0; 0])
                    "v" "f" [] = (_, Throw _))
    by (vm_compute; reflexivity).
  destruct (failed_construction_deletes_at_most_the_failed_object _ _ _ _
              _ _ Hrun) as (earlier & x & Hcreated & _).
  eexists _, _, earlier, x. split; [exact Hrun|].
  split; [exact Hcreated | reflexivity].
Defined.

(** The program does not link and GL has a log of length 4. *)
Lemma construction_error_messages_witness :
  exists new,
    ShaderProgram_ctor (sample.scripted [1; 1; 2; 1; 3; 0; 4]) "v" "f" []
    = (new,
       Throw (runtime_error
                ("Error linking shader program:" ++ newline ++ ":log")%string))
    /\ exists program len log,
         In (glGetProgramInfoLog program len, RStr log) new /\ 1 < len.
Proof.
  eassert (Hrun : ShaderProgram_ctor (sample.scripted [1; 1; 2; 1; 3; 0; 4])
                    "v" "f" [] = (_, Throw (runtime_error _)))
    by (vm_compute; reflexivity).
  eexists. split; [exact Hrun|].
  destruct (construction_error_messages _ _ _ _ _ _ Hrun)
    as [(He & _) | [(He & _) | [(s & l & g & He & _) | [(v & s & l & g & He & _)
        | [(He & _) | [(He & _) | (program & len & log & _ & Hlog)]]]]]];
    try (cbn in He; discriminate He).
  exists program, len, log. exact Hlog.
Defined.

End lifetime_facts.

(** ** Buffers, vertex arrays, textures and meshes *)

Module resource_facts.
Import gl renderer wrappers setup resources.

Section Resources.
Context `{Glm} (drv : XDriver).

Lemma xbind_step {A B} (m : XM A) (k : A -> XM B) (h n1 n2 : list XEvent)
    (a : A) (res : outcome B) :
  m h = (n1, Ok a) ->
  k a (h ++ n1) = (n2, res) ->
  xbind m k h = (n1 ++ n2, res).
Proof. intros Hm Hk. unfold xbind. rewrite Hm, Hk. reflexivity. Qed.

Lemma int_mul_fits (a b : Z) :
  INT_MIN <= a * b <= INT_MAX -> int_mul a b = Ok (a * b).
Proof.
  intros (Hlo & Hhi). unfold int_mul.
  rewrite (proj2 (Z.leb_le _ _) Hlo), (proj2 (Z.leb_le _ _) Hhi). reflexivity.
Qed.

Lemma int_mul_overflows (a b : Z) :
  INT_MAX < a * b -> int_mul a b = Undefined.
Proof.
  intros Hhi. unfold int_mul.
  rewrite (proj2 (Z.leb_gt _ _) Hhi), andb_false_r. reflexivity.
Qed.

Lemma bytes_per_pixel_pos (fmt : Format) : 1 <= bytes_per_pixel fmt <= 4.
Proof. destruct fmt; cbn; lia. Qed.

Lemma texture_ctor_run (fmt : Format) (width height : Z) (h : list XEvent) :
  0 <= width -> 0 <= height ->
  width * height * bytes_per_pixel fmt <= INT_MAX ->
  exists pbo textureId,
    Texture_ctor drv fmt width height h
    = ([(inr glGenBuffers, RInt pbo);
        (inl (glBindBuffer GL_PIXEL_UNPACK_BUFFER pbo), RVoid);
        (inr (glBufferData GL_PIXEL_UNPACK_BUFFER
                (width * height * bytes_per_pixel fmt) None GL_STREAM_DRAW),
         RVoid);
        (inl (glBindBuffer GL_PIXEL_UNPACK_BUFFER 0), RVoid);
        (inr glGenTextures, RInt textureId);
        (inl (glBindTexture GL_TEXTURE_2D textureId), RVoid);
        (inr (glTexParameteri GL_TEXTURE_2D GL_TEXTURE_WRAP_S
                GL_CLAMP_TO_EDGE), RVoid);
        (inr (glTexParameteri GL_TEXTURE_2D GL_TEXTURE_WRAP_T
                GL_CLAMP_TO_EDGE), RVoid);
        (inr (glTexParameteri GL_TEXTURE_2D GL_TEXTURE_MIN_FILTER GL_LINEAR),
         RVoid);
        (inr (glTexParameteri GL_TEXTURE_2D GL_TEXTURE_MAG_FILTER GL_LINEAR),
         RVoid);
        (inr (glTexImage2D GL_TEXTURE_2D 0
                (if is_RED fmt then GL_R8 else GLenum_of fmt)
                width height 0 (GLenum_of fmt) GL_UNSIGNED_BYTE), RVoid);
        (inl (glBindTexture GL_TEXTURE_2D 0), RVoid)],
       Ok {| width_ := width; height_ := height;
             textureId_ := textureId; pbo_ := pbo;
             buffer_size_ := width * height * bytes_per_pixel fmt |}).
Proof.
  intros Hw Hh Hfit.
  pose proof (bytes_per_pixel_pos fmt) as Hbpp.
  assert (Hwh : 0 <= width * height) by nia.
  assert (Hwh' : width * height <= INT_MAX) by nia.
  assert (Hn : 0 <= width * height * bytes_per_pixel fmt) by nia.
  unfold INT_MAX in *.
  assert (Hsize : to_size_t (width * height * bytes_per_pixel fmt)
                  = width * height * bytes_per_pixel fmt)
    by (unfold to_size_t; apply Z.mod_small; lia).
  assert (Hptr : to_GLsizeiptr (width * height * bytes_per_pixel fmt)
                 = width * height * bytes_per_pixel fmt)
    by (unfold to_GLsizeiptr;
        destruct (Z.ltb_spec (width * height * bytes_per_pixel fmt) (2 ^ 63));
        [reflexivity | lia]).
  unfold Texture_ctor.
  rewrite (int_mul_fits width height) by (unfold INT_MIN, INT_MAX; lia).
  eexists _, _.
  etransitivity.
  - eapply xbind_step; [reflexivity|]. cbv beta.
    rewrite (int_mul_fits (width * height) (bytes_per_pixel fmt))
      by (unfold INT_MIN, INT_MAX; lia).
    eapply xbind_step; [reflexivity|]. cbv beta zeta.
    rewrite Hsize, Hptr.
    do 12 (eapply xbind_step; [reflexivity|]).
    reflexivity.
  - reflexivity.
Qed.

(** X12. For dimensions that are non-negative [int]s and whose byte count
    [width * height * bytes-per-pixel] (4, 3 or 1 by format) fits an [int],
    the constructor of [Texture] completes; the texture records the
    dimensions and that byte count, holds the two ids GL generated, has
    allocated a staging buffer of exactly that many bytes and an image of
    [width x height] (internal format [GL_R8] for [GL_RED]), and leaves
    both the pixel-unpack buffer binding and the texture binding at 0. *)
Theorem texture_ctor_allocates (fmt : Format) (width height : Z)
    (h : list XEvent) :
  0 <= width <= INT_MAX -> 0 <= height <= INT_MAX ->
  width * height * bytes_per_pixel fmt <= INT_MAX ->
  exists new t,
    Texture_ctor drv fmt width height h = (new, Ok t)
    /\ width_ t = width /\ height_ t = height
    /\ buffer_size_ t = width * height * bytes_per_pixel fmt
    /\ In (inr glGenBuffers, RInt (pbo_ t)) new
    /\ In (inr glGenTextures, RInt (textureId_ t)) new
    /\ In (inr (glBufferData GL_PIXEL_UNPACK_BUFFER
                  (width * height * bytes_per_pixel fmt) None GL_STREAM_DRAW),
           RVoid) new
    /\ In (inr (glTexImage2D GL_TEXTURE_2D 0
                  (if is_RED fmt then GL_R8 else GLenum_of fmt)
                  width height 0 (GLenum_of fmt) GL_UNSIGNED_BYTE), RVoid) new
    /\ bound_buffer GL_PIXEL_UNPACK_BUFFER new = Some 0
    /\ bound_texture new = Some 0.
Proof.
  intros (Hw & _) (Hh & _) Hfit.
  destruct (texture_ctor_run fmt width height h Hw Hh Hfit)
    as (pbo & textureId & Hrun).
  eexists _, _. split; [exact Hrun|].
  cbn. repeat split; tauto.
Qed.

(** X13. When [width * height * bytes-per-pixel] exceeds [INT_MAX] (for
    dimensions that are non-negative [int]s) the size computation of the [Texture]
    constructor overflows [int]: the behaviour is undefined, and that
    happens before any GL call. *)
Theorem texture_ctor_overflows (fmt : Format) (width height : Z)
    (h : list XEvent) :
  0 <= width <= INT_MAX -> 0 <= height <= INT_MAX ->
  INT_MAX < width * height * bytes_per_pixel fmt ->
  Texture_ctor drv fmt width height h = ([], Undefined).
Proof.
  intros (Hw & _) (Hh & _) Hover. unfold Texture_ctor, xbind, x_outcome.
  destruct (Z_le_gt_dec (width * height) INT_MAX) as [Hfit | Hbig].
  - rewrite (int_mul_fits width height) by (unfold INT_MIN, INT_MAX in *; nia).
    rewrite (int_mul_overflows _ _ Hover). reflexivity.
  - rewrite (int_mul_overflows width height) by lia. reflexivity.
Qed.

Lemma copy_data_run (fmt : Format) (t : Texture) (data : Bytes)
    (h : list XEvent) :
  exists gpuMemory copied,
    Texture_copy_data drv fmt t data h
    = ([(inl (glBindTexture GL_TEXTURE_2D (textureId_ t)), RVoid);
        (inl (glBindBuffer GL_PIXEL_UNPACK_BUFFER (pbo_ t)), RVoid);
        (inr (glMapBufferRange GL_PIXEL_UNPACK_BUFFER 0
                (to_GLsizeiptr (size data)) 6), RInt gpuMemory)]
       ++ copied
       ++ [(inr (glTexSubImage2D GL_TEXTURE_2D 0 0 0 (width_ t) (height_ t)
                   (GLenum_of fmt) GL_UNSIGNED_BYTE 0), RVoid);
           (inr (glPixelStorei GL_UNPACK_ALIGNMENT 4), RVoid);
           (inl (glBindBuffer GL_PIXEL_UNPACK_BUFFER 0), RVoid);
           (inl (glBindTexture GL_TEXTURE_2D 0), RVoid)],
       Ok tt)
    /\ (gpuMemory = 0 -> copied = [])
    /\ (gpuMemory <> 0 ->
        exists unmapped,
          copied = [(inr (memcpy gpuMemory data), RVoid);
                    (inr (glUnmapBuffer GL_PIXEL_UNPACK_BUFFER), RInt unmapped)]).
Proof.
  unfold Texture_copy_data, xbind, lift, x_void, x_int, xret.
  unfold Texture_bind, Texture_unbind, call_void.
  cbn -[Z.eqb to_GLsizeiptr size].
  match goal with
  | |- context [Z.eqb ?g 0] =>
      exists g; destruct (Z.eqb_spec g 0) as [Hnull | Hmapped]
  end.
  - exists []. split; [reflexivity|]. split; [reflexivity | contradiction].
  - eexists [_; _]. split; [reflexivity|].
    split; [contradiction | intros _; eexists; reflexivity].
Qed.

(** X14. [copy_data] always completes.  It binds the texture and its
    staging buffer and maps as many bytes as the span has, without
    comparing that to the size of the staging buffer; it copies and unmaps
    only if the mapping is not null; in both cases it then issues
    [glTexSubImage2D] for the whole [width_ x height_] image, sets the
    unpack alignment to 4, and leaves the pixel-unpack buffer binding and
    the texture binding at 0. *)
Theorem copy_data_trace (fmt : Format) (t : Texture) (data : Bytes)
    (h : list XEvent) :
  exists gpuMemory copied,
    Texture_copy_data drv fmt t data h
    = ([(inl (glBindTexture GL_TEXTURE_2D (textureId_ t)), RVoid);
        (inl (glBindBuffer GL_PIXEL_UNPACK_BUFFER (pbo_ t)), RVoid);
        (inr (glMapBufferRange GL_PIXEL_UNPACK_BUFFER 0
                (to_GLsizeiptr (size data)) 6), RInt gpuMemory)]
       ++ copied
       ++ [(inr (glTexSubImage2D GL_TEXTURE_2D 0 0 0 (width_ t) (height_ t)
                   (GLenum_of fmt) GL_UNSIGNED_BYTE 0), RVoid);
           (inr (glPixelStorei GL_UNPACK_ALIGNMENT 4), RVoid);
           (inl (glBindBuffer GL_PIXEL_UNPACK_BUFFER 0), RVoid);
           (inl (glBindTexture GL_TEXTURE_2D 0), RVoid)],
       Ok tt)
    /\ (gpuMemory = 0 -> copied = [])
    /\ (gpuMemory <> 0 ->
        exists unmapped,
          copied = [(inr (memcpy gpuMemory data), RVoid);
                    (inr (glUnmapBuffer GL_PIXEL_UNPACK_BUFFER), RInt unmapped)]).
Proof. exact (copy_data_run fmt t data h). Qed.

(** X15. A texture built by the constructor and then given, through
    [copy_data], a span of exactly [width * height * bytes-per-pixel]
    bytes: the range mapped for the copy is the whole staging buffer the
    constructor allocated, in the buffer the constructor generated, and
    the image region uploaded is the whole image the constructor
    allocated. *)
Theorem upload_covers_allocation (fmt : Format) (width height : Z)
    (data : Bytes) (h : list XEvent) :
  0 <= width <= INT_MAX -> 0 <= height <= INT_MAX ->
  width * height * bytes_per_pixel fmt <= INT_MAX ->
  size data = width * height * bytes_per_pixel fmt ->
  exists new t new2 gpuMemory,
    Texture_ctor drv fmt width height h = (new, Ok t)
    /\ Texture_copy_data drv fmt t data (h ++ new) = (new2, Ok tt)
    /\ In (inr glGenBuffers, RInt (pbo_ t)) new
    /\ In (inr (glBufferData GL_PIXEL_UNPACK_BUFFER (size data) None
                  GL_STREAM_DRAW), RVoid) new
    /\ In (inl (glBindBuffer GL_PIXEL_UNPACK_BUFFER (pbo_ t)), RVoid) new2
    /\ In (inr (glMapBufferRange GL_PIXEL_UNPACK_BUFFER 0 (size data) 6),
           RInt gpuMemory) new2
    /\ In (inr (glTexImage2D GL_TEXTURE_2D 0
                  (if is_RED fmt then GL_R8 else GLenum_of fmt)
                  width height 0 (GLenum_of fmt) GL_UNSIGNED_BYTE), RVoid) new
    /\ In (inr (glTexSubImage2D GL_TEXTURE_2D 0 0 0 width height
                  (GLenum_of fmt) GL_UNSIGNED_BYTE 0), RVoid) new2.
Proof.
  intros (Hw & _) (Hh & _) Hfit Hdata.
  destruct (texture_ctor_run fmt width height h Hw Hh Hfit)
    as (pbo & textureId & Hrun).
  pose proof (bytes_per_pixel_pos fmt) as Hbpp.
  assert (Hptr : to_GLsizeiptr (size data) = size data).
  { unfold to_GLsizeiptr, INT_MAX in *.
    destruct (Z.ltb_spec (size data) (2 ^ 63)); [reflexivity | lia]. }
  rewrite <- Hdata in Hrun.
  destruct (copy_data_run fmt
              {| width_ := width; height_ := height;
                 textureId_ := textureId; pbo_ := pbo;
                 buffer_size_ := size data |} data
              (h ++ [(inr glGenBuffers, RInt pbo);
        (inl (glBindBuffer GL_PIXEL_UNPACK_BUFFER pbo), RVoid);
        (inr (glBufferData GL_PIXEL_UNPACK_BUFFER (size data) None
                GL_STREAM_DRAW), RVoid);
        (inl (glBindBuffer GL_PIXEL_UNPACK_BUFFER 0), RVoid);
        (inr glGenTextures, RInt textureId);
        (inl (glBindTexture GL_TEXTURE_2D textureId), RVoid);
        (inr (glTexParameteri GL_TEXTURE_2D GL_TEXTURE_WRAP_S
                GL_CLAMP_TO_EDGE), RVoid);
        (inr (glTexParameteri GL_TEXTURE_2D GL_TEXTURE_WRAP_T
                GL_CLAMP_TO_EDGE), RVoid);
        (inr (glTexParameteri GL_TEXTURE_2D GL_TEXTURE_MIN_FILTER GL_LINEAR),
         RVoid);
        (inr (glTexParameteri GL_TEXTURE_2D GL_TEXTURE_MAG_FILTER GL_LINEAR),
         RVoid);
        (inr (glTexImage2D GL_TEXTURE_2D 0
                (if is_RED fmt then GL_R8 else GLenum_of fmt)
                width height 0 (GLenum_of fmt) GL_UNSIGNED_BYTE), RVoid);
        (inl (glBindTexture GL_TEXTURE_2D 0), RVoid)]))
    as (gpuMemory & copied & Hcopy & _).
  rewrite Hptr in Hcopy. cbn [width_ height_ textureId_ pbo_] in Hcopy.
  eexists _, _, _, gpuMemory. split; [exact Hrun|].
  split; [exact Hcopy|].
  split; [cbn; tauto|]. split; [cbn; tauto|].
  split; [cbn; tauto|]. split; [cbn; tauto|].
  split; [cbn; tauto|].
  apply in_or_app. right. apply in_or_app. right. cbn. tauto.
Qed.

Lemma omap_app_nil {A B} (f : A -> option B) (l1 l2 : list A) :
  omap f l2 = [] -> omap f (l1 ++ l2) = omap f l1.
Proof. intros E. rewrite omap_app, E, app_nil_r. reflexivity. Qed.

Lemma attrib_loop_run (stride : Z) (elements : list VertexAttribElement) :
  forall (i : nat) (h : list XEvent),
    Z.of_nat i + Z.of_nat (length elements) <= INT_MAX ->
    exists new,
      attrib_loop (Z.of_nat i) elements stride h = (new, Ok tt)
      /\ xcalls new
         = concat (imap (fun j => attrib_calls stride (i + j)%nat) elements)
      /\ omap binds_vertex_array new = []
      /\ forall target, omap (binds_buffer target) new = [].
Proof.
  induction elements as [|element rest IH]; intros i h Hfit.
  - exists []. repeat split.
  - cbn [length] in Hfit.
    destruct (IH (S i)
                ((h ++ [(inr (glEnableVertexAttribArray (Z.of_nat i)), RVoid)])
                 ++ [(inr (glVertexAttribPointer (Z.of_nat i)
                             (to_GLint (ae_count element)) (ae_type element)
                             (ae_normalized element) (to_GLint stride)
                             (ae_offset element)), RVoid)]))
      as (new & Hrun & Hcalls & Hva & Hbuf); [lia|].
    eexists. split; [|split; [|split]].
    + cbn [attrib_loop].
      eapply xbind_step; [reflexivity|].
      eapply xbind_step; [reflexivity|].
      unfold int_incr.
      rewrite (proj2 (Z.ltb_lt (Z.of_nat i) INT_MAX)) by lia.
      eapply xbind_step; [reflexivity|].
      rewrite app_nil_r.
      replace (Z.of_nat i + 1) with (Z.of_nat (S i)) by lia.
      exact Hrun.
    + unfold xcalls in *. cbn [app map fst imap concat].
      rewrite Hcalls, Nat.add_0_r.
      change (attrib_calls stride i element ++ ?r)
        with (inr (glEnableVertexAttribArray (Z.of_nat i))
              :: inr (glVertexAttribPointer (Z.of_nat i)
                        (to_GLint (ae_count element)) (ae_type element)
                        (ae_normalized element) (to_GLint stride)
                        (ae_offset element)) :: r).
      do 3 f_equal. apply imap_ext. intros j x _. cbn [compose].
      replace (S i + j)%nat with (i + S j)%nat by lia. reflexivity.
    + cbn. exact Hva.
    + intros target. cbn. apply Hbuf.
Qed.

(** X16. Given a vertex buffer and a layout of fewer than [2^31]
    elements, the constructor of [VertexArray] completes and its calls are:
    generate the array, bind it, bind the vertex buffer, then for the
    element at each index [i], in order, [glEnableVertexAttribArray i] and
    [glVertexAttribPointer i] with that element's count, type,
    normalisation flag and offset and the layout's stride, and finally
    bind vertex array 0.  The vertex buffer is still bound to
    [GL_ARRAY_BUFFER] afterwards. *)
Theorem vertex_array_describes_each_element (vbo : VertexBuffer)
    (layout : VertexBufferLayout) (h : list XEvent) :
  Z.of_nat (length (get_elements layout)) <= INT_MAX ->
  exists new va,
    VertexArray_ctor drv (Some vbo) layout h = (new, Ok va)
    /\ va_vbo_ va = Some vbo
    /\ xcalls new
       = [inr glGenVertexArrays;
          inl (glBindVertexArray (vao_ va));
          inl (glBindBuffer GL_ARRAY_BUFFER (vbo_ vbo))]
         ++ concat (imap (attrib_calls (get_stride layout))
                         (get_elements layout))
         ++ [inl (glBindVertexArray 0)]
    /\ bound_vertex_array new = Some 0
    /\ bound_buffer GL_ARRAY_BUFFER new = Some (vbo_ vbo).
Proof.
  intros Hfit.
  set (vao := x_answer_int drv h (inr glGenVertexArrays)).
  set (h3 := (((h ++ [(inr glGenVertexArrays, RInt vao)])
               ++ [(inl (glBindVertexArray vao), RVoid)]) ++ [])
             ++ [(inl (glBindBuffer GL_ARRAY_BUFFER (vbo_ vbo)), RVoid)]).
  destruct (attrib_loop_run (get_stride layout) (get_elements layout)
              0%nat h3) as (loop & Hrun & Hcalls & Hva & Hbuf);
    [cbn; lia|].
  exists ([(inr glGenVertexArrays, RInt vao);
           (inl (glBindVertexArray vao), RVoid);
           (inl (glBindBuffer GL_ARRAY_BUFFER (vbo_ vbo)), RVoid)]
          ++ loop ++ [(inl (glBindVertexArray 0), RVoid)]),
         {| va_vbo_ := Some vbo; vao_ := vao |}.
  split; [|split; [reflexivity | split; [|split]]].
  - unfold VertexArray_ctor.
    etransitivity.
    + eapply xbind_step; [reflexivity|]. cbv beta zeta. fold vao.
      eapply xbind_step; [reflexivity|].
      eapply xbind_step; [reflexivity|].
      eapply xbind_step; [reflexivity|].
      eapply xbind_step; [exact Hrun|].
      eapply xbind_step; [reflexivity|].
      reflexivity.
    + cbn [app map fst snd]. rewrite ?app_nil_r. reflexivity.
  - unfold xcalls in *. rewrite !map_app. cbn [map fst app].
    do 3 f_equal. f_equal. exact Hcalls.
  - unfold bound_vertex_array.
    rewrite app_assoc, omap_app.
    rewrite (omap_app_nil _ _ _ Hva). reflexivity.
  - unfold bound_buffer.
    rewrite app_assoc, omap_app.
    rewrite (omap_app_nil _ _ _ (Hbuf GL_ARRAY_BUFFER)). reflexivity.
Qed.

(** X17. A [VertexArray] constructed from a null vertex buffer generates
    and binds the array and then dereferences the null pointer: the
    behaviour is undefined before any attribute is described. *)
Theorem vertex_array_of_null_buffer (layout : VertexBufferLayout)
    (h : list XEvent) :
  exists vao,
    VertexArray_ctor drv None layout h
    = ([(inr glGenVertexArrays, RInt vao);
        (inl (glBindVertexArray vao), RVoid)], Undefined).
Proof. eexists. reflexivity. Qed.

(** X18. For fewer than [2^31] indices the constructor of [Mesh]
    completes, whatever the uninitialised count of the new index buffer
    was.  It uploads the vertices to [GL_ARRAY_BUFFER] and the indices to
    [GL_ELEMENT_ARRAY_BUFFER], describes attribute 0 as three floats at
    offset 0 and attribute 1 as two floats at offset 12, both with stride
    20, and a later [draw] binds the vertex array and the index buffer the
    constructor generated and draws exactly as many indices as were
    given. *)
Theorem mesh_draws_every_index (vs : list Vertex) (ixs : list Z)
    (raw_count : Z) (h : list XEvent) :
  Z.of_nat (length ixs) < 2 ^ 31 ->
  exists new m va ib,
    Mesh_ctor drv vs ixs raw_count h = (new, Ok m)
    /\ vertex_array_ m = Some va /\ index_buffer_ m = Some ib
    /\ In (inr glGenVertexArrays, RInt (vao_ va)) new
    /\ In (inr glGenBuffers, RInt (ibo_ ib)) new
    /\ In (inr (glBufferData GL_ARRAY_BUFFER
                  (to_GLsizeiptr (size (AsBytes_Vertex vs)))
                  (Some (AsBytes_Vertex vs)) GL_STATIC_DRAW), RVoid) new
    /\ In (inr (glBufferData GL_ELEMENT_ARRAY_BUFFER
                  (to_GLsizeiptr (size (AsBytes_uint32 ixs)))
                  (Some (AsBytes_uint32 ixs)) GL_STATIC_DRAW), RVoid) new
    /\ In (inr (glVertexAttribPointer 0 3 GL_FLOAT GL_FALSE 20 0), RVoid) new
    /\ In (inr (glVertexAttribPointer 1 2 GL_FLOAT GL_FALSE 20 12), RVoid) new
    /\ forall h2,
         Mesh_draw m h2
         = ([(glBindVertexArray (vao_ va), RVoid);
             (glBindBuffer GL_ELEMENT_ARRAY_BUFFER (ibo_ ib), RVoid);
             (glDrawElements GL_TRIANGLES (Z.of_nat (length ixs))
                GL_UNSIGNED_INT 0, RVoid)], Ok tt).
Proof.
  intros Hlen.
  assert (Hcount : to_GLsizei (to_uint32_t (Z.of_nat (length ixs)))
                   = Z.of_nat (length ixs)).
  { unfold to_uint32_t. rewrite Z.mod_small by lia.
    unfold to_GLsizei.
    destruct (Z.ltb_spec (Z.of_nat (length ixs)) (2 ^ 31)); [reflexivity | lia]. }
  eexists _, _, _, _. split.
  { unfold Mesh_ctor.
    eapply xbind_step; [reflexivity|].
    eapply xbind_step; [reflexivity|].
    eapply xbind_step; [reflexivity|].
    eapply xbind_step; [reflexivity|].
    eapply xbind_step; [reflexivity|].
    reflexivity. }
  split; [reflexivity|]. split; [reflexivity|].
  do 6 (split; [cbn -[to_GLsizeiptr size Z.of_nat length]; tauto|]).
  intros h2. unfold Mesh_draw, get_count.
  cbn -[to_GLsizei to_uint32_t Z.of_nat length].
  rewrite Hcount. reflexivity.
Qed.

End Resources.

(** An 800 x 600 RGBA texture has a staging buffer of 1 920 000 bytes. *)
Lemma texture_ctor_allocates_witness :
  exists new t,
    Texture_ctor (scripted [7; 9]) RGBA 800 600 [] = (new, Ok t)
    /\ buffer_size_ t = 1920000
    /\ bound_texture new = Some 0.
Proof.
  destruct (texture_ctor_allocates (scripted [7; 9]) RGBA 800 600 [])
    as (new & t & Hrun & _ & _ & Hsize & _ & _ & _ & _ & _ & Hbound);
    [unfold INT_MAX; lia | unfold INT_MAX; lia | vm_compute; discriminate |].
  exists new, t. split; [exact Hrun|]. split; [exact Hsize | exact Hbound].
Defined.

(** A 32 768 x 32 768 RGBA texture needs [2^32] bytes. *)
Lemma texture_ctor_overflows_witness :
  Texture_ctor (scripted []) RGBA 32768 32768 [] = ([], Undefined).
Proof.
  apply (texture_ctor_overflows (scripted []) RGBA 32768 32768 []);
    [unfold INT_MAX; lia | unfold INT_MAX; lia | vm_compute; reflexivity].
Defined.

(** A 2 x 2 RGBA texture filled from four 32-bit words. *)
Lemma upload_covers_allocation_witness :
  exists new t new2 gpuMemory,
    Texture_ctor (scripted [7; 9; 5]) RGBA 2 2 [] = (new, Ok t)
    /\ Texture_copy_data (scripted [7; 9; 5]) RGBA t
         (AsBytes_uint32 [1; 2; 3; 4]) new = (new2, Ok tt)
    /\ In (inr (glBufferData GL_PIXEL_UNPACK_BUFFER 16 None GL_STREAM_DRAW),
           RVoid) new
    /\ In (inr (glMapBufferRange GL_PIXEL_UNPACK_BUFFER 0 16 6),
           RInt gpuMemory) new2.
Proof.
  destruct (upload_covers_allocation (scripted [7; 9; 5]) RGBA 2 2
              (AsBytes_uint32 [1; 2; 3; 4]) [])
    as (new & t & new2 & g & Hrun & Hcopy & _ & Halloc & _ & Hmap & _);
    [unfold INT_MAX; lia | unfold INT_MAX; lia | vm_compute; discriminate
    | reflexivity |].
  exists new, t, new2, g.
  split; [exact Hrun|]. split; [exact Hcopy|].
  split; [exact Halloc | exact Hmap].
Defined.

(** The layout of [Vertex] on vertex buffer 1. *)
Lemma vertex_array_describes_each_element_witness :
  exists new va,
    VertexArray_ctor (scripted [2]) (Some {| vbo_ := 1 |}) getLayout []
    = (new, Ok va)
    /\ xcalls new
       = [inr glGenVertexArrays;
          inl (glBindVertexArray (vao_ va));
          inl (glBindBuffer GL_ARRAY_BUFFER 1);
          inr (glEnableVertexAttribArray 0);
          inr (glVertexAttribPointer 0 3 GL_FLOAT GL_FALSE 20 0);
          inr (glEnableVertexAttribArray 1);
          inr (glVertexAttribPointer 1 2 GL_FLOAT GL_FALSE 20 12);
          inl (glBindVertexArray 0)].
Proof.
  destruct (vertex_array_describes_each_element (scripted [2])
              {| vbo_ := 1 |} getLayout [])
    as (new & va & Hrun & _ & Hcalls & _); [vm_compute; discriminate|].
  exists new, va. split; [exact Hrun | exact Hcalls].
Defined.

(** [QuadMesh]: four vertices, six indices. *)
Lemma mesh_draws_every_index_witness :
  exists new m,
    QuadMesh (scripted [1; 2; 3]) 0 [] = (new, Ok m)
    /\ In (inr (glBufferData GL_ARRAY_BUFFER 80
                  (Some (AsBytes_Vertex vertices)) GL_STATIC_DRAW), RVoid) new
    /\ In (inr (glBufferData GL_ELEMENT_ARRAY_BUFFER 24
                  (Some (AsBytes_uint32 indices)) GL_STATIC_DRAW), RVoid) new
    /\ exists va ib,
         @Mesh_draw sample.symbolic m []
         = ([(glBindVertexArray va, RVoid);
             (glBindBuffer GL_ELEMENT_ARRAY_BUFFER ib, RVoid);
             (glDrawElements GL_TRIANGLES 6 GL_UNSIGNED_INT 0, RVoid)], Ok tt).
Proof.
  destruct (mesh_draws_every_index (scripted [1; 2; 3]) vertices indices 0 [])
    as (new & m & va & ib & Hrun & _ & _ & _ & _ & Hvs & His & _ & _ & Hdraw);
    [vm_compute; reflexivity|].
  exists new, m. split; [exact Hrun|]. split; [exact Hvs|]. split; [exact His|].
  exists (vao_ va), (ibo_ ib). exact (Hdraw []).
Defined.

End resource_facts.

(** ** Moves followed by destruction *)

Module handle_facts.
Import gl renderer wrappers.

Section Handles.
Context `{Glm}.

(** X19. Move construction hands the GL name over, and with it the duty
    to delete it.  For [ShaderProgram], [VertexBuffer], [IndexBuffer] and
    [Texture], destroying the constructed object makes exactly the calls
    that destroying the source would have made, and destroying the
    moved-from object only deletes the name 0.  For [VertexArray] the move
    constructor does not move the pointer to the vertex buffer: the
    destructor of the constructed object deletes the array and never a
    buffer, while the destructor of the moved-from object deletes the name
    0 and then, if it holds the buffer as its last owner, the vertex
    buffer. *)
Theorem move_hands_over_deletion (p : ShaderProgram) (vb : VertexBuffer)
    (ib raw_ib : IndexBuffer) (va : VertexArray) (t raw_t : Texture)
    (use_count : Z) (h : list Event) :
  (ShaderProgram_dtor (fst (ShaderProgram_move p)) h = ShaderProgram_dtor p h
   /\ ShaderProgram_dtor (snd (ShaderProgram_move p)) h
      = ([(glDeleteProgram 0, RVoid)], Ok tt))
  /\ (VertexBuffer_dtor (fst (VertexBuffer_move vb)) h = VertexBuffer_dtor vb h
      /\ VertexBuffer_dtor (snd (VertexBuffer_move vb)) h
         = ([(glDeleteBuffers 0, RVoid)], Ok tt))
  /\ (IndexBuffer_dtor (fst (IndexBuffer_move raw_ib ib)) h
      = IndexBuffer_dtor ib h
      /\ IndexBuffer_dtor (snd (IndexBuffer_move raw_ib ib)) h
         = ([(glDeleteBuffers 0, RVoid)], Ok tt))
  /\ (Texture_dtor (fst (Texture_move raw_t t)) h = Texture_dtor t h
      /\ Texture_dtor (snd (Texture_move raw_t t)) h
         = ([(glDeleteTextures 0, RVoid); (glDeleteBuffers 0, RVoid)], Ok tt))
  /\ (VertexArray_dtor (fst (VertexArray_move va)) use_count h
      = ([(glDeleteVertexArrays (vao_ va), RVoid)], Ok tt)
      /\ VertexArray_dtor (snd (VertexArray_move va)) use_count h
         = ((glDeleteVertexArrays 0, RVoid)
            :: match va_vbo_ va with
               | Some b =>
                   if use_count =? 1 then [(glDeleteBuffers (vbo_ b), RVoid)]
                   else []
               | None => []
               end,
            Ok tt)).
Proof.
  split; [split; reflexivity|].
  split; [split; reflexivity|].
  split; [split; reflexivity|].
  split; [split; reflexivity|].
  split; [reflexivity|].
  unfold VertexArray_dtor, VertexArray_move, shared_ptr_VertexBuffer_dtor.
  cbn [snd va_vbo_ vao_].
  destruct (va_vbo_ va) as [b|]; [|reflexivity].
  unfold bind, call_void. cbn.
  destruct (use_count =? 1); reflexivity.
Qed.

End Handles.
End handle_facts.
